(** * APX node model of py-apx ([apx/node.py])

    A shallow embedding of the node data model and of the type-signature
    codec: integer width classification, the data type registry, the
    initial-value deriver, serialization and mirroring.

    Python objects with identity (data types, ports) live in a store and
    are referred to by address; a [Node] holds its lists and its lookup
    table by value, since no two nodes ever share a list or a dict.
    Exceptions are values of [Py.exn]; a method of [Node] is a function
    from the state to the state and a result, so that what was mutated
    before an exception is raised stays mutated. *)

From Stdlib Require Import ZArith String Ascii List Lia.
From Stdlib Require Decimal Hexadecimal DecimalString DecimalZ HexadecimalN.
From stdpp Require Import base option list gmap strings.

#[local] Set Warnings "-register-all".
Local Open Scope string_scope.

(** ** The Python fragment the source relies on *)

Module Py.

(** The exceptions raised by the modelled code, with their messages. *)
Inductive exn : Type :=
| ValueError (msg : string)
| NotImplementedError (msg : string)
| AttributeError (attribute : string)
| NameError (name : string)
| TypeError (msg : string)
| AssertionError
| RecursionError
| Exception (msg : string).

Inductive result (A : Type) : Type :=
| Ok (a : A)
| Raise (e : exn).
Global Arguments Ok {A} a.
Global Arguments Raise {A} e.

Definition bind {A B : Type} (r : result A) (k : A → result B) : result B :=
  match r with
  | Ok a => k a
  | Raise e => Raise e
  end.

(** The double quote character, as a one-character string. *)
Definition dquote : string := String (ascii_of_nat 34) EmptyString.

(** ["%d" % z] *)
Definition fmt_d (z : Z) : string :=
  DecimalString.NilZero.string_of_int (Z.to_int z).

(** Upper-case hexadecimal digits of a numeral, most significant first. *)
Fixpoint hex_upper (d : Hexadecimal.uint) : string :=
  match d with
  | Hexadecimal.Nil => EmptyString
  | Hexadecimal.D0 d => String "0" (hex_upper d)
  | Hexadecimal.D1 d => String "1" (hex_upper d)
  | Hexadecimal.D2 d => String "2" (hex_upper d)
  | Hexadecimal.D3 d => String "3" (hex_upper d)
  | Hexadecimal.D4 d => String "4" (hex_upper d)
  | Hexadecimal.D5 d => String "5" (hex_upper d)
  | Hexadecimal.D6 d => String "6" (hex_upper d)
  | Hexadecimal.D7 d => String "7" (hex_upper d)
  | Hexadecimal.D8 d => String "8" (hex_upper d)
  | Hexadecimal.D9 d => String "9" (hex_upper d)
  | Hexadecimal.Da d => String "A" (hex_upper d)
  | Hexadecimal.Db d => String "B" (hex_upper d)
  | Hexadecimal.Dc d => String "C" (hex_upper d)
  | Hexadecimal.Dd d => String "D" (hex_upper d)
  | Hexadecimal.De d => String "E" (hex_upper d)
  | Hexadecimal.Df d => String "F" (hex_upper d)
  end.

(** ["%X" % n] for a natural number [n]. *)
Definition fmt_X (n : N) : string := hex_upper (N.to_hex_uint n).

(** ["%02X" % z]: sign, then the digits, zero-padded to a total width of
    two characters. *)
Definition fmt_02X (z : Z) : string :=
  match z with
  | Zneg p => "-" ++ fmt_X (Npos p)
  | _ =>
      let digits := fmt_X (Z.to_N z) in
      if (String.length digits <? 2)%nat then "0" ++ digits else digits
  end.

(** ["%s" % x] where [x] is a string or [None]. *)
Definition fmt_s (x : option string) : string :=
  match x with
  | Some s => s
  | None => "None"
  end.

(** ["%s" % x] where [x] is an integer or [None]. *)
Definition fmt_s_int (x : option nat) : string :=
  match x with
  | Some n => fmt_d (Z.of_nat n)
  | None => "None"
  end.

(** [sep.join(parts)] *)
Definition join (sep : string) (parts : list string) : string :=
  String.concat sep parts.

(** [s.endswith(suffix)] *)
Definition endswith (s suffix : string) : bool :=
  (String.length suffix <=? String.length s)%nat
  && String.eqb
       (substring (String.length s - String.length suffix)
          (String.length suffix) s)
       suffix.

(** [s[:-k]] *)
Definition drop_last (k : nat) (s : string) : string :=
  substring 0 (String.length s - k) s.

(** [int(math.ceil(math.log(x, 2)))] for an integer [x].  The logarithm
    of a non-positive number is a [ValueError].  For a positive number
    the code divides two floating-point logarithms; here the exact
    rounded-up logarithm is taken instead.  The two differ at some
    powers of two from [2^29] on, where the quotient comes out just
    above the integer and is rounded up to the next one, and just above
    the powers of two from [2^49] on, where it comes out as the integer
    itself.  They agree for every number up to [2^28], and at [2^8],
    [2^16], [2^32] and [2^64].  The properties below that are stated of
    the code keep to what does not depend on the difference. *)
Definition ceil_log2 (x : Z) : result Z :=
  if (x <=? 0)%Z then Raise (ValueError "math domain error")
  else Ok (Z.log2_up x).

(** Value of an upper-case hexadecimal literal, to read back what
    [fmt_X] wrote. *)
Definition hex_digit_value (c : ascii) : option N :=
  let n := N_of_ascii c in
  if ((48 <=? n) && (n <=? 57))%N then Some (n - 48)%N
  else if ((65 <=? n) && (n <=? 70))%N then Some (n - 55)%N
  else None.

Fixpoint hex_value_from (acc : N) (s : string) : option N :=
  match s with
  | EmptyString => Some acc
  | String c s =>
      match hex_digit_value c with
      | Some v => hex_value_from (16 * acc + v) s
      | None => None
      end
  end.

Definition hex_value (s : string) : option N :=
  match s with
  | EmptyString => None
  | _ => hex_value_from 0 s
  end.

End Py.

Import Py.

Notation "x <- c1 ;; c2" := (Py.bind c1 (fun x => c2))
  (at level 100, c1 at next level, right associativity, only parsing).

(** ** The foreign component model, as far as the source reads it

    The classes of package [autosar] are not part of this code base; an
    object of that package is modelled by its class and by the attributes
    the source reads. *)

Module autosar.

(** [autosar.constant]: the values a constant can hold.  [OtherValue]
    stands for an object of any other class; [type_name] is what
    [str(type(x))] gives for it. *)
Inductive value : Type :=
| IntegerValue (v : Z)
| StringValue (s : string)
| RecordValue (elements : list value)
| ArrayValue (elements : list value)
| OtherValue (type_name : string).

(** Elements of a [CompuMethodConst]. *)
Inductive CompuElement : Type :=
| CompuConstElement (textValue : string)
| OtherCompuElement.

(** A data element of an interface, or an element of a record type:
    both carry a name and a reference to their type. *)
Record TypedElement : Type := mkTypedElement {
  elem_name : string;
  typeRef : string
}.

(** The class of an object found in a workspace, with its attributes. *)
Inductive element_class : Type :=
| BooleanDataType
| IntegerDataType (minVal maxVal : Z)
| ArrayDataType (typeRef : string) (length : Z)
| StringDataType (length : Z)
| RecordDataType (elements : list TypedElement)
| SenderReceiverInterface (dataElements : list TypedElement)
| Constant (value : value)
| Value (v : value)
| CompuMethodConst (elements : list CompuElement)
| OtherElement (type_name : string).

Record element : Type := mkElement {
  name : string;
  class : element_class
}.

(** A workspace: [ws.find(ref)] and [ws.find(ref, role=r)]. *)
Record Workspace : Type := mkWorkspace {
  find : string → option element;
  find_role : string → string → option element
}.

(** [autosar.component]: communication specifications and ports. *)
Inductive ComSpec : Type :=
| DataElementComSpec (initValueRef : option string)
| OtherComSpec.

Inductive port_class : Type :=
| RequirePort
| ProvidePort
| OtherPort (type_name : string).

Record Port : Type := mkPort {
  port_cls : port_class;
  port_name : string;
  portInterfaceRef : string;
  comspec : list ComSpec;
  rootWS : option Workspace
}.

Record AtomicSoftwareComponent : Type := mkSwc {
  swc_name : string;
  providePorts : list Port;
  requirePorts : list Port
}.

(** [str(type(x))], the text by which the code names the class of an
    object in a message: the class under the path by which [node.py]
    refers to it; for an object of another class, its [type_name]. *)
Definition class_name (c : element_class) : string :=
  match c with
  | BooleanDataType => "<class 'autosar.datatype.BooleanDataType'>"
  | IntegerDataType _ _ => "<class 'autosar.datatype.IntegerDataType'>"
  | ArrayDataType _ _ => "<class 'autosar.datatype.ArrayDataType'>"
  | StringDataType _ => "<class 'autosar.datatype.StringDataType'>"
  | RecordDataType _ => "<class 'autosar.datatype.RecordDataType'>"
  | SenderReceiverInterface _ =>
      "<class 'autosar.portinterface.SenderReceiverInterface'>"
  | Constant _ => "<class 'autosar.constant.Constant'>"
  | Value (IntegerValue _) => "<class 'autosar.constant.IntegerValue'>"
  | Value (StringValue _) => "<class 'autosar.constant.StringValue'>"
  | Value (RecordValue _) => "<class 'autosar.constant.RecordValue'>"
  | Value (ArrayValue _) => "<class 'autosar.constant.ArrayValue'>"
  | Value (OtherValue type_name) => type_name
  | CompuMethodConst _ => "<class 'autosar.datatype.CompuMethodConst'>"
  | OtherElement type_name => type_name
  end.

(** [dataType.<attribute>] for an integer-valued attribute: an integer
    data type has [minVal] and [maxVal]; reading any other attribute name
    is an [AttributeError]. *)
Definition getattr (dataType : element) (attribute : string) : result Z :=
  match class dataType with
  | IntegerDataType minVal maxVal =>
      if String.eqb attribute "minVal" then Ok minVal
      else if String.eqb attribute "maxVal" then Ok maxVal
      else Raise (AttributeError attribute)
  | _ => Raise (AttributeError attribute)
  end.

End autosar.

(** [a <= b] where [a] may be [None]: ordering [None] against an integer
    is a [TypeError]. *)
Definition py_le (a : option Z) (b : Z) : result bool :=
  match a with
  | Some a => Ok (a <=? b)%Z
  | None => Raise (TypeError "'<=' not supported between instances of 'NoneType' and 'int'")
  end.

(** ** Signature grammar: integer width classification *)

(** [_calcUIntTypeLen]: number of bits needed for the unsigned range. *)
Definition _calcUIntTypeLen (dataType : autosar.element) : result (option Z) :=
  match autosar.class dataType with
  | autosar.IntegerDataType _ maxVal =>
      bits <- ceil_log2 maxVal ;; Ok (Some bits)
  | _ => Ok None
  end.

(** [_calcIntTypeLen]: the same for signed integers. *)
Definition _calcIntTypeLen (dataType : autosar.element) : result (option Z) :=
  match autosar.class dataType with
  | autosar.IntegerDataType _ maxVal =>
      bits <- ceil_log2 (Z.abs maxVal) ;; Ok (Some (bits + 1)%Z)
  | _ => Ok None
  end.

(** ['C(%d,%d)' % (lo, hi)] and ['c(%d,%d)' % (lo, hi)] *)
Definition ranged (code : string) (lo hi : Z) : string :=
  code ++ "(" ++ fmt_d lo ++ "," ++ fmt_d hi ++ ")".

(** [_getIntegerTypeCode].  The result is [None] when no branch returns
    (more than 64 bits). *)
Definition _getIntegerTypeCode (dataType : autosar.element)
  : result (option string) :=
  minVal <- autosar.getattr dataType "minVal" ;;
  if (minVal >=? 0)%Z then
    bits <- _calcUIntTypeLen dataType ;;
    le8 <- py_le bits 8 ;;
    if le8 then
      lo <- autosar.getattr dataType "minVal" ;;
      narrow <- (if (lo >? 0)%Z then Ok true
                 else hi <- autosar.getattr dataType "maxVal" ;;
                      Ok (hi <? 255)%Z) ;;
      if narrow then
        lo <- autosar.getattr dataType "minVal" ;;
        hi <- autosar.getattr dataType "maxVal" ;;
        Ok (Some (ranged "C" lo hi))
      else Ok (Some "C")
    else
      le16 <- py_le bits 16 ;;
      if le16 then Ok (Some "S")
      else
        le32 <- py_le bits 32 ;;
        if le32 then Ok (Some "L")
        else
          le64 <- py_le bits 64 ;;
          if le64 then Ok (Some "U") else Ok None
  else
    minVal <- autosar.getattr dataType "minVal" ;;
    if (minVal <? 0)%Z then
      bits <- _calcIntTypeLen dataType ;;
      le8 <- py_le bits 8 ;;
      if le8 then
        lo <- autosar.getattr dataType "minval" ;;
        narrow <- (if (lo >? -128)%Z then Ok true
                   else hi <- autosar.getattr dataType "maxVal" ;;
                        Ok (hi <? 127)%Z) ;;
        if narrow then
          lo <- autosar.getattr dataType "minval" ;;
          hi <- autosar.getattr dataType "maxVal" ;;
          Ok (Some (ranged "c" lo hi))
        else Ok (Some "c")
      else
        le16 <- py_le bits 16 ;;
        if le16 then Ok (Some "s")
        else
          le32 <- py_le bits 32 ;;
          if le32 then Ok (Some "l")
          else
            le64 <- py_le bits 64 ;;
            if le64 then Ok (Some "u") else Ok None
    else
      _ <- autosar.getattr dataType "minval" ;;
      Ok None.

(** ** Initial-value deriver *)

(** [Node._deriveInitValueFromAutosarConstant] *)
Fixpoint _deriveInitValueFromAutosarConstant (item : autosar.value)
  : result string :=
  let derive_all :=
    fix derive_all (xs : list autosar.value) : result (list string) :=
      match xs with
      | [] => Ok []
      | x :: xs =>
          s <- _deriveInitValueFromAutosarConstant x ;;
          ss <- derive_all xs ;;
          Ok (s :: ss)
      end in
  match item with
  | autosar.IntegerValue v =>
      if (v >? 255)%Z then Ok ("0x" ++ fmt_02X v) else Ok (fmt_d v)
  | autosar.StringValue s => Ok (dquote ++ s ++ dquote)
  | autosar.RecordValue elements =>
      tmp <- derive_all elements ;; Ok ("{" ++ join "," tmp ++ "}")
  | autosar.ArrayValue elements =>
      tmp <- derive_all elements ;; Ok ("{" ++ join "," tmp ++ "}")
  | autosar.OtherValue type_name => Raise (NotImplementedError type_name)
  end.

(** ** Package [apx]: data types, ports and what lies outside [node.py] *)

Module apx.

Inductive port_class : Type :=
| RequirePort
| ProvidePort.

Module DataType.
(** An [apx.DataType] object.  [id] is [None] until the node assigns it. *)
Record t (D : Type) : Type := mk {
  name : string;
  id : option nat;
  dsg : D;
  attr : option string
}.
Global Arguments mk {D} name id dsg attr.
Global Arguments name {D} t.
Global Arguments id {D} t.
Global Arguments dsg {D} t.
Global Arguments attr {D} t.
End DataType.

Module Port.
(** An [apx.RequirePort] or [apx.ProvidePort] object. *)
Record t (D : Type) : Type := mk {
  cls : port_class;
  name : string;
  dsg : D;
  attr : option string;
  id : option nat
}.
Global Arguments mk {D} cls name dsg attr id.
Global Arguments cls {D} t.
Global Arguments name {D} t.
Global Arguments dsg {D} t.
Global Arguments attr {D} t.
Global Arguments id {D} t.
End Port.

(** Class [apx.DataSignature] is defined outside [node.py]; the node
    code only constructs signatures from text, prints them, asks whether
    they are type references and resolves them against a type list.
    These operations are taken as parameters. *)
Class Base : Type := {
  DataSignature : Type;
  DataSignature_inhabited :: Inhabited DataSignature;
  (** [apx.DataSignature(text, parent)] *)
  DataSignature_new : option string → result DataSignature;
  (** [str(dsg)] *)
  DataSignature_str : DataSignature → string;
  (** [dsg.dataElement.isReference] *)
  isReference : DataSignature → bool;
  (** [dsg.resolve_data_element(typeList)]: the signature after
      resolution, or the exception raised *)
  resolve_data_element :
    DataSignature → list (DataType.t DataSignature) → result DataSignature
}.

End apx.

Import apx.

Abbreviation DataType := (DataType.t DataSignature).
Abbreviation Port := (Port.t DataSignature).

#[global] Instance DataType_inhabited `{Base} : Inhabited DataType :=
  populate (DataType.mk EmptyString None inhabitant None).

#[global] Instance Port_inhabited `{Base} : Inhabited Port :=
  populate (Port.mk RequirePort EmptyString inhabitant None None).

(** Bound on the nesting of calls ([sys.getrecursionlimit()]); exceeding
    it raises [RecursionError]. *)
Definition recursion_limit : nat := 1000.

Section AutosarDataType.
Context `{Base}.

(** [AutosarDataType._calcAttribute] *)
Definition _calcAttribute (dataType typeSemantics : autosar.element)
  : result (option string) :=
  match autosar.class typeSemantics with
  | autosar.CompuMethodConst elements =>
      values <- (fix each (elems : list autosar.CompuElement) :=
                   match elems with
                   | [] => Ok []
                   | autosar.CompuConstElement textValue :: elems =>
                       values <- each elems ;; Ok (textValue :: values)
                   | autosar.OtherCompuElement :: _ => Raise AssertionError
                   end) elements ;;
      let v := join "," (map (fun x => dquote ++ x ++ dquote) values) in
      Ok (Some ("VT(" ++ v ++ ")"))
  | _ => Ok None
  end.

(** [elem.name] with a trailing [_RE] removed.  The source also stores
    the shortened name back into the foreign element, so that a name
    that still ends in [_RE] is shortened again when the element is
    visited again.  The workspace is read-only here: the model is the
    code for the first visit of an element, and for every visit when the
    names are settled (see [settled] below). *)
Definition strip_RE (elem_name : string) : string :=
  if endswith elem_name "_RE" then drop_last 3 elem_name else elem_name.

(** [AutosarDataType._calcDataSignature]; [depth] bounds the nesting of
    record types. *)
Fixpoint _calcDataSignature (depth : nat) (ws : autosar.Workspace)
  (dataType : autosar.element) : result (option string) :=
  match depth with
  | O => Raise RecursionError
  | S depth =>
      match autosar.class dataType with
      | autosar.BooleanDataType => Ok (Some "C(0,1)")
      | autosar.IntegerDataType _ _ => _getIntegerTypeCode dataType
      | autosar.ArrayDataType _ _ => Raise (NameError "typeData")
      | autosar.StringDataType length =>
          Ok (Some ("a[" ++ fmt_d (length + 1) ++ "]"))
      | autosar.RecordDataType elements =>
          (fix each (elems : list autosar.TypedElement) (result : string) :=
             match elems with
             | [] => Ok (Some (result ++ "}"))
             | elem :: elems =>
                 let elem_name := strip_RE (autosar.elem_name elem) in
                 match autosar.find_role ws (autosar.typeRef elem) "DataType" with
                 | None =>
                     Raise (ValueError ("invalid type reference: "
                                        ++ autosar.typeRef elem))
                 | Some childType =>
                     child <- _calcDataSignature depth ws childType ;;
                     each elems
                       (result ++ dquote ++ elem_name ++ dquote ++ fmt_s child)
                 end
             end) elements "{"
      | other =>
          Raise (Exception ("unhandled data type: " ++ autosar.class_name other))
      end
  end.

(** [AutosarDataType.__init__]: the new object, before it has an id. *)
Definition AutosarDataType (ws : autosar.Workspace)
  (dataType : autosar.element) : result DataType :=
  text <- _calcDataSignature recursion_limit ws dataType ;;
  dsg <- DataSignature_new text ;;
  attr <- match autosar.find ws ("/DataType/DataTypeSemantics/"
                                 ++ autosar.name dataType) with
          | Some typeSemantics => _calcAttribute dataType typeSemantics
          | None => Ok None
          end ;;
  Ok (DataType.mk (autosar.name dataType) None dsg attr).

(** [AutosarDataType.__str__]; also taken for a data type of the base
    class, whose [__str__] lies outside [node.py]. *)
Definition DataType_str (d : DataType) : string :=
  match DataType.attr d with
  | Some attr =>
      "T" ++ dquote ++ DataType.name d ++ dquote
      ++ DataSignature_str (DataType.dsg d) ++ ":" ++ attr
  | None =>
      "T" ++ dquote ++ DataType.name d ++ dquote
      ++ DataSignature_str (DataType.dsg d)
  end.

(** Modelled from the spec: the constructors [apx.RequirePort] and
    [apx.ProvidePort], which [node.py] calls and does not define.  A port
    carries its name, the signature built from the given text and the
    optional attribute string; it has no id until a node assigns one. *)
Definition Port_new (cls : port_class) (name text : string)
  (attr : option string) : result Port :=
  dsg <- DataSignature_new (Some text) ;;
  Ok (Port.mk cls name dsg attr None).

(** Modelled from the spec: [Port.resolve_type(typeList)], which
    [node.py] calls and does not define: the port with its signature
    resolved against the type list, or the failure of the resolution. *)
Definition Port_resolve_type (port : Port) (typeList : list DataType)
  : result Port :=
  dsg <- resolve_data_element (Port.dsg port) typeList ;;
  Ok (Port.mk (Port.cls port) (Port.name port) dsg (Port.attr port)
        (Port.id port)).

(** Modelled from the spec: [Port.mirror()], which [node.py] calls and
    does not define: a new port of the opposite class with the same name,
    signature and attribute.  Like the [mirror] methods that [node.py]
    does define, it builds a new object and carries no id over. *)
Definition Port_mirror (port : Port) : Port :=
  Port.mk
    (match Port.cls port with
     | RequirePort => ProvidePort
     | ProvidePort => RequirePort
     end)
    (Port.name port) (Port.dsg port) (Port.attr port) None.

(** Modelled from the spec: [Port.__str__], which [node.py] calls and
    does not define: role marker, quoted name, signature and, when
    present, a colon and the attribute. *)
Definition Port_str (port : Port) : string :=
  let marker := match Port.cls port with
                | RequirePort => "R"
                | ProvidePort => "P"
                end in
  match Port.attr port with
  | Some attr =>
      marker ++ dquote ++ Port.name port ++ dquote
      ++ DataSignature_str (Port.dsg port) ++ ":" ++ attr
  | None =>
      marker ++ dquote ++ Port.name port ++ dquote
      ++ DataSignature_str (Port.dsg port)
  end.

End AutosarDataType.

(** ** The node *)

Module Node.

(** The attributes of a [Node] object.  The lists and the lookup table
    hold addresses of objects in the store. *)
Record t : Type := mk {
  name : option string;
  dataTypes : list nat;
  requirePorts : list nat;
  providePorts : list nat;
  dataTypeMap : gmap string nat
}.

(** [Node.__init__] *)
Definition new (name : option string) : t := mk name [] [] [] ∅.

End Node.

(** The state a method of [Node] runs in: the store of data type objects,
    the store of port objects, and the attributes of [self]. *)
Record State `{Base} : Type := mkState {
  types : list DataType;
  ports : list Port;
  self : Node.t
}.
Arguments mkState {_} types ports self.

(** A method: it returns the state it leaves behind together with its
    result or the exception it raised. *)
Definition M `{Base} (A : Type) : Type := State → State * result A.

Section Monad.
Context `{Base}.

Definition ret {A : Type} (a : A) : M A := fun s => (s, Ok a).

Definition raise {A : Type} (e : exn) : M A := fun s => (s, Raise e).

Definition lift {A : Type} (r : result A) : M A := fun s => (s, r).

Definition bindM {A B : Type} (m : M A) (k : A → M B) : M B :=
  fun s =>
    match m s with
    | (s', Ok a) => k a s'
    | (s', Raise e) => (s', Raise e)
    end.

Definition get : M State := fun s => (s, Ok s).

End Monad.

Notation "x <~ c1 ;; c2" := (bindM c1 (fun x => c2))
  (at level 100, c1 at next level, right associativity, only parsing).
Notation "c1 ;;; c2" := (bindM c1 (fun _ => c2))
  (at level 100, right associativity, only parsing).

Section Node.
Context `{Base}.

(** *** Reading and writing objects and attributes *)

(** A new data type object; its address is returned. *)
Definition new_type (d : DataType) : M nat :=
  fun s => (mkState (types s ++ [d])%list (ports s) (self s), Ok (length (types s))).

(** A new port object; its address is returned. *)
Definition new_port (p : Port) : M nat :=
  fun s => (mkState (types s) (ports s ++ [p])%list (self s), Ok (length (ports s))).

Definition set_type (l : nat) (d : DataType) : M unit :=
  fun s => (mkState (<[l:=d]> (types s)) (ports s) (self s), Ok tt).

Definition set_port (l : nat) (p : Port) : M unit :=
  fun s => (mkState (types s) (<[l:=p]> (ports s)) (self s), Ok tt).

Definition set_self (n : Node.t) : M unit :=
  fun s => (mkState (types s) (ports s) n, Ok tt).

(** The data type [d] with its id set to [n]. *)
Definition DataType_with_id (d : DataType) (n : nat) : DataType :=
  DataType.mk (DataType.name d) (Some n) (DataType.dsg d) (DataType.attr d).

(** The data type [d] with its signature replaced by [dsg]. *)
Definition DataType_with_dsg (d : DataType) (dsg : DataSignature) : DataType :=
  DataType.mk (DataType.name d) (DataType.id d) dsg (DataType.attr d).

(** The port [p] with its id set to [n]. *)
Definition Port_with_id (p : Port) (n : nat) : Port :=
  Port.mk (Port.cls p) (Port.name p) (Port.dsg p) (Port.attr p) (Some n).

(** [item.id = n] for a data type object *)
Definition set_type_id (item : nat) (n : nat) : M unit :=
  s <~ get ;;
  set_type item (DataType_with_id (types s !!! item) n).

(** [port.id = n] for a port object *)
Definition set_port_id (port : nat) (n : nat) : M unit :=
  s <~ get ;;
  set_port port (Port_with_id (ports s !!! port) n).

(** [self.name = name] *)
Definition set_name (name : option string) : M unit :=
  s <~ get ;;
  let n := self s in
  set_self (Node.mk name (Node.dataTypes n) (Node.requirePorts n)
              (Node.providePorts n) (Node.dataTypeMap n)).

(** [self.dataTypeMap[name] = item] *)
Definition dataTypeMap_set (name : string) (item : nat) : M unit :=
  s <~ get ;;
  let n := self s in
  set_self (Node.mk (Node.name n) (Node.dataTypes n) (Node.requirePorts n)
              (Node.providePorts n) (<[name:=item]> (Node.dataTypeMap n))).

(** [self.dataTypes.append(item)] *)
Definition dataTypes_append (item : nat) : M unit :=
  s <~ get ;;
  let n := self s in
  set_self (Node.mk (Node.name n) (Node.dataTypes n ++ [item])%list
              (Node.requirePorts n) (Node.providePorts n) (Node.dataTypeMap n)).

(** [self.requirePorts.append(port)] *)
Definition requirePorts_append (port : nat) : M unit :=
  s <~ get ;;
  let n := self s in
  set_self (Node.mk (Node.name n) (Node.dataTypes n)
              (Node.requirePorts n ++ [port])%list (Node.providePorts n)
              (Node.dataTypeMap n)).

(** [self.providePorts.append(port)] *)
Definition providePorts_append (port : nat) : M unit :=
  s <~ get ;;
  let n := self s in
  set_self (Node.mk (Node.name n) (Node.dataTypes n) (Node.requirePorts n)
              (Node.providePorts n ++ [port])%list (Node.dataTypeMap n)).

(** The objects a list of addresses refers to, in order. *)
Definition deref {A : Type} `{Inhabited A} (store : list A) (ls : list nat)
  : list A :=
  map (fun l => store !!! l) ls.

(** *** Import from the foreign model *)

(** [Node._updateDataType] *)
Definition _updateDataType (ws : autosar.Workspace) (port : autosar.Port)
  : M (option nat) :=
  match autosar.find ws (autosar.portInterfaceRef port) with
  | Some portInterface =>
      match autosar.class portInterface with
      | autosar.SenderReceiverInterface dataElements =>
          match dataElements with
          | [dataElement] =>
              match autosar.find ws (autosar.typeRef dataElement) with
              | None => raise AssertionError
              | Some dataType =>
                  s <~ get ;;
                  match Node.dataTypeMap (self s) !! autosar.name dataType with
                  | None =>
                      d <~ lift (AutosarDataType ws dataType) ;;
                      item <~ new_type d ;;
                      set_type_id item (length (Node.dataTypes (self s))) ;;;
                      dataTypeMap_set (autosar.name dataType) item ;;;
                      dataTypes_append item ;;;
                      ret (Some item)
                  | Some item => ret (Some item)
                  end
              end
          | [] => ret None
          | _ :: _ :: _ =>
              raise (NotImplementedError
                "SenderReceiverInterface with more than 1 element not supported")
          end
      | _ => ret None
      end
  | None => ret None
  end.

(** [Node._calcAttributeFromAutosarPort] *)
Definition _calcAttributeFromAutosarPort (ws : autosar.Workspace)
  (port : autosar.Port) : result (option string) :=
  match autosar.comspec port with
  | [autosar.DataElementComSpec (Some initValueRef)] =>
      match autosar.find ws initValueRef with
      | None =>
          Raise (ValueError ("invalid init value reference: " ++ initValueRef))
      | Some initValue =>
          let initValue :=
            match autosar.class initValue with
            | autosar.Constant value => value
            | autosar.Value v => v
            | other => autosar.OtherValue (autosar.class_name other)
            end in
          text <- _deriveInitValueFromAutosarConstant initValue ;;
          Ok (Some ("=" ++ text))
      end
  | _ => Ok None
  end.

(** [Node.add_require_port] *)
Definition add_require_port (port : nat) : M nat :=
  s <~ get ;;
  set_port_id port (length (Node.requirePorts (self s))) ;;;
  s <~ get ;;
  (if isReference (Port.dsg (ports s !!! port)) then
     p <~ lift (Port_resolve_type (ports s !!! port)
                  (deref (types s) (Node.dataTypes (self s)))) ;;
     set_port port p
   else ret tt) ;;;
  requirePorts_append port ;;;
  ret port.

(** [Node.add_provide_port] *)
Definition add_provide_port (port : nat) : M nat :=
  s <~ get ;;
  set_port_id port (length (Node.providePorts (self s))) ;;;
  s <~ get ;;
  (if isReference (Port.dsg (ports s !!! port)) then
     p <~ lift (Port_resolve_type (ports s !!! port)
                  (deref (types s) (Node.dataTypes (self s)))) ;;
     set_port port p
   else ret tt) ;;;
  providePorts_append port ;;;
  ret port.

(** [if ws is None: ws = port.rootWS()] *)
Definition workspace_of (port : autosar.Port) (ws : option autosar.Workspace)
  : option autosar.Workspace :=
  match ws with
  | None => autosar.rootWS port
  | Some ws => Some ws
  end.

(** [Node.add_autosar_port].  The result is [None] when the method
    returns without a value. *)
Definition add_autosar_port (port : autosar.Port)
  (ws : option autosar.Workspace) : M (option nat) :=
  match workspace_of port ws with
  | None => raise AssertionError
  | Some ws =>
      dataType <~ _updateDataType ws port ;;
      match dataType with
      | Some dataType =>
          match autosar.port_cls port with
          | autosar.RequirePort =>
              s <~ get ;;
              attr <~ lift (_calcAttributeFromAutosarPort ws port) ;;
              p <~ lift (Port_new RequirePort (autosar.port_name port)
                           ("T[" ++ fmt_s_int (DataType.id (types s !!! dataType))
                            ++ "]") attr) ;;
              apx_port <~ new_port p ;;
              r <~ add_require_port apx_port ;;
              ret (Some r)
          | autosar.ProvidePort =>
              s <~ get ;;
              attr <~ lift (_calcAttributeFromAutosarPort ws port) ;;
              p <~ lift (Port_new ProvidePort (autosar.port_name port)
                           ("T[" ++ fmt_s_int (DataType.id (types s !!! dataType))
                            ++ "]") attr) ;;
              apx_port <~ new_port p ;;
              r <~ add_provide_port apx_port ;;
              ret (Some r)
          | autosar.OtherPort type_name =>
              raise (ValueError ("invalid type " ++ type_name))
          end
      | None => ret None
      end
  end.

(** [for x in xs: body(x)] *)
Fixpoint for_each {A : Type} (xs : list A) (body : A → M unit) : M unit :=
  match xs with
  | [] => ret tt
  | x :: xs => body x ;;; for_each xs body
  end.

(** [Node.import_autosar_swc] *)
Definition import_autosar_swc (swc : autosar.AtomicSoftwareComponent)
  (ws : option autosar.Workspace) (name : option string) : M unit :=
  set_name (match name with
            | None => Some (autosar.swc_name swc)
            | Some name => Some name
            end) ;;;
  for_each (autosar.providePorts swc)
    (fun port => add_autosar_port port ws ;;; ret tt) ;;;
  for_each (autosar.requirePorts swc)
    (fun port => add_autosar_port port ws ;;; ret tt).

(** *** Manual construction *)

(** [Node.add_type] *)
Definition add_type (dataType : nat) : M nat :=
  s <~ get ;;
  let name := DataType.name (types s !!! dataType) in
  match Node.dataTypeMap (self s) !! name with
  | None =>
      set_type_id dataType (length (Node.dataTypes (self s))) ;;;
      s <~ get ;;
      let d := types s !!! dataType in
      dsg <~ lift (resolve_data_element (DataType.dsg d)
                     (deref (types s) (Node.dataTypes (self s)))) ;;
      set_type dataType (DataType_with_dsg d dsg) ;;;
      dataTypeMap_set name dataType ;;;
      dataTypes_append dataType ;;;
      ret dataType
  | Some _ =>
      raise (ValueError ("Data type with name " ++ name ++ " already exists"))
  end.

(** *** Serialization *)

(** ['N"%s"' % self.name] *)
Definition header (n : Node.t) : string :=
  "N" ++ dquote ++ fmt_s (Node.name n) ++ dquote.

(** [Node.lines] *)
Definition lines (s : State) : list string :=
  let lines := [header (self s)] in
  let lines :=
    fold_left (fun lines dataType => (lines ++ [DataType_str (types s !!! dataType)])%list)
      (Node.dataTypes (self s)) lines in
  let lines :=
    fold_left (fun lines port => (lines ++ [Port_str (ports s !!! port)])%list)
      (Node.providePorts (self s)) lines in
  let lines :=
    fold_left (fun lines port => (lines ++ [Port_str (ports s !!! port)])%list)
      (Node.requirePorts (self s)) lines in
  lines.

(** [print(text, file=fp)]: the text and a newline are added to [fp]. *)
Definition print (text : string) (fp : string) : string :=
  fp ++ text ++ String (ascii_of_nat 10) EmptyString.

(** [Node.write]: the content of [fp] afterwards. *)
Definition write (s : State) (fp : string) : string :=
  let fp := print (header (self s)) fp in
  let fp :=
    fold_left (fun fp dataType => print (DataType_str (types s !!! dataType)) fp)
      (Node.dataTypes (self s)) fp in
  let fp :=
    fold_left (fun fp port => print (Port_str (ports s !!! port)) fp)
      (Node.providePorts (self s)) fp in
  let fp :=
    fold_left (fun fp port => print (Port_str (ports s !!! port)) fp)
      (Node.requirePorts (self s)) fp in
  fp.

(** *** Mirroring *)

(** [copy.deepcopy] of a list of data type objects: every object is
    copied into a new one, once (a second occurrence of an object in the
    list refers to the same copy); [memo] maps originals to copies. *)
Fixpoint deepcopy (memo : gmap nat nat) (ls : list nat) : M (list nat) :=
  match ls with
  | [] => ret []
  | l :: ls =>
      match memo !! l with
      | Some l' =>
          rest <~ deepcopy memo ls ;;
          ret (l' :: rest)
      | None =>
          s <~ get ;;
          l' <~ new_type (types s !!! l) ;;
          rest <~ deepcopy (<[l:=l']> memo) ls ;;
          ret (l' :: rest)
      end
  end.

(** [[port.mirror() for port in ports]] *)
Fixpoint mirror_ports (ls : list nat) : M (list nat) :=
  match ls with
  | [] => ret []
  | l :: ls =>
      s <~ get ;;
      l' <~ new_port (Port_mirror (ports s !!! l)) ;;
      rest <~ mirror_ports ls ;;
      ret (l' :: rest)
  end.

(** [Node.mirror]: the new node is the result; [self] is left as it is. *)
Definition mirror (name : option string) : M Node.t :=
  s <~ get ;;
  let name := match name with
              | None => Node.name (self s)
              | Some name => Some name
              end in
  let mirror := Node.new name in
  dataTypes <~ deepcopy ∅ (Node.dataTypes (self s)) ;;
  requirePorts <~ mirror_ports (Node.providePorts (self s)) ;;
  providePorts <~ mirror_ports (Node.requirePorts (self s)) ;;
  s' <~ get ;;
  let dataTypeMap :=
    fold_left
      (fun m dataType => <[DataType.name (types s' !!! dataType):=dataType]> m)
      dataTypes (Node.dataTypeMap mirror) in
  ret (Node.mk name dataTypes requirePorts providePorts dataTypeMap).

End Node.

(** ** Notions used to state the properties *)

(** A foreign integer data type with the given bounds. *)
Definition IntegerType (name : string) (minVal maxVal : Z) : autosar.element :=
  autosar.mkElement name (autosar.IntegerDataType minVal maxVal).

(** The unsigned rule as the specification words it: the 8-bit code is
    ranged exactly when [maxVal != 255] or [minVal != 0]. *)
Definition spec_unsigned_code (minVal maxVal : Z) : string :=
  let bits := Z.log2_up maxVal in
  if (bits <=? 8)%Z then
    if negb (maxVal =? 255)%Z || negb (minVal =? 0)%Z
    then ranged "C" minVal maxVal else "C"
  else if (bits <=? 16)%Z then "S"
  else if (bits <=? 32)%Z then "L"
  else "U".

(** The data elements of the interface a foreign port refers to, when
    that interface is a sender-receiver interface. *)
Definition interface_elements (ws : autosar.Workspace) (port : autosar.Port)
  : option (list autosar.TypedElement) :=
  match autosar.find ws (autosar.portInterfaceRef port) with
  | Some portInterface =>
      match autosar.class portInterface with
      | autosar.SenderReceiverInterface dataElements => Some dataElements
      | _ => None
      end
  | None => None
  end.

Section Notions.
Context `{Base}.

(** Every address held by the node refers to an object of the store. *)
Definition valid (s : State) : Prop :=
  Forall (fun l => l < length (types s)) (Node.dataTypes (self s))
  ∧ Forall (fun l => l < length (ports s)) (Node.requirePorts (self s))
  ∧ Forall (fun l => l < length (ports s)) (Node.providePorts (self s))
  ∧ (∀ name l, Node.dataTypeMap (self s) !! name = Some l →
               l < length (types s)).

(** The ports of a list carry their position in the list as id. *)
Definition ids_by_position (s : State) (ls : list nat) : Prop :=
  ∀ i l, ls !! i = Some l → Port.id (ports s !!! l) = Some i.

(** The registry invariant: the type at position [i] of the type
    sequence is an object of the store whose id is [i], and the lookup
    table maps a name to an object exactly when that object is in the
    sequence under that name. *)
Definition registry_ok (s : State) : Prop :=
  (∀ i l, Node.dataTypes (self s) !! i = Some l →
          l < length (types s) ∧ DataType.id (types s !!! l) = Some i)
  ∧ (∀ name l, Node.dataTypeMap (self s) !! name = Some l ↔
               l ∈ Node.dataTypes (self s)
               ∧ DataType.name (types s !!! l) = name).

(** The registry is the same in [s'] as in [s]. *)
Definition same_registry (s s' : State) : Prop :=
  types s' = types s
  ∧ Node.dataTypes (self s') = Node.dataTypes (self s)
  ∧ Node.dataTypeMap (self s') = Node.dataTypeMap (self s).

(** [s'] is [s] with one more data type registered: a new object, of a
    name the lookup table did not have, with the number of types so far
    as id, at the end of the type sequence and in the lookup table. *)
Definition registers (s s' : State) : Prop :=
  ∃ d : DataType,
    Node.dataTypeMap (self s) !! DataType.name d = None
    ∧ types s'
      = (types s ++ [DataType_with_id d (length (Node.dataTypes (self s)))])%list
    ∧ Node.dataTypes (self s')
      = (Node.dataTypes (self s) ++ [length (types s)])%list
    ∧ Node.dataTypeMap (self s')
      = <[DataType.name d:=length (types s)]> (Node.dataTypeMap (self s)).

Definition grows (s s' : State) : Prop :=
  same_registry s s' ∨ registers s s'.

(** A method under which every state is related to its successor. *)
Definition preserves {A : Type} (R : State → State → Prop) (m : M A) : Prop :=
  ∀ s, R s (m s).1.

(** The states a node goes through when it is created empty and then
    only imports foreign ports and components. *)
Inductive imported : State → Prop :=
| imported_new types ports name :
    imported (mkState types ports (Node.new name))
| imported_port s port ws :
    imported s → imported (add_autosar_port port ws s).1
| imported_swc s swc ws name :
    imported s → imported (import_autosar_swc swc ws name s).1.


(** The state in which the node [n] is [self]. *)
Definition with_self (s : State) (n : Node.t) : State :=
  mkState (types s) (ports s) n.

(** What a node observes of the store: its data types in order, its
    provide ports, its require ports, and the data type each name of its
    lookup table leads to. *)
Definition view (s : State) (n : Node.t)
  : list DataType * list Port * list Port * gmap string DataType :=
  (deref (types s) (Node.dataTypes n),
   deref (ports s) (Node.providePorts n),
   deref (ports s) (Node.requirePorts n),
   (fun l => types s !!! l) <$> Node.dataTypeMap n).

End Notions.

(** ** A concrete setting for examples

    Signatures kept as their text: a signature is a type reference when
    its text starts with [T[], and resolution leaves it as it is. *)

Module Sample.

Definition text_base : Base := {|
  DataSignature := option string;
  DataSignature_new := fun text => Ok text;
  DataSignature_str := fmt_s;
  isReference := fun dsg =>
    match dsg with
    | Some text => String.prefix "T[" text
    | None => false
    end;
  resolve_data_element := fun dsg _ => Ok dsg
|}.

(** A workspace with an integer type, interfaces of zero, one and two
    data elements, and a constant. *)
Definition ws : autosar.Workspace :=
  let table (ref : string) : option autosar.element :=
    if String.eqb ref "/DataType/U8Range" then
      Some (IntegerType "U8Range" 0 10)
    else if String.eqb ref "/DataType/Speed" then
      Some (IntegerType "Speed" 0 65535)
    else if String.eqb ref "/PortInterface/Range_I" then
      Some (autosar.mkElement "Range_I"
              (autosar.SenderReceiverInterface
                 [autosar.mkTypedElement "Range" "/DataType/U8Range"]))
    else if String.eqb ref "/PortInterface/Speed_I" then
      Some (autosar.mkElement "Speed_I"
              (autosar.SenderReceiverInterface
                 [autosar.mkTypedElement "Speed" "/DataType/Speed"]))
    else if String.eqb ref "/PortInterface/Pair_I" then
      Some (autosar.mkElement "Pair_I"
              (autosar.SenderReceiverInterface
                 [autosar.mkTypedElement "First" "/DataType/U8Range";
                  autosar.mkTypedElement "Second" "/DataType/Speed"]))
    else if String.eqb ref "/PortInterface/Empty_I" then
      Some (autosar.mkElement "Empty_I" (autosar.SenderReceiverInterface []))
    else if String.eqb ref "/PortInterface/Service_I" then
      Some (autosar.mkElement "Service_I"
              (autosar.OtherElement
                 "<class 'autosar.portinterface.ClientServerInterface'>"))
    else if String.eqb ref "/Constant/Range_IV" then
      Some (autosar.mkElement "Range_IV"
              (autosar.Constant (autosar.IntegerValue 7)))
    else None in
  autosar.mkWorkspace table (fun ref _ => table ref).

Definition port (cls : autosar.port_class) (name interface : string)
  : autosar.Port :=
  autosar.mkPort cls name interface
    [autosar.DataElementComSpec (Some "/Constant/Range_IV")] None.

Definition range_in : autosar.Port :=
  port autosar.RequirePort "RangeIn" "/PortInterface/Range_I".
Definition range_out : autosar.Port :=
  port autosar.ProvidePort "RangeOut" "/PortInterface/Range_I".
Definition speed_out : autosar.Port :=
  port autosar.ProvidePort "SpeedOut" "/PortInterface/Speed_I".
Definition pair_in : autosar.Port :=
  port autosar.RequirePort "PairIn" "/PortInterface/Pair_I".
Definition empty_in : autosar.Port :=
  port autosar.RequirePort "EmptyIn" "/PortInterface/Empty_I".
Definition service_in : autosar.Port :=
  port autosar.RequirePort "ServiceIn" "/PortInterface/Service_I".

(** An empty node in an empty store. *)
Definition empty : @State text_base := mkState [] [] (Node.new (Some "Example")).

(** The node after importing [speed_out] and [range_in]. *)
Definition two_ports : @State text_base :=
  (add_autosar_port range_in (Some ws)
     (add_autosar_port speed_out (Some ws) empty).1).1.

(** A store with one data type object that no node holds yet, and an
    empty node. *)
Definition loose : @State text_base :=
  @mkState text_base
    [DataType.mk "U8" None (Some "C" : @DataSignature text_base) None] []
    (Node.new None).

End Sample.

(** ** The rest of [node.py] *)

(** *** The port classes that [node.py] defines *)

Module AutosarPort.

Inductive port_class : Type :=
| AutosarRequirePort
| AutosarProvidePort.

(** An [AutosarRequirePort] or [AutosarProvidePort] object.  The
    attribute [attr] exists only once it has been assigned: [None] says
    that the object has no such attribute, [Some a] that it has the value
    [a] (a string or [None]). *)
Record t : Type := mk {
  cls : port_class;
  name : string;
  typeId : Z;
  attr : option (option string)
}.

(** [__init__(name, typeId, ws, port)] of either class: with both [ws]
    and [port] given it calls [self._calcAttribute], which neither class
    nor their base class defines. *)
Definition new (cls : port_class) (name : string) (typeId : Z)
  (ws : option autosar.Workspace) (port : option autosar.Port) : result t :=
  match ws, port with
  | Some _, Some _ => Raise (AttributeError "_calcAttribute")
  | _, _ => Ok (mk cls name typeId None)
  end.

Definition marker (cls : port_class) : string :=
  match cls with
  | AutosarRequirePort => "R"
  | AutosarProvidePort => "P"
  end.

(** [__str__] of either class *)
Definition str (p : t) : result string :=
  match attr p with
  | None => Raise (AttributeError "attr")
  | Some (Some a) =>
      Ok (marker (cls p) ++ dquote ++ name p ++ dquote
          ++ "T[" ++ fmt_d (typeId p) ++ "]:" ++ a)
  | Some None =>
      Ok (marker (cls p) ++ dquote ++ name p ++ dquote
          ++ "T[" ++ fmt_d (typeId p) ++ "]")
  end.

(** [mirror] of either class *)
Definition mirror (p : t) : result t :=
  other <- new (match cls p with
                | AutosarRequirePort => AutosarProvidePort
                | AutosarProvidePort => AutosarRequirePort
                end) (name p) (typeId p) None None ;;
  match attr p with
  | None => Raise (AttributeError "attr")
  | Some a => Ok (mk (cls other) (name other) (typeId other) (Some a))
  end.

End AutosarPort.

(** *** Finding, resolving, appending *)

(** A reference to an object of a node: a data type or a port. *)
Inductive object_ref : Type :=
| TypeRef (l : nat)
| PortRef (l : nat).

(** What [Node.append] accepts: a data type object, a port object of
    package [apx], a foreign port, a line of text, or an object of any
    other class. *)
Inductive item : Type :=
| DataTypeItem (dataType : nat)
| PortItem (port : nat)
| AutosarPortItem (port : autosar.Port)
| TextItem (text : string)
| OtherItem (type_name : string).

Section NodeRest.
Context `{Base}.

(** Modelled from the spec: the line tokenizer [apx_split_line] of
    [apx.parser], which [node.py] imports: the fields of a line, all of
    them strings, or the failure of the tokenizer. *)
Variable apx_split_line : string → result (list string).

(** [elem.name] *)
Definition object_name (s : State) (elem : object_ref) : string :=
  match elem with
  | TypeRef l => DataType.name (types s !!! l)
  | PortRef l => Port.name (ports s !!! l)
  end.

(** [self.dataTypes+self.requirePorts+self.providePorts] *)
Definition objects (n : Node.t) : list object_ref :=
  (map TypeRef (Node.dataTypes n) ++ map PortRef (Node.requirePorts n)
   ++ map PortRef (Node.providePorts n))%list.

(** [for elem in elems: if elem.name == name: return elem] *)
Fixpoint first_named (s : State) (name : string) (elems : list object_ref)
  : option object_ref :=
  match elems with
  | [] => None
  | elem :: elems =>
      if String.eqb (object_name s elem) name then Some elem
      else first_named s name elems
  end.

(** [Node._inner_find]: the first object of that name, or [None]. *)
Definition _inner_find (s : State) (name : string) : option object_ref :=
  first_named s name (objects (self s)).

(** [Node.find]: one name, or a list of names. *)
Definition find (s : State) (name : string + list string)
  : option object_ref + list (option object_ref) :=
  match name with
  | inr names =>
      inr (fold_left (fun result inner_name =>
                        (result ++ [_inner_find s inner_name])%list)
             names [])
  | inl name => inl (_inner_find s name)
  end.

(** [Node.resolve_types] *)
Definition resolve_types : M unit :=
  s <~ get ;;
  for_each (Node.requirePorts (self s) ++ Node.providePorts (self s))%list
    (fun port =>
       s <~ get ;;
       if isReference (Port.dsg (ports s !!! port)) then
         p <~ lift (Port_resolve_type (ports s !!! port)
                      (deref (types s) (Node.dataTypes (self s)))) ;;
         set_port port p
       else ret tt).

(** [Node.append].  The result refers to the object added, or is [None]
    when a foreign port was dropped. *)
Definition append (item : item) : M (option object_ref) :=
  match item with
  | DataTypeItem dataType =>
      r <~ add_type dataType ;; ret (Some (TypeRef r))
  | PortItem port =>
      s <~ get ;;
      match Port.cls (ports s !!! port) with
      | RequirePort => r <~ add_require_port port ;; ret (Some (PortRef r))
      | ProvidePort => r <~ add_provide_port port ;; ret (Some (PortRef r))
      end
  | AutosarPortItem port =>
      r <~ add_autosar_port port None ;; ret (PortRef <$> r)
  | TextItem text =>
      parts <~ lift (apx_split_line text) ;;
      match parts with
      | [marker; name; dsg; attr] =>
          if String.eqb marker "R" then
            p <~ lift (Port_new RequirePort name dsg (Some attr)) ;;
            newPort <~ new_port p ;;
            r <~ add_require_port newPort ;;
            ret (Some (PortRef r))
          else if String.eqb marker "P" then
            p <~ lift (Port_new ProvidePort name dsg (Some attr)) ;;
            newPort <~ new_port p ;;
            r <~ add_provide_port newPort ;;
            ret (Some (PortRef r))
          else raise (ValueError marker)
      | _ => raise (ValueError ("invalid APX string: '" ++ text ++ "'"))
      end
  | OtherItem _ => raise (NameError "port")
  end.

(** [Node.from_autosar_swc]: a new node is created and imports the
    component; the state returned has the new node as [self], and the
    result is that node.  The argument [reverse] is not used. *)
Definition from_autosar_swc (store_types : list DataType)
  (store_ports : list Port) (swc : autosar.AtomicSoftwareComponent)
  (name : option string) (reverse : bool) : State * result Node.t :=
  let node := Node.new None in
  match import_autosar_swc swc None name
          (mkState store_types store_ports node) with
  | (s, Ok _) => (s, Ok (self s))
  | (s, Raise e) => (s, Raise e)
  end.

End NodeRest.

(** ** Further notions used to state properties *)

(** A constant value that contains no object of an unsupported class. *)
Fixpoint supported (v : autosar.value) : bool :=
  match v with
  | autosar.IntegerValue _ => true
  | autosar.StringValue _ => true
  | autosar.RecordValue elements => forallb supported elements
  | autosar.ArrayValue elements => forallb supported elements
  | autosar.OtherValue _ => false
  end.



Section MoreNotions.
Context `{Base}.

(** The node has the same name in [s'] as in [s]. *)
Definition same_name (s s' : State) : Prop :=
  Node.name (self s') = Node.name (self s).

(** Between [s] and [s'] only port objects have changed: the node, the
    data type objects and the number of port objects are the same. *)
Definition only_ports_changed (s s' : State) : Prop :=
  self s' = self s ∧ types s' = types s ∧ length (ports s') = length (ports s).

(** Every object of the store of [s] is in the store of [s'], at the
    same address and with the same content: from [s] to [s'] objects were
    created only. *)
Definition store_kept (s s' : State) : Prop :=
  types s `prefix_of` types s' ∧ ports s `prefix_of` ports s'.

End MoreNotions.

(** ** Further examples *)

Module Cases.

(** The workspace of [Sample] with, in addition, a Boolean type, a
    record type, a record type with an element of its own type, an array
    type and an interface for the array type. *)
Definition ws : autosar.Workspace :=
  let table (ref : string) : option autosar.element :=
    if String.eqb ref "/DataType/Flag" then
      Some (autosar.mkElement "Flag" autosar.BooleanDataType)
    else if String.eqb ref "/DataType/Pair" then
      Some (autosar.mkElement "Pair"
              (autosar.RecordDataType
                 [autosar.mkTypedElement "Low_RE" "/DataType/U8Range";
                  autosar.mkTypedElement "Set" "/DataType/Flag"]))
    else if String.eqb ref "/DataType/Loop" then
      Some (autosar.mkElement "Loop"
              (autosar.RecordDataType
                 [autosar.mkTypedElement "Next" "/DataType/Loop"]))
    else if String.eqb ref "/DataType/Block" then
      Some (autosar.mkElement "Block"
              (autosar.ArrayDataType "/DataType/U8Range" 4))
    else if String.eqb ref "/PortInterface/Block_I" then
      Some (autosar.mkElement "Block_I"
              (autosar.SenderReceiverInterface
                 [autosar.mkTypedElement "Block" "/DataType/Block"]))
    else autosar.find Sample.ws ref in
  autosar.mkWorkspace table (fun ref _ => table ref).

Definition pair : autosar.element :=
  autosar.mkElement "Pair"
    (autosar.RecordDataType
       [autosar.mkTypedElement "Low_RE" "/DataType/U8Range";
        autosar.mkTypedElement "Set" "/DataType/Flag"]).


Definition loop : autosar.element :=
  autosar.mkElement "Loop"
    (autosar.RecordDataType [autosar.mkTypedElement "Next" "/DataType/Loop"]).

Definition block : autosar.element :=
  autosar.mkElement "Block" (autosar.ArrayDataType "/DataType/U8Range" 4).

(** A require port of the array interface. *)
Definition block_in : autosar.Port :=
  Sample.port autosar.RequirePort "BlockIn" "/PortInterface/Block_I".

(** A port that is neither a require nor a provide port. *)
Definition odd : autosar.Port :=
  Sample.port (autosar.OtherPort "<class 'autosar.component.ServicePort'>")
    "Odd" "/PortInterface/Range_I".

(** A require port whose init value reference leads nowhere. *)
Definition dangling : autosar.Port :=
  autosar.mkPort autosar.RequirePort "Dangling" "/PortInterface/Range_I"
    [autosar.DataElementComSpec (Some "/Constant/Missing")] None.

(** A store with one port object that no node holds yet, and an empty
    node. *)
Definition manual : @State Sample.text_base :=
  @mkState Sample.text_base []
    [Port.mk RequirePort "Manual" (Some "C" : @DataSignature Sample.text_base)
       None None]
    (Node.new (Some "Manual")).

(** The node of [Sample.two_ports] in a store that holds, in addition,
    a data type object and a port object that no node holds yet. *)
Definition crowded : @State Sample.text_base :=
  @mkState Sample.text_base
    (types Sample.two_ports
     ++ [DataType.mk "U8" None (Some "C" : @DataSignature Sample.text_base)
           None])
    (ports Sample.two_ports
     ++ [Port.mk RequirePort "Manual"
           (Some "C" : @DataSignature Sample.text_base) None None])
    (self Sample.two_ports).

(** A port object of [node.py] with its attribute set. *)
Definition legacy : AutosarPort.t :=
  AutosarPort.mk AutosarPort.AutosarRequirePort "EngineSpeed" 3
    (Some (Some "=0")).

(** A tokenizer that knows no separator: the line is its only field. *)
Definition one_field (text : string) : result (list string) := Ok [text].

End Cases.

(** * Properties *)

Local Open Scope nat_scope.
Local Open Scope list_scope.

(** ** Integer width classification *)

Section IntegerCodes.
Local Open Scope Z_scope.

Lemma ceil_log2_pos (x : Z) : 0 < x → ceil_log2 x = Ok (Z.log2_up x).
Proof.
  intros Hx. unfold ceil_log2.
  destruct (Z.leb_spec x 0); [lia | reflexivity].
Qed.

(** The rounded-up logarithm is at most [k] exactly when the number is
    at most [2^k]. *)
Lemma log2_up_leb (x k : Z) :
  0 < x → (Z.log2_up x <=? k) = (x <=? 2 ^ k).
Proof.
  intros Hx. apply eq_iff_eq_true.
  rewrite !Z.leb_le. symmetry. apply Z.log2_up_le_pow2. exact Hx.
Qed.

Lemma length_append (s1 s2 : string) :
  String.length (s1 ++ s2)%string = (String.length s1 + String.length s2)%nat.
Proof. induction s1 as [|c s1 IH]; simpl; [reflexivity | now rewrite IH]. Qed.

Lemma ranged_not_bare (code : string) (lo hi : Z) :
  ranged code lo hi ≠ code.
Proof.
  unfold ranged. intros Heq.
  apply (f_equal String.length) in Heq.
  rewrite !length_append in Heq. simpl in Heq. lia.
Qed.

Lemma calcUIntTypeLen_integer (name : string) (minVal maxVal : Z) :
  0 < maxVal →
  _calcUIntTypeLen (IntegerType name minVal maxVal)
  = Ok (Some (Z.log2_up maxVal)).
Proof.
  intros Hpos. unfold _calcUIntTypeLen. simpl.
  rewrite ceil_log2_pos by exact Hpos. reflexivity.
Qed.

Lemma calcIntTypeLen_integer (name : string) (minVal maxVal : Z) :
  maxVal ≠ 0 →
  _calcIntTypeLen (IntegerType name minVal maxVal)
  = Ok (Some (Z.log2_up (Z.abs maxVal) + 1)).
Proof.
  intros Hnz. unfold _calcIntTypeLen. simpl.
  rewrite ceil_log2_pos by lia. reflexivity.
Qed.

(** The code of an unsigned range, by the thresholds on [maxVal].  The
    thresholds are those of the exact logarithm; up to [2^64] they are
    those of the logarithm in floating point as well. *)
Lemma getIntegerTypeCode_unsigned (name : string) (minVal maxVal : Z) :
  0 ≤ minVal → 0 < maxVal →
  _getIntegerTypeCode (IntegerType name minVal maxVal)
  = Ok (if maxVal <=? 2 ^ 8 then
          Some (if (minVal >? 0) || (maxVal <? 255)
                then ranged "C" minVal maxVal else "C")
        else if maxVal <=? 2 ^ 16 then Some "S"
        else if maxVal <=? 2 ^ 32 then Some "L"
        else if maxVal <=? 2 ^ 64 then Some "U"
        else None).
Proof.
  intros Hlo Hhi. unfold _getIntegerTypeCode.
  rewrite calcUIntTypeLen_integer by exact Hhi.
  cbn [autosar.getattr IntegerType autosar.class Py.bind String.eqb Ascii.eqb
       Bool.eqb py_le].
  destruct (Z.geb_spec minVal 0) as [_|]; [|lia].
  cbn [Py.bind]. rewrite !log2_up_leb by exact Hhi.
  destruct (maxVal <=? 2 ^ 8).
  - cbn [Py.bind]. destruct (minVal >? 0); cbn [Py.bind orb].
    + reflexivity.
    + destruct (maxVal <? 255); reflexivity.
  - cbn [Py.bind]. destruct (maxVal <=? 2 ^ 16); [reflexivity|].
    cbn [Py.bind]. destruct (maxVal <=? 2 ^ 32); [reflexivity|].
    cbn [Py.bind]. destruct (maxVal <=? 2 ^ 64); reflexivity.
Qed.

(** In the signed domain the 8-bit branch reads an attribute the data
    type does not have.  The thresholds are those of the exact
    logarithm; the logarithm in floating point puts an absolute
    [maxVal] of exactly [2^31] in the class [u]. *)
Lemma getIntegerTypeCode_signed (name : string) (minVal maxVal : Z) :
  minVal < 0 → maxVal ≠ 0 →
  _getIntegerTypeCode (IntegerType name minVal maxVal)
  = if Z.abs maxVal <=? 2 ^ 7 then Raise (AttributeError "minval")
    else if Z.abs maxVal <=? 2 ^ 15 then Ok (Some "s")
    else if Z.abs maxVal <=? 2 ^ 31 then Ok (Some "l")
    else if Z.abs maxVal <=? 2 ^ 63 then Ok (Some "u")
    else Ok None.
Proof.
  intros Hlo Hhi. unfold _getIntegerTypeCode.
  rewrite calcIntTypeLen_integer by exact Hhi.
  cbn [autosar.getattr IntegerType autosar.class Py.bind String.eqb Ascii.eqb
       Bool.eqb py_le].
  destruct (Z.geb_spec minVal 0) as [|_]; [lia|].
  destruct (Z.ltb_spec minVal 0) as [_|]; [|lia].
  cbn [Py.bind].
  assert (Hle : ∀ k, 0 < k →
            (Z.log2_up (Z.abs maxVal) + 1 <=? k) = (Z.abs maxVal <=? 2 ^ (k - 1))).
  { intros k Hk. rewrite <- log2_up_leb by lia.
    apply eq_iff_eq_true. rewrite !Z.leb_le. lia. }
  rewrite !Hle by lia. change (8 - 1) with 7. change (16 - 1) with 15.
  change (32 - 1) with 31. change (64 - 1) with 63.
  destruct (Z.abs maxVal <=? 2 ^ 7); [reflexivity|].
  cbn [Py.bind]. destruct (Z.abs maxVal <=? 2 ^ 15); [reflexivity|].
  cbn [Py.bind]. destruct (Z.abs maxVal <=? 2 ^ 31); [reflexivity|].
  cbn [Py.bind]. destruct (Z.abs maxVal <=? 2 ^ 63); reflexivity.
Qed.

(** Away from the range [0, 256], an unsigned range with
    [1 <= maxVal <= 2^64] gets the code the specification words: that of
    the smallest of the classes [C] (8 bits), [S] (16), [L] (32), [U]
    (64) that covers the rounded-up logarithm of [maxVal], ranged in the
    8-bit class exactly when the range is not [0, 255]. *)
Lemma unsigned_integer_code (name : string) (minVal maxVal : Z) :
  0 ≤ minVal → 1 ≤ maxVal ≤ 2 ^ 64 → minVal ≠ 0 ∨ maxVal ≠ 256 →
  _getIntegerTypeCode (IntegerType name minVal maxVal)
  = Ok (Some (spec_unsigned_code minVal maxVal)).
Proof.
  intros Hlo [Hhi Hhi64] Hrange.
  assert (Hpos : 0 < maxVal) by lia.
  rewrite getIntegerTypeCode_unsigned by assumption.
  unfold spec_unsigned_code. rewrite !log2_up_leb by exact Hpos.
  destruct (Z.leb_spec maxVal (2 ^ 64)) as [_|]; [|lia].
  destruct (Z.leb_spec maxVal (2 ^ 8)) as [H8|H8].
  - destruct (Z.gtb_spec minVal 0), (Z.ltb_spec maxVal 255),
      (Z.eqb_spec minVal 0), (Z.eqb_spec maxVal 255);
      cbn [orb andb negb]; try reflexivity; lia.
  - destruct (maxVal <=? 2 ^ 16); [reflexivity|].
    destruct (maxVal <=? 2 ^ 32); reflexivity.
Qed.

Lemma unsigned_integer_code_witness :
  _getIntegerTypeCode (IntegerType "U8Range" 0 10) = Ok (Some "C(0,10)").
Proof.
  apply (unsigned_integer_code "U8Range" 0 10); lia.
Defined.

(** C1. The range [0, 256] does not fit in 8 bits, yet the width
    computed for it is 8, the rounded-up logarithm of 256, and not the 9
    bits that 256 needs.  The range is therefore given the 8-bit class,
    and within it the bare [C], the code of the full range [0, 255]: the
    code is not that of a class that covers the range, and not the
    ranged form that the claim words for a range other than [0, 255].
    The next range, [0, 257], is given the 16-bit class. *)
Theorem unsigned_range_0_256_is_bare :
  _calcUIntTypeLen (IntegerType "t" 0 256) = Ok (Some 8)
  ∧ _getIntegerTypeCode (IntegerType "t" 0 256) = Ok (Some "C")
  ∧ _getIntegerTypeCode (IntegerType "t" 0 256)
    = _getIntegerTypeCode (IntegerType "t" 0 255)
  ∧ _getIntegerTypeCode (IntegerType "t" 0 256)
    ≠ Ok (Some (spec_unsigned_code 0 256))
  ∧ _getIntegerTypeCode (IntegerType "t" 0 257) = Ok (Some "S").
Proof.
  split; [reflexivity|]. split; [reflexivity|]. split; [reflexivity|].
  split; [discriminate|reflexivity].
Qed.

(** C2. The signed range [-128, 127] needs 8 bits, but the 8-bit branch
    of the signed domain reads the attribute [minval], which an integer
    data type does not have: [AttributeError] is raised where the bare
    [c] is expected.  The unsigned rule gives the full range [0, 255]
    its bare [C]. *)
Theorem signed_8bit_raises :
  _calcIntTypeLen (IntegerType "Int8" (-128) 127) = Ok (Some 8)
  ∧ _getIntegerTypeCode (IntegerType "Int8" (-128) 127)
    = Raise (AttributeError "minval")
  ∧ _getIntegerTypeCode (IntegerType "Int8" (-100) 100)
    = Raise (AttributeError "minval")
  ∧ _getIntegerTypeCode (IntegerType "UInt8" 0 255) = Ok (Some "C").
Proof. repeat split. Qed.

End IntegerCodes.

(** ** Initial values *)

Section InitialValues.

Lemma hex_value_from_pos (d : Hexadecimal.uint) (p : positive) :
  hex_value_from (Npos p) (hex_upper d) = Some (Npos (Pos.of_hex_uint_acc d p)).
Proof.
  revert p. induction d; intros p; cbn; try reflexivity; apply IHd.
Qed.

Lemma hex_value_from_zero (d : Hexadecimal.uint) :
  hex_value_from 0 (hex_upper d) = Some (N.of_hex_uint d).
Proof.
  induction d; cbn; try reflexivity; try apply hex_value_from_pos.
  exact IHd.
Qed.

(** Reading back the digits written for [n] gives [n]. *)
Lemma hex_value_fmt_X (n : N) : hex_value (fmt_X n) = Some n.
Proof.
  unfold fmt_X, hex_value.
  pose proof (HexadecimalN.Unsigned.of_to n) as Hback.
  pose proof (hex_value_from_zero (N.to_hex_uint n)) as Hval.
  rewrite Hback in Hval.
  destruct (N.to_hex_uint n) eqn:Hd; cbn in *; try exact Hval.
  subst n. discriminate Hd.
Qed.

Lemma hex_digit_value_bound (c : ascii) (v : N) :
  hex_digit_value c = Some v → (v < 16)%N.
Proof.
  unfold hex_digit_value. intros Hv.
  destruct ((48 <=? N_of_ascii c)%N && (N_of_ascii c <=? 57)%N) eqn:Hdec.
  - apply andb_prop in Hdec as [H1 H2].
    apply N.leb_le in H1, H2. inversion Hv; subst. lia.
  - destruct ((65 <=? N_of_ascii c)%N && (N_of_ascii c <=? 70)%N) eqn:Hhex;
      [|discriminate].
    apply andb_prop in Hhex as [H1 H2].
    apply N.leb_le in H1, H2. inversion Hv; subst. lia.
Qed.

(** A number of at least 16 has at least two hexadecimal digits, so that
    the padding of ["%02X"] adds nothing. *)
Lemma fmt_X_two_digits (n : N) : (16 <= n)%N → (2 ≤ String.length (fmt_X n))%nat.
Proof.
  intros Hn. pose proof (hex_value_fmt_X n) as Hval.
  destruct (fmt_X n) as [|c [|c' s]]; cbn in *; try lia.
  - discriminate.
  - destruct (hex_digit_value c) as [v|] eqn:Hc; [|discriminate].
    apply hex_digit_value_bound in Hc. inversion Hval; subst. lia.
Qed.

Lemma fmt_02X_large (v : Z) : (16 ≤ v)%Z → fmt_02X v = fmt_X (Z.to_N v).
Proof.
  intros Hv. unfold fmt_02X.
  pose proof (fmt_X_two_digits (Z.to_N v)) as Hlen.
  destruct v as [|p|p]; try lia.
  destruct (Nat.ltb_spec (String.length (fmt_X (Z.to_N (Z.pos p)))) 2);
    [lia | reflexivity].
Qed.

(** Reading back the decimal literal written for [v] gives [v]. *)
Lemma fmt_d_value (v : Z) :
  Z.of_int <$> DecimalString.NilZero.int_of_string (fmt_d v) = Some v.
Proof.
  unfold fmt_d. rewrite DecimalString.NilZero.isi.
  - cbn. f_equal. apply DecimalZ.of_to.
  - destruct v; cbn; try discriminate.
    intros [=Hnil]. revert Hnil. apply DecimalPos.Unsigned.to_uint_nonnil.
  - destruct v; cbn; try discriminate.
    intros [=Hnil]. revert Hnil. apply DecimalPos.Unsigned.to_uint_nonnil.
Qed.

(** C3 (amended). The initial value derived from an integer constant
    is its decimal literal when the value is at most 255, and [0x]
    followed by its upper-case hexadecimal digits (at least two; for a
    value above 255 there are at least three, so that nothing is padded)
    when it is greater; both literals read back as the value.  255 gives
    [255] and 256 gives [0x100]. *)
Theorem derive_integer_value (v : Z) :
  _deriveInitValueFromAutosarConstant (autosar.IntegerValue v)
  = Ok (if (v >? 255)%Z then ("0x" ++ fmt_X (Z.to_N v))%string else fmt_d v)
  ∧ hex_value (fmt_X (Z.to_N v)) = Some (Z.to_N v)
  ∧ Z.of_int <$> DecimalString.NilZero.int_of_string (fmt_d v) = Some v
  ∧ _deriveInitValueFromAutosarConstant (autosar.IntegerValue 255) = Ok "255"
  ∧ _deriveInitValueFromAutosarConstant (autosar.IntegerValue 256) = Ok "0x100".
Proof.
  split; [|split; [apply hex_value_fmt_X|split; [apply fmt_d_value|]]].
  - cbn [_deriveInitValueFromAutosarConstant].
    destruct (Z.gtb_spec v 255); [|reflexivity].
    rewrite fmt_02X_large by lia. reflexivity.
  - split; reflexivity.
Qed.

(** C3 as worded fails at 256: the literal is [0x100], not [0x0100]. *)
Lemma derive_256_is_0x100 :
  _deriveInitValueFromAutosarConstant (autosar.IntegerValue 256) = Ok "0x100"
  ∧ _deriveInitValueFromAutosarConstant (autosar.IntegerValue 256)
    ≠ Ok "0x0100".
Proof. split; [reflexivity|discriminate]. Qed.

(** The record of the specification's example. *)
Example derive_record :
  _deriveInitValueFromAutosarConstant
    (autosar.RecordValue [autosar.IntegerValue 1; autosar.StringValue "a"])
  = Ok ("{1," ++ dquote ++ "a" ++ dquote ++ "}")%string.
Proof. reflexivity. Qed.

End InitialValues.

(** ** Running methods *)

Ltac run :=
  unfold add_autosar_port, add_require_port, add_provide_port, add_type,
    set_type_id, set_port_id, set_name, dataTypeMap_set, dataTypes_append,
    requirePorts_append, providePorts_append, new_type, new_port, set_type,
    set_port, set_self, bindM, get, ret, raise, lift;
  cbn [fst snd types ports self].

(** Case analysis on an innermost scrutinee of the goal. *)
Ltac case_inner :=
  match goal with
  | |- context [match ?x with _ => _ end] =>
      lazymatch x with
      | context [match _ with _ => _ end] => fail
      | _ => destruct x eqn:?
      end
  end;
  cbn [fst snd types ports self].

Section ImportErrors.
Context `{Base}.

Lemma updateDataType_no_elements (ws : autosar.Workspace)
  (port : autosar.Port) (s : State) :
  interface_elements ws port = None ∨ interface_elements ws port = Some [] →
  _updateDataType ws port s = (s, Ok None).
Proof.
  unfold interface_elements, _updateDataType.
  destruct (autosar.find ws (autosar.portInterfaceRef port)) as [i|];
    [|reflexivity].
  destruct (autosar.class i); intros [Hnone|Hempty];
    try discriminate; try reflexivity.
  inversion Hempty; subst. reflexivity.
Qed.

Lemma updateDataType_many_elements (ws : autosar.Workspace)
  (port : autosar.Port) (s : State) (dataElements : list autosar.TypedElement) :
  interface_elements ws port = Some dataElements →
  1 < length dataElements →
  _updateDataType ws port s
  = (s, Raise (NotImplementedError
                 "SenderReceiverInterface with more than 1 element not supported")).
Proof.
  unfold interface_elements, _updateDataType.
  destruct (autosar.find ws (autosar.portInterfaceRef port)) as [i|];
    [|discriminate].
  destruct (autosar.class i); try discriminate.
  intros [= ->] Hlen.
  destruct dataElements as [|d1 [|d2 rest]]; simpl in Hlen; try lia.
  reflexivity.
Qed.

(** A loop raises when its body raises for one of the elements: either
    there, or earlier. *)
Lemma for_each_raises {A : Type} (xs : list A) (body : A → M unit) (x : A) :
  x ∈ xs →
  (∀ s, ∃ e, (body x s).2 = Raise e) →
  ∀ s, ∃ e, (for_each xs body s).2 = Raise e.
Proof.
  intros Hin Hbody. induction xs as [|y xs IH]; intros s.
  - inversion Hin.
  - simpl. unfold bindM.
    destruct (body y s) as [s' [[]|e]] eqn:Hy.
    + apply elem_of_cons in Hin as [->|Hin].
      * destruct (Hbody s) as [e He]. rewrite Hy in He. discriminate.
      * apply IH. exact Hin.
    + exists e. reflexivity.
Qed.

End ImportErrors.

Section ImportClaims.
Context `{Base}.

(** C10. A foreign port whose interface is not a sender-receiver
    interface, or is one with no data element, is dropped without an
    error: [add_autosar_port] returns [None] and leaves the state, hence
    the type sequence and both port lists, as they were. *)
Theorem add_autosar_port_dropped (port : autosar.Port)
  (ws0 : option autosar.Workspace) (ws : autosar.Workspace) (s : State) :
  workspace_of port ws0 = Some ws →
  interface_elements ws port = None ∨ interface_elements ws port = Some [] →
  add_autosar_port port ws0 s = (s, Ok None)
  ∧ Node.dataTypes (self (add_autosar_port port ws0 s).1)
    = Node.dataTypes (self s)
  ∧ Node.providePorts (self (add_autosar_port port ws0 s).1)
    = Node.providePorts (self s)
  ∧ Node.requirePorts (self (add_autosar_port port ws0 s).1)
    = Node.requirePorts (self s).
Proof.
  intros Hws Hno.
  assert (Hrun : add_autosar_port port ws0 s = (s, Ok None)).
  { unfold add_autosar_port. rewrite Hws. unfold bindM.
    rewrite (updateDataType_no_elements ws port s Hno). reflexivity. }
  rewrite Hrun. auto.
Qed.

(** C9. Importing a foreign port whose sender-receiver interface has
    more than one data element raises [NotImplementedError] and adds
    nothing; importing a component that has such a port ends in an
    exception. *)
Theorem add_autosar_port_many_elements (port : autosar.Port)
  (ws0 : option autosar.Workspace) (ws : autosar.Workspace)
  (dataElements : list autosar.TypedElement) :
  workspace_of port ws0 = Some ws →
  interface_elements ws port = Some dataElements →
  1 < length dataElements →
  (∀ s : State,
     add_autosar_port port ws0 s
     = (s, Raise (NotImplementedError
                    "SenderReceiverInterface with more than 1 element not supported")))
  ∧ (∀ (swc : autosar.AtomicSoftwareComponent) name (s : State),
       port ∈ autosar.providePorts swc ++ autosar.requirePorts swc →
       ∃ e, (import_autosar_swc swc ws0 name s).2 = Raise e).
Proof.
  intros Hws Hsr Hlen.
  assert (Hport : ∀ s : State,
            add_autosar_port port ws0 s
            = (s, Raise (NotImplementedError
                 "SenderReceiverInterface with more than 1 element not supported"))).
  { intros s. unfold add_autosar_port. rewrite Hws. unfold bindM.
    rewrite (updateDataType_many_elements ws port s dataElements Hsr Hlen).
    reflexivity. }
  split; [exact Hport|].
  intros swc name s Hin.
  assert (Hbody : ∀ s : State, ∃ e,
            ((fun p => add_autosar_port p ws0 ;;; ret tt) port s).2 = Raise e).
  { intros s'. unfold bindM. rewrite Hport. eauto. }
  unfold import_autosar_swc. unfold bindM at 1.
  destruct (set_name _ s) as [s1 [[]|e1]] eqn:Hname; [|eauto].
  unfold bindM at 1.
  destruct (for_each (autosar.providePorts swc) _ s1) as [s2 [[]|e2]] eqn:Hpp;
    [|eauto].
  apply elem_of_app in Hin as [Hin|Hin].
  - destruct (for_each_raises _ _ port Hin Hbody s1) as [e He].
    rewrite Hpp in He. discriminate.
  - apply (for_each_raises _ _ port Hin Hbody).
Qed.

End ImportClaims.

(** ** Serialization *)

Section Serialization.
Context `{Base}.

Lemma fold_left_snoc {A B : Type} (f : A → B) (xs : list A) (acc : list B) :
  fold_left (fun acc x => acc ++ [f x]) xs acc = acc ++ map f xs.
Proof.
  revert acc. induction xs as [|x xs IH]; intros acc; simpl.
  - symmetry. apply app_nil_r.
  - rewrite IH, <- app_assoc. reflexivity.
Qed.

Lemma fold_left_print {A : Type} (f : A → string) (xs : list A) (fp : string) :
  fold_left (fun fp x => print (f x) fp) xs fp
  = fold_left (fun fp line => print line fp) (map f xs) fp.
Proof.
  revert fp. induction xs as [|x xs IH]; intros fp; simpl; [reflexivity|].
  apply IH.
Qed.

Lemma lines_eq (s : State) :
  lines s
  = [header (self s)]
    ++ map DataType_str (deref (types s) (Node.dataTypes (self s)))
    ++ map Port_str (deref (ports s) (Node.providePorts (self s)))
    ++ map Port_str (deref (ports s) (Node.requirePorts (self s))).
Proof.
  unfold lines, deref. rewrite !map_map.
  rewrite (fold_left_snoc (fun l => DataType_str (types s !!! l))).
  rewrite !(fold_left_snoc (fun l => Port_str (ports s !!! l))).
  rewrite <- !app_assoc. reflexivity.
Qed.

(** C6. The lines of a node are its header line, then one line per data
    type in the order of the type sequence, then one line per provide
    port and then one line per require port, each in the order of its
    list; [write] prints exactly these lines, in this order. *)
Theorem serialization_order (s : State) :
  lines s
  = [header (self s)]
    ++ map DataType_str (deref (types s) (Node.dataTypes (self s)))
    ++ map Port_str (deref (ports s) (Node.providePorts (self s)))
    ++ map Port_str (deref (ports s) (Node.requirePorts (self s)))
  ∧ length (lines s)
    = 1 + length (Node.dataTypes (self s))
      + length (Node.providePorts (self s))
      + length (Node.requirePorts (self s))
  ∧ ∀ fp, write s fp = fold_left (fun fp line => print line fp) (lines s) fp.
Proof.
  split; [apply lines_eq|]. split.
  - rewrite lines_eq. unfold deref.
    rewrite !length_app, !length_map. simpl. lia.
  - intros fp. rewrite lines_eq. unfold write, deref.
    rewrite !map_map, !fold_left_app. simpl.
    rewrite (fold_left_print (fun l => DataType_str (types s !!! l))).
    rewrite (fold_left_print (fun l => Port_str (ports s !!! l))
               (Node.providePorts (self s))).
    rewrite (fold_left_print (fun l => Port_str (ports s !!! l))
               (Node.requirePorts (self s))).
    reflexivity.
Qed.

End Serialization.

(** ** Manual construction *)

Section AddType.
Context `{Base}.

(** C5. Appending a data type whose name the lookup table already has
    raises [ValueError] and leaves the state, hence the type sequence
    and the lookup table, as they were; appending a data type with a new
    name, whose signature resolves against the registered types, gives
    it the current number of types as id, puts it at the end of the
    sequence and enters it in the lookup table under its name.  (Should
    the resolution of the signature raise, that exception is passed on
    and the node is left as it was.) *)
Theorem add_type_duplicate_or_fresh (s : State) (dataType : nat) :
  dataType < length (types s) →
  let d := types s !!! dataType in
  let count := length (Node.dataTypes (self s)) in
  (is_Some (Node.dataTypeMap (self s) !! DataType.name d) →
   add_type dataType s
   = (s, Raise (ValueError ("Data type with name " ++ DataType.name d
                            ++ " already exists")%string)))
  ∧ (Node.dataTypeMap (self s) !! DataType.name d = None →
     ∀ dsg,
       resolve_data_element (DataType.dsg d)
         (deref (<[dataType:=DataType_with_id d count]> (types s))
            (Node.dataTypes (self s))) = Ok dsg →
       ∃ s', add_type dataType s = (s', Ok dataType)
             ∧ types s'
               = <[dataType:=DataType.mk (DataType.name d) (Some count) dsg
                               (DataType.attr d)]> (types s)
             ∧ DataType.id (types s' !!! dataType) = Some count
             ∧ ports s' = ports s
             ∧ Node.dataTypes (self s') = Node.dataTypes (self s) ++ [dataType]
             ∧ Node.dataTypeMap (self s')
               = <[DataType.name d:=dataType]> (Node.dataTypeMap (self s))
             ∧ Node.requirePorts (self s') = Node.requirePorts (self s)
             ∧ Node.providePorts (self s') = Node.providePorts (self s)
             ∧ Node.name (self s') = Node.name (self s))
  ∧ (Node.dataTypeMap (self s) !! DataType.name d = None →
     ∀ e,
       resolve_data_element (DataType.dsg d)
         (deref (<[dataType:=DataType_with_id d count]> (types s))
            (Node.dataTypes (self s))) = Raise e →
       ∃ s', add_type dataType s = (s', Raise e) ∧ self s' = self s).
Proof.
  intros Hlt d count. subst d count. split; [|split].
  - intros [item Hitem]. unfold add_type, bindM, get. cbn [types self].
    rewrite Hitem. reflexivity.
  - intros Hnone dsg Hres. run. rewrite Hnone. cbn [types self].
    rewrite list_lookup_total_insert_eq by exact Hlt.
    cbn [DataType_with_id DataType.dsg] in *.
    rewrite Hres. cbn [types ports self]. eexists. split; [reflexivity|].
    cbn [types ports self Node.dataTypes Node.dataTypeMap Node.requirePorts
         Node.providePorts Node.name].
    rewrite list_insert_insert_eq.
    rewrite list_lookup_total_insert_eq by exact Hlt.
    cbn. auto 10.
  - intros Hnone e Hres. run. rewrite Hnone. cbn [types self].
    rewrite list_lookup_total_insert_eq by exact Hlt.
    cbn [DataType_with_id DataType.dsg] in *.
    rewrite Hres. eexists. split; reflexivity.
Qed.

End AddType.

(** ** The data type registry *)

Section Registry.
Context `{Base}.

Lemma preserves_ret {A : Type} (R : State → State → Prop) `{!Reflexive R}
  (a : A) : preserves R (ret a).
Proof. intros s. reflexivity. Qed.

Lemma preserves_raise {A : Type} (R : State → State → Prop) `{!Reflexive R}
  (e : exn) : preserves R (raise (A:=A) e).
Proof. intros s. reflexivity. Qed.

Lemma preserves_lift {A : Type} (R : State → State → Prop) `{!Reflexive R}
  (r : result A) : preserves R (lift r).
Proof. intros s. reflexivity. Qed.

Lemma preserves_get (R : State → State → Prop) `{!Reflexive R} :
  preserves R get.
Proof. intros s. reflexivity. Qed.

Lemma preserves_bind {A B : Type} (R : State → State → Prop) `{!Transitive R}
  (m : M A) (k : A → M B) :
  preserves R m → (∀ a, preserves R (k a)) → preserves R (bindM m k).
Proof.
  intros Hm Hk s. unfold bindM. specialize (Hm s).
  destruct (m s) as [s' [a|e]]; simpl in *.
  - transitivity s'; [exact Hm | apply Hk].
  - exact Hm.
Qed.

Lemma same_registry_refl : Reflexive same_registry.
Proof. intros s. repeat split. Qed.

Lemma same_registry_trans : Transitive same_registry.
Proof.
  intros s1 s2 s3 (Ht & Hd & Hm) (Ht' & Hd' & Hm').
  repeat split; congruence.
Qed.
#[local] Existing Instance same_registry_refl.
#[local] Existing Instance same_registry_trans.

Lemma grows_same_registry (s1 s2 s3 : State) :
  grows s1 s2 → same_registry s2 s3 → grows s1 s3.
Proof.
  intros [Hsame|(d & Hnone & Ht & Hd & Hm)] Hs.
  - left. etransitivity; eassumption.
  - right. destruct Hs as (Ht' & Hd' & Hm'). exists d.
    repeat split; congruence.
Qed.

End Registry.

(** Splits a goal [preserves R m] along the structure of [m]. *)
Ltac preserves_step :=
  lazymatch goal with
  | |- preserves _ (bindM _ _) => apply preserves_bind; [tc_solve| |intros ?]
  | |- preserves _ (ret _) => apply preserves_ret; tc_solve
  | |- preserves _ (raise _) => apply preserves_raise; tc_solve
  | |- preserves _ (lift _) => apply preserves_lift; tc_solve
  | |- preserves _ get => apply preserves_get; tc_solve
  | |- preserves _ (if ?b then _ else _) => destruct b
  | |- preserves _ (match ?x with _ => _ end) => destruct x
  end.

Section RegistrySteps.
Context `{Base}.
#[local] Existing Instance same_registry_refl.
#[local] Existing Instance same_registry_trans.

Lemma same_registry_ports (s : State) (ps : list Port) (n : Node.t) :
  Node.dataTypes n = Node.dataTypes (self s) →
  Node.dataTypeMap n = Node.dataTypeMap (self s) →
  same_registry s (mkState (types s) ps n).
Proof. intros Hd Hm. repeat split; assumption. Qed.

Lemma add_require_port_same (port : nat) :
  preserves same_registry (add_require_port port).
Proof.
  intros s. run.
  repeat case_inner; apply same_registry_ports; reflexivity.
Qed.

Lemma add_provide_port_same (port : nat) :
  preserves same_registry (add_provide_port port).
Proof.
  intros s. run.
  repeat case_inner; apply same_registry_ports; reflexivity.
Qed.

Lemma set_name_same (name : option string) :
  preserves same_registry (set_name name).
Proof. intros s. apply same_registry_ports; reflexivity. Qed.

Lemma new_port_same (p : Port) : preserves same_registry (new_port p).
Proof. intros s. apply same_registry_ports; reflexivity. Qed.

End RegistrySteps.

Section RegistryImport.
Context `{Base}.
#[local] Existing Instance same_registry_refl.
#[local] Existing Instance same_registry_trans.

Lemma AutosarDataType_name (ws : autosar.Workspace) (dataType : autosar.element)
  (d : DataType) :
  AutosarDataType ws dataType = Ok d → DataType.name d = autosar.name dataType.
Proof.
  unfold AutosarDataType, Py.bind. intros Hd.
  repeat case_match; try discriminate; inversion Hd; reflexivity.
Qed.

(** A name the lookup table has: the registered object is returned and
    nothing changes. *)
Lemma updateDataType_registered (s : State) (ws : autosar.Workspace)
  (port : autosar.Port) (dataElement : autosar.TypedElement)
  (dataType : autosar.element) (item : nat) :
  interface_elements ws port = Some [dataElement] →
  autosar.find ws (autosar.typeRef dataElement) = Some dataType →
  Node.dataTypeMap (self s) !! autosar.name dataType = Some item →
  _updateDataType ws port s = (s, Ok (Some item)).
Proof.
  unfold interface_elements, _updateDataType. intros Hsr Hfind Hitem.
  destruct (autosar.find ws (autosar.portInterfaceRef port)) as [i|];
    [|discriminate].
  destruct (autosar.class i); try discriminate.
  injection Hsr as ->. rewrite Hfind. run. rewrite Hitem. reflexivity.
Qed.

(** A name the lookup table does not have: the data type is built,
    stored as a new object with the current number of types as id,
    entered in the lookup table and put at the end of the sequence. *)
Lemma updateDataType_new (s : State) (ws : autosar.Workspace)
  (port : autosar.Port) (dataElement : autosar.TypedElement)
  (dataType : autosar.element) (d : DataType) :
  interface_elements ws port = Some [dataElement] →
  autosar.find ws (autosar.typeRef dataElement) = Some dataType →
  Node.dataTypeMap (self s) !! autosar.name dataType = None →
  AutosarDataType ws dataType = Ok d →
  _updateDataType ws port s
  = (mkState
       (types s ++ [DataType_with_id d (length (Node.dataTypes (self s)))])
       (ports s)
       (Node.mk (Node.name (self s))
          (Node.dataTypes (self s) ++ [length (types s)])
          (Node.requirePorts (self s)) (Node.providePorts (self s))
          (<[autosar.name dataType:=length (types s)]>
             (Node.dataTypeMap (self s)))),
     Ok (Some (length (types s)))).
Proof.
  unfold interface_elements, _updateDataType. intros Hsr Hfind Hnone Hd.
  destruct (autosar.find ws (autosar.portInterfaceRef port)) as [i|];
    [|discriminate].
  destruct (autosar.class i); try discriminate.
  injection Hsr as ->. rewrite Hfind. run. rewrite Hnone, Hd.
  cbn [fst snd types ports self Node.name Node.dataTypes Node.requirePorts
       Node.providePorts Node.dataTypeMap].
  rewrite list_lookup_total_middle by reflexivity.
  rewrite insert_app_r_alt by reflexivity.
  rewrite Nat.sub_diag. reflexivity.
Qed.

Lemma updateDataType_grows (ws : autosar.Workspace) (port : autosar.Port) :
  preserves grows (_updateDataType ws port).
Proof.
  intros s.
  destruct (interface_elements ws port) as [[|dataElement [|]]|] eqn:Hsr.
  - rewrite updateDataType_no_elements by auto. left. reflexivity.
  - destruct (autosar.find ws (autosar.typeRef dataElement)) as [dataType|]
      eqn:Hfind.
    + destruct (Node.dataTypeMap (self s) !! autosar.name dataType) as [item|]
        eqn:Hitem.
      * erewrite updateDataType_registered by eassumption. left. reflexivity.
      * destruct (AutosarDataType ws dataType) as [d|e] eqn:Hd.
        -- erewrite updateDataType_new by eassumption.
           right. exists d. rewrite (AutosarDataType_name _ _ _ Hd).
           repeat split. exact Hitem.
        -- left. unfold interface_elements, _updateDataType in *.
           destruct (autosar.find ws (autosar.portInterfaceRef port)) as [i|];
             [|discriminate].
           destruct (autosar.class i); try discriminate.
           injection Hsr as ->. rewrite Hfind. run. rewrite Hitem, Hd.
           reflexivity.
    + left. unfold interface_elements, _updateDataType in *.
      destruct (autosar.find ws (autosar.portInterfaceRef port)) as [i|];
        [|discriminate].
      destruct (autosar.class i); try discriminate.
      injection Hsr as ->. rewrite Hfind. reflexivity.
  - erewrite updateDataType_many_elements; [|eassumption|simpl; lia].
    left. reflexivity.
  - rewrite updateDataType_no_elements by auto. left. reflexivity.
Qed.

Lemma add_autosar_port_grows (port : autosar.Port)
  (ws : option autosar.Workspace) :
  preserves grows (add_autosar_port port ws).
Proof.
  intros s. unfold add_autosar_port.
  destruct (workspace_of port ws) as [w|]; [|left; reflexivity].
  unfold bindM at 1. pose proof (updateDataType_grows w port s) as Hgrow.
  destruct (_updateDataType w port s) as [s1 [[item|]|e]]; simpl in Hgrow;
    try exact Hgrow.
  eapply grows_same_registry; [exact Hgrow|].
  clear Hgrow.
  destruct (autosar.port_cls port).
  - refine ((_ : preserves same_registry _) s1).
    repeat preserves_step;
      auto using new_port_same, add_require_port_same.
  - refine ((_ : preserves same_registry _) s1).
    repeat preserves_step;
      auto using new_port_same, add_provide_port_same.
  - reflexivity.
Qed.

Lemma for_each_preserves {A : Type} (R : State → State → Prop)
  `{!Reflexive R} `{!Transitive R} (xs : list A) (body : A → M unit) :
  (∀ x, preserves R (body x)) → preserves R (for_each xs body).
Proof.
  intros Hbody. induction xs as [|x xs IH]; simpl.
  - apply preserves_ret; tc_solve.
  - apply preserves_bind; [tc_solve|apply Hbody|intros _; exact IH].
Qed.

Lemma import_autosar_swc_grows (swc : autosar.AtomicSoftwareComponent)
  (ws : option autosar.Workspace) (name : option string) :
  preserves (rtc grows) (import_autosar_swc swc ws name).
Proof.
  assert (Hport : ∀ port,
            preserves (rtc grows) (add_autosar_port port ws ;;; ret tt)).
  { intros port. apply preserves_bind; [tc_solve| |intros _].
    - intros s. apply rtc_once, add_autosar_port_grows.
    - apply preserves_ret; tc_solve. }
  unfold import_autosar_swc.
  apply preserves_bind; [tc_solve| |intros _].
  { intros s. apply rtc_once. left. apply set_name_same. }
  apply preserves_bind; [tc_solve| |intros _];
    apply for_each_preserves; try tc_solve; exact Hport.
Qed.

(** Registering one more type keeps the registry invariant. *)
Lemma grows_registry_ok (s s' : State) :
  registry_ok s → grows s s' → registry_ok s'.
Proof.
  intros [Hid Hmap] [(Ht & Hd & Hm)|(d & Hnone & Ht & Hd & Hm)].
  - unfold registry_ok. rewrite Ht, Hd, Hm. split; assumption.
  - assert (Hold : ∀ l, l ∈ Node.dataTypes (self s) → l < length (types s)).
    { intros l Hl. apply list_elem_of_lookup in Hl as [i Hi].
      apply (Hid i l Hi). }
    unfold registry_ok. rewrite Ht, Hd, Hm. split.
    + intros i l Hi. apply lookup_app_Some in Hi as [Hi|[Hlen Hi]].
      * destruct (Hid i l Hi) as [Hlt Hidl]. split.
        -- rewrite length_app. lia.
        -- rewrite lookup_total_app_l by exact Hlt. exact Hidl.
      * apply list_lookup_singleton_Some in Hi as [Hi <-]. split.
        -- rewrite length_app. simpl. lia.
        -- rewrite list_lookup_total_middle by reflexivity.
           simpl. f_equal. lia.
    + intros name l. rewrite lookup_insert. case_decide as Hname.
      * subst name. split.
        -- intros [= <-].
           split; [apply elem_of_app; right; apply list_elem_of_here|].
           rewrite list_lookup_total_middle by reflexivity. reflexivity.
        -- intros [Hl Hn]. apply elem_of_app in Hl as [Hl|Hl].
           ++ exfalso. pose proof (Hold l Hl) as Hlt.
              rewrite lookup_total_app_l in Hn by exact Hlt.
              assert (Hsome : Node.dataTypeMap (self s) !! DataType.name d = Some l)
                by (apply Hmap; auto).
              congruence.
           ++ apply list_elem_of_singleton in Hl. congruence.
      * rewrite Hmap. split.
        -- intros [Hl Hn]. split; [apply elem_of_app; left; exact Hl|].
           pose proof (Hold l Hl) as Hlt.
           rewrite lookup_total_app_l by exact Hlt. exact Hn.
        -- intros [Hl Hn]. apply elem_of_app in Hl as [Hl|Hl].
           ++ split; [exact Hl|]. pose proof (Hold l Hl) as Hlt.
              rewrite lookup_total_app_l in Hn by exact Hlt. exact Hn.
           ++ apply list_elem_of_singleton in Hl. subst l.
              rewrite list_lookup_total_middle in Hn by reflexivity.
              simpl in Hn. congruence.
Qed.

Lemma rtc_grows_registry_ok (s s' : State) :
  registry_ok s → rtc grows s s' → registry_ok s'.
Proof.
  intros Hok Hrtc. induction Hrtc as [|s1 s2 s3 Hstep _ IH]; [exact Hok|].
  apply IH. eapply grows_registry_ok; eassumption.
Qed.

(** A node that has only imported satisfies the registry invariant. *)
Lemma imported_registry_ok (s : State) : imported s → registry_ok s.
Proof.
  induction 1 as [ts ps name|s port ws _ IH|s swc ws name _ IH].
  - split.
    + intros i l Hi. simpl in Hi. rewrite lookup_nil in Hi. discriminate.
    + intros name' l. simpl. rewrite lookup_empty. split; [discriminate|].
      intros [Hl _]. inversion Hl.
  - eapply grows_registry_ok; [exact IH|apply add_autosar_port_grows].
  - eapply rtc_grows_registry_ok; [exact IH|apply import_autosar_swc_grows].
Qed.

End RegistryImport.

Section RegistryClaim.
Context `{Base}.

(** C4. Registering, during import, a foreign type whose name the node
    already has returns the object recorded under that name and changes
    nothing; registering a name for the first time builds the data type,
    stores it as a new object whose id is the current number of types,
    puts it at the end of the type sequence and enters it in the lookup
    table.  Hence, in every state reached from an empty node by imports,
    the type at position [i] has id [i] (with the lookup table naming
    exactly the types of the sequence), and a further import leaves
    every existing object as it is and either leaves the sequence as it
    is or adds one type at its end, with the next id. *)
Theorem registry_import :
  (∀ (s : State) ws port dataElement dataType item,
     interface_elements ws port = Some [dataElement] →
     autosar.find ws (autosar.typeRef dataElement) = Some dataType →
     Node.dataTypeMap (self s) !! autosar.name dataType = Some item →
     _updateDataType ws port s = (s, Ok (Some item)))
  ∧ (∀ (s : State) ws port dataElement dataType d,
       interface_elements ws port = Some [dataElement] →
       autosar.find ws (autosar.typeRef dataElement) = Some dataType →
       Node.dataTypeMap (self s) !! autosar.name dataType = None →
       AutosarDataType ws dataType = Ok d →
       DataType.name d = autosar.name dataType
       ∧ _updateDataType ws port s
         = (mkState
              (types s
               ++ [DataType_with_id d (length (Node.dataTypes (self s)))])
              (ports s)
              (Node.mk (Node.name (self s))
                 (Node.dataTypes (self s) ++ [length (types s)])
                 (Node.requirePorts (self s)) (Node.providePorts (self s))
                 (<[autosar.name dataType:=length (types s)]>
                    (Node.dataTypeMap (self s)))),
            Ok (Some (length (types s)))))
  ∧ (∀ s : State, imported s →
       registry_ok s
       ∧ ∀ port ws,
           let s' := (add_autosar_port port ws s).1 in
           types s `prefix_of` types s'
           ∧ (Node.dataTypes (self s') = Node.dataTypes (self s)
              ∨ ∃ item,
                  Node.dataTypes (self s') = Node.dataTypes (self s) ++ [item]
                  ∧ DataType.id (types s' !!! item)
                    = Some (length (Node.dataTypes (self s))))).
Proof.
  split; [|split].
  - intros. eapply updateDataType_registered; eassumption.
  - intros s ws port dataElement dataType d Hsr Hfind Hnone Hd. split.
    + eapply AutosarDataType_name; eassumption.
    + eapply updateDataType_new; eassumption.
  - intros s Himp. split; [apply imported_registry_ok, Himp|].
    intros port ws s'. subst s'.
    destruct (add_autosar_port_grows port ws s)
      as [(Ht & Hd & _)|(d & _ & Ht & Hd & _)].
    + rewrite Ht. split; [reflexivity|]. left. exact Hd.
    + rewrite Ht. split; [apply prefix_app_r; reflexivity|].
      right. exists (length (types s)). split; [exact Hd|].
      rewrite list_lookup_total_middle by reflexivity. reflexivity.
Qed.

End RegistryClaim.

(** ** Mirroring *)

Section Mirror.
Context `{Base}.

Lemma state_eta (s : State) : mkState (types s) (ports s) (self s) = s.
Proof. destruct s; reflexivity. Qed.

Lemma deref_app_l {A : Type} `{Inhabited A} (store extra : list A)
  (ls : list nat) :
  Forall (fun l => l < length store) ls →
  deref (store ++ extra) ls = deref store ls.
Proof.
  intros Hls. unfold deref. apply map_ext_Forall.
  eapply Forall_impl; [exact Hls|]. intros l Hl. simpl.
  apply lookup_total_app_l. exact Hl.
Qed.

(** The objects allocated one after the other are found at consecutive
    addresses. *)
Lemma deref_seq_middle {A : Type} `{Inhabited A} (store new rest : list A) :
  deref (store ++ new ++ rest) (seq (length store) (length new)) = new.
Proof.
  revert store. induction new as [|x new IH]; intros store; [reflexivity|].
  simpl. f_equal.
  - apply list_lookup_total_middle. reflexivity.
  - specialize (IH (store ++ [x])).
    rewrite length_app, Nat.add_1_r, <- app_assoc in IH. exact IH.
Qed.

Lemma deref_seq_end {A : Type} `{Inhabited A} (store new rest : list A) :
  deref (store ++ new ++ rest)
    (seq (length store + length new) (length rest)) = rest.
Proof.
  pose proof (deref_seq_middle (store ++ new) rest []) as Hmid.
  rewrite length_app, app_nil_r, <- app_assoc in Hmid. exact Hmid.
Qed.

(** [mirror_ports] allocates the mirrored ports in order, after the
    ports already in the store. *)
Lemma mirror_ports_spec (ls : list nat) (s : State) :
  Forall (fun l => l < length (ports s)) ls →
  mirror_ports ls s
  = (mkState (types s) (ports s ++ map Port_mirror (deref (ports s) ls))
       (self s),
     Ok (seq (length (ports s)) (length ls))).
Proof.
  revert s. induction ls as [|l ls IH]; intros s Hls.
  - simpl. unfold ret. rewrite app_nil_r, state_eta. reflexivity.
  - apply Forall_cons in Hls as [Hl Hls]. simpl. run.
    rewrite IH; cbn [types ports self].
    + rewrite length_app, Nat.add_1_r, <- app_assoc.
      rewrite deref_app_l by exact Hls. reflexivity.
    + eapply Forall_impl; [exact Hls|]. intros l' Hl'. simpl in *.
      rewrite length_app. lia.
Qed.

(** [deepcopy] allocates copies after the objects already in the store;
    every address it returns is that of a copy, which equals the object
    it was copied from. *)
Lemma deepcopy_spec (s0 : State) (ls : list nat) :
  ∀ (memo : gmap nat nat) (s : State),
    Forall (fun l => l < length (types s0)) ls →
    types s0 `prefix_of` types s →
    (∀ l l', memo !! l = Some l' →
             length (types s0) ≤ l' < length (types s)
             ∧ types s !!! l' = types s0 !!! l) →
    ∃ extra ls',
      deepcopy memo ls s
      = (mkState (types s ++ extra) (ports s) (self s), Ok ls')
      ∧ length ls' = length ls
      ∧ Forall (fun l' => length (types s0) ≤ l' < length (types s ++ extra)) ls'
      ∧ deref (types s ++ extra) ls' = deref (types s0) ls.
Proof.
  induction ls as [|l ls IH]; intros memo s Hls Hpre Hmemo.
  - exists [], []. simpl. unfold ret. rewrite app_nil_r, state_eta.
    repeat split. constructor.
  - apply Forall_cons in Hls as [Hl Hls]. simpl.
    destruct (memo !! l) as [l'|] eqn:Hml.
    + destruct (IH memo s Hls Hpre Hmemo) as (extra & ls' & Hrun & Hlen & Hfresh & Hcopy).
      exists extra, (l' :: ls'). unfold bindM, ret. rewrite Hrun.
      destruct (Hmemo l l' Hml) as [Hbound Hsame].
      split; [reflexivity|]. split; [simpl; lia|]. split.
      * constructor; [rewrite length_app; lia | exact Hfresh].
      * simpl. f_equal; [|exact Hcopy].
        rewrite lookup_total_app_l by lia. exact Hsame.
    + destruct Hpre as [k Hk].
      assert (Hread : types s !!! l = types s0 !!! l).
      { rewrite Hk. apply lookup_total_app_l. exact Hl. }
      assert (Hlen0 : length (types s0) ≤ length (types s)).
      { rewrite Hk, length_app. lia. }
      destruct (IH (<[l:=length (types s)]> memo)
                  (mkState (types s ++ [types s !!! l]) (ports s) (self s)))
        as (extra & ls' & Hrun & Hlen & Hfresh & Hcopy); cbn [types ports self].
      * exact Hls.
      * exists (k ++ [types s !!! l]). rewrite Hk at 1.
        rewrite app_assoc. reflexivity.
      * intros l1 l1'. rewrite lookup_insert. case_decide as Heq.
        -- subst l1. intros [= <-]. rewrite length_app. simpl. split; [lia|].
           rewrite list_lookup_total_middle by reflexivity. exact Hread.
        -- intros Hl1. destruct (Hmemo l1 l1' Hl1) as [Hbound Hsame].
           rewrite length_app. split; [lia|].
           rewrite lookup_total_app_l by lia. exact Hsame.
      * cbn [types ports self] in *.
        exists ([types s !!! l] ++ extra), (length (types s) :: ls').
        run. rewrite Hrun. cbn [types ports self].
        rewrite <- !app_assoc in *.
        split; [reflexivity|]. split; [simpl; lia|]. split.
        -- constructor; [|exact Hfresh].
           rewrite !length_app. simpl. lia.
        -- simpl. f_equal; [|exact Hcopy].
           rewrite list_lookup_total_middle by reflexivity. exact Hread.
Qed.

End Mirror.

Section MirrorIndex.
Context `{Base}.

(** The lookup table that [mirror] builds over the copied types. *)
Lemma index_lookup_other (ts : list DataType) (ls : list nat)
  (m0 : gmap string nat) (n : string) :
  (∀ l, l ∈ ls → DataType.name (ts !!! l) ≠ n) →
  fold_left (fun m l => <[DataType.name (ts !!! l):=l]> m) ls m0 !! n = m0 !! n.
Proof.
  revert m0. induction ls as [|l ls IH]; intros m0 Hn; [reflexivity|].
  simpl. rewrite IH by (intros l' Hl'; apply Hn; set_solver).
  apply lookup_insert_ne. apply Hn. set_solver.
Qed.

Lemma index_lookup_inv (ts : list DataType) (ls : list nat)
  (m0 : gmap string nat) (n : string) (l : nat) :
  fold_left (fun m l => <[DataType.name (ts !!! l):=l]> m) ls m0 !! n = Some l →
  (l ∈ ls ∧ DataType.name (ts !!! l) = n) ∨ m0 !! n = Some l.
Proof.
  revert m0. induction ls as [|l1 ls IH]; intros m0 Hl; [right; exact Hl|].
  simpl in Hl. apply IH in Hl as [[Hin Hname]|Hl].
  - left. split; [set_solver|exact Hname].
  - rewrite lookup_insert in Hl. case_decide as Heq.
    + injection Hl as <-. left. split; [set_solver|exact Heq].
    + right. exact Hl.
Qed.

Lemma index_lookup_is_Some (ts : list DataType) (ls : list nat)
  (m0 : gmap string nat) (l : nat) :
  l ∈ ls →
  is_Some (fold_left (fun m l => <[DataType.name (ts !!! l):=l]> m) ls m0
           !! DataType.name (ts !!! l)).
Proof.
  assert (Hkeep : ∀ ls (m0 : gmap string nat) n,
            is_Some (m0 !! n) →
            is_Some (fold_left (fun m l => <[DataType.name (ts !!! l):=l]> m)
                       ls m0 !! n)).
  { clear. intros ls. induction ls as [|l1 ls IH]; intros m0 n Hn; [exact Hn|].
    simpl. apply IH. rewrite lookup_insert. case_decide; [eauto|exact Hn]. }
  revert m0. induction ls as [|l1 ls IH]; intros m0 Hl; [inversion Hl|].
  simpl. apply elem_of_cons in Hl as [->|Hl].
  - apply Hkeep. rewrite lookup_insert_eq. eauto.
  - apply IH, Hl.
Qed.

Lemma index_lookup_unique (ts : list DataType) (ls : list nat)
  (m0 : gmap string nat) (l : nat) :
  NoDup (map DataType.name (deref ts ls)) →
  l ∈ ls →
  fold_left (fun m l => <[DataType.name (ts !!! l):=l]> m) ls m0
  !! DataType.name (ts !!! l) = Some l.
Proof.
  revert m0. induction ls as [|l1 ls IH]; intros m0 Hnd Hl; [inversion Hl|].
  simpl in *. apply NoDup_cons in Hnd as [Hnotin Hnd].
  apply elem_of_cons in Hl as [->|Hl]; [|apply IH; assumption].
  rewrite index_lookup_other; [apply lookup_insert_eq|].
  intros l' Hl' Heq. apply Hnotin. rewrite <- Heq.
  apply list_elem_of_In. unfold deref. rewrite map_map.
  apply (in_map (fun l => DataType.name (ts !!! l))).
  apply list_elem_of_In. exact Hl'.
Qed.

(** What [mirror] returns and leaves behind, for a node whose addresses
    all refer to objects of the store. *)
Lemma mirror_spec (name : option string) (s : State) :
  valid s →
  ∃ (extra : list DataType) (dataTypes : list nat),
    let mirrored_provide :=
      map Port_mirror (deref (ports s) (Node.providePorts (self s))) in
    let mirrored_require :=
      map Port_mirror (deref (ports s) (Node.requirePorts (self s))) in
    mirror name s
    = (mkState (types s ++ extra)
         (ports s ++ mirrored_provide ++ mirrored_require) (self s),
       Ok (Node.mk
             (match name with
              | None => Node.name (self s)
              | Some name => Some name
              end)
             dataTypes
             (seq (length (ports s)) (length mirrored_provide))
             (seq (length (ports s) + length mirrored_provide)
                (length mirrored_require))
             (fold_left
                (fun m l => <[DataType.name ((types s ++ extra) !!! l):=l]> m)
                dataTypes ∅)))
    ∧ length dataTypes = length (Node.dataTypes (self s))
    ∧ Forall (fun l => length (types s) ≤ l < length (types s ++ extra))
        dataTypes
    ∧ deref (types s ++ extra) dataTypes
      = deref (types s) (Node.dataTypes (self s)).
Proof.
  intros (Hdt & Hrp & Hpp & _).
  destruct (deepcopy_spec s (Node.dataTypes (self s)) ∅ s Hdt)
    as (extra & dataTypes & Hcopy & Hlen & Hfresh & Hsame).
  { reflexivity. }
  { intros l l'. rewrite lookup_empty. discriminate. }
  exists extra, dataTypes. cbn zeta.
  split; [|auto].
  unfold mirror. unfold bindM at 1. unfold get at 1.
  unfold bindM at 1. rewrite Hcopy.
  unfold bindM at 1. rewrite mirror_ports_spec by exact Hpp.
  cbn [types ports self].
  unfold bindM at 1. rewrite mirror_ports_spec; cbn [types ports self].
  - unfold bindM, get, ret. cbn [types ports self Node.dataTypeMap Node.new].
    rewrite (deref_app_l (ports s)) by exact Hrp.
    rewrite !length_app, !length_map, <- !app_assoc. unfold deref.
    rewrite !length_map. reflexivity.
  - eapply Forall_impl; [exact Hrp|]. intros l Hl. simpl in *.
    rewrite length_app. lia.
Qed.

End MirrorIndex.

Section MirrorClaims.
Context `{Base}.


(** A node keeps its view when the store changes only at addresses it
    does not hold. *)
Lemma view_ext (s1 s2 : State) (n : Node.t) :
  (∀ l, l ∈ Node.dataTypes n → types s1 !!! l = types s2 !!! l) →
  (∀ name l, Node.dataTypeMap n !! name = Some l →
             types s1 !!! l = types s2 !!! l) →
  (∀ l, l ∈ Node.providePorts n → ports s1 !!! l = ports s2 !!! l) →
  (∀ l, l ∈ Node.requirePorts n → ports s1 !!! l = ports s2 !!! l) →
  view s1 n = view s2 n.
Proof.
  intros Ht Hm Hp Hr. unfold view, deref. f_equal; [f_equal; [f_equal|]|].
  - apply map_ext_Forall, Forall_forall. exact Ht.
  - apply map_ext_Forall, Forall_forall. exact Hp.
  - apply map_ext_Forall, Forall_forall. exact Hr.
  - apply map_fmap_ext. intros name l Hl. eapply Hm, Hl.
Qed.

Lemma mirror_valid (name : option string) (s s' : State) (m : Node.t) :
  valid s → mirror name s = (s', Ok m) → valid (with_self s' m).
Proof.
  intros Hvalid Hrun.
  destruct (mirror_spec name s Hvalid)
    as (extra & dataTypes & Hspec & Hlen & Hfresh & Hsame).
  cbn zeta in Hspec. rewrite Hspec in Hrun. injection Hrun as <- <-.
  unfold valid, with_self. cbn [types ports self Node.dataTypes
    Node.requirePorts Node.providePorts Node.dataTypeMap].
  repeat split.
  - eapply Forall_impl; [exact Hfresh|]. simpl. intros l Hl. lia.
  - apply Forall_forall. intros l Hl. apply elem_of_seq in Hl.
    rewrite !length_app. lia.
  - apply Forall_forall. intros l Hl. apply elem_of_seq in Hl.
    rewrite !length_app. lia.
  - intros n l Hl. apply index_lookup_inv in Hl as [[Hin _]|Hl].
    + eapply Forall_forall in Hfresh; [|exact Hin]. simpl in Hfresh. lia.
    + rewrite lookup_empty in Hl. discriminate.
Qed.


(** C8. The node returned by [mirror] holds no object of the source:
    its data types are new objects equal to those of the source, its
    ports are new objects, and its lookup table leads from each name to
    a copy of that name (to the copy itself when names are unique).
    Writing to any object of the source leaves what the mirror observes
    unchanged, and writing to any object of the mirror leaves what the
    source observes unchanged. *)
Theorem mirror_independent (name : option string) (s : State) :
  valid s →
  ∃ s' m,
    mirror name s = (s', Ok m)
    ∧ self s' = self s
    ∧ types s `prefix_of` types s'
    ∧ ports s `prefix_of` ports s'
    ∧ deref (types s') (Node.dataTypes m)
      = deref (types s) (Node.dataTypes (self s))
    ∧ Forall (fun l => length (types s) ≤ l < length (types s'))
        (Node.dataTypes m)
    ∧ Forall (fun l => length (ports s) ≤ l < length (ports s'))
        (Node.requirePorts m ++ Node.providePorts m)
    ∧ (∀ n l, Node.dataTypeMap m !! n = Some l →
              l ∈ Node.dataTypes m ∧ DataType.name (types s' !!! l) = n)
    ∧ (∀ l, l ∈ Node.dataTypes m →
            is_Some (Node.dataTypeMap m !! DataType.name (types s' !!! l)))
    ∧ (NoDup (map DataType.name (deref (types s) (Node.dataTypes (self s)))) →
       ∀ l, l ∈ Node.dataTypes m →
            Node.dataTypeMap m !! DataType.name (types s' !!! l) = Some l)
    ∧ (∀ l d, l < length (types s) →
              view (mkState (<[l:=d]> (types s')) (ports s') (self s')) m
              = view s' m)
    ∧ (∀ l p, l < length (ports s) →
              view (mkState (types s') (<[l:=p]> (ports s')) (self s')) m
              = view s' m)
    ∧ (∀ l d, length (types s) ≤ l →
              view (mkState (<[l:=d]> (types s')) (ports s') (self s')) (self s)
              = view s (self s))
    ∧ (∀ l p, length (ports s) ≤ l →
              view (mkState (types s') (<[l:=p]> (ports s')) (self s')) (self s)
              = view s (self s)).
Proof.
  intros Hvalid.
  destruct (mirror_spec name s Hvalid)
    as (extra & dataTypes & Hspec & Hlen & Hfresh & Hsame).
  cbn zeta in Hspec. eexists _, _. split; [exact Hspec|].
  pose proof (mirror_valid name s _ _ Hvalid Hspec) as Hvalid'.
  destruct Hvalid as (Hdt & Hrp & Hpp & Hmap).
  cbn [types ports self Node.requirePorts Node.providePorts Node.dataTypes
       Node.dataTypeMap].
  assert (Hports : Forall
            (fun l => length (ports s) ≤ l
                      < length (ports s
                                ++ map Port_mirror
                                     (deref (ports s) (Node.providePorts (self s)))
                                ++ map Port_mirror
                                     (deref (ports s) (Node.requirePorts (self s)))))
            (seq (length (ports s))
               (length (map Port_mirror
                          (deref (ports s) (Node.providePorts (self s)))))
             ++ seq (length (ports s)
                     + length (map Port_mirror
                                 (deref (ports s) (Node.providePorts (self s)))))
                  (length (map Port_mirror
                             (deref (ports s) (Node.requirePorts (self s))))))).
  { apply Forall_app; split; apply Forall_forall; intros l Hl;
      apply elem_of_seq in Hl; rewrite !length_app; lia. }
  assert (Hindex : ∀ n l,
            fold_left
              (fun (m : gmap string nat) l =>
                 <[DataType.name ((types s ++ extra) !!! l):=l]> m)
              dataTypes ∅ !! n = Some l →
            l ∈ dataTypes ∧ DataType.name ((types s ++ extra) !!! l) = n).
  { intros n l Hl. apply index_lookup_inv in Hl as [Hl|Hl]; [exact Hl|].
    rewrite lookup_empty in Hl. discriminate. }
  split; [reflexivity|].
  split; [apply prefix_app_r; reflexivity|].
  split; [apply prefix_app_r; reflexivity|].
  split; [exact Hsame|]. split; [exact Hfresh|]. split; [exact Hports|].
  split; [exact Hindex|].
  split; [intros l Hl; apply index_lookup_is_Some, Hl|].
  split.
  { intros Hnd l Hl. apply index_lookup_unique; [|exact Hl].
    rewrite Hsame. exact Hnd. }
  apply Forall_app in Hports as [Hreq Hpro].
  split; [|split; [|split]].
  - intros l d Hl. apply view_ext; cbn [types ports self]; try reflexivity.
    + intros l' Hl'. eapply Forall_forall in Hfresh; [|exact Hl'].
      simpl in Hfresh. apply list_lookup_total_insert_ne. lia.
    + intros n l' Hl'. apply Hindex in Hl' as [Hl' _].
      eapply Forall_forall in Hfresh; [|exact Hl'].
      simpl in Hfresh. apply list_lookup_total_insert_ne. lia.
  - intros l p Hl. apply view_ext; cbn [types ports self Node.providePorts
      Node.requirePorts]; try reflexivity.
    + intros l' Hl'. eapply Forall_forall in Hpro; [|exact Hl'].
      simpl in Hpro. apply list_lookup_total_insert_ne. lia.
    + intros l' Hl'. eapply Forall_forall in Hreq; [|exact Hl'].
      simpl in Hreq. apply list_lookup_total_insert_ne. lia.
  - intros l d Hl. apply view_ext; cbn [types ports self].
    + intros l' Hl'. eapply Forall_forall in Hdt; [|exact Hl'].
      simpl in Hdt. rewrite list_lookup_total_insert_ne by lia.
      apply lookup_total_app_l. exact Hdt.
    + intros n l' Hl'. apply Hmap in Hl'.
      rewrite list_lookup_total_insert_ne by lia.
      apply lookup_total_app_l. exact Hl'.
    + intros l' Hl'. eapply Forall_forall in Hpp; [|exact Hl'].
      apply lookup_total_app_l. exact Hpp.
    + intros l' Hl'. eapply Forall_forall in Hrp; [|exact Hl'].
      apply lookup_total_app_l. exact Hrp.
  - intros l p Hl. apply view_ext; cbn [types ports self].
    + intros l' Hl'. eapply Forall_forall in Hdt; [|exact Hl'].
      apply lookup_total_app_l. exact Hdt.
    + intros n l' Hl'. apply Hmap in Hl'.
      apply lookup_total_app_l. exact Hl'.
    + intros l' Hl'. eapply Forall_forall in Hpp; [|exact Hl'].
      simpl in Hpp. rewrite list_lookup_total_insert_ne by lia.
      apply lookup_total_app_l. exact Hpp.
    + intros l' Hl'. eapply Forall_forall in Hrp; [|exact Hl'].
      simpl in Hrp. rewrite list_lookup_total_insert_ne by lia.
      apply lookup_total_app_l. exact Hrp.
Qed.

End MirrorClaims.

(** ** The theorems at concrete inputs *)

Section Examples.
#[local] Existing Instance Sample.text_base.

Lemma two_ports_imported : imported Sample.two_ports.
Proof.
  exact (imported_port _ _ _
           (imported_port _ _ _ (imported_new [] [] (Some "Example")))).
Qed.

Lemma two_ports_valid : valid Sample.two_ports.
Proof.
  split; [|split; [|split]].
  - vm_compute. repeat constructor.
  - vm_compute. repeat constructor.
  - vm_compute. repeat constructor.
  - intros name l Hl.
    destruct (imported_registry_ok _ two_ports_imported) as [Hid Hmap].
    apply Hmap in Hl as [Hl _]. apply list_elem_of_lookup in Hl as [i Hi].
    apply (Hid i l Hi).
Qed.

Lemma registry_import_witness :
  _updateDataType Sample.ws Sample.range_out Sample.two_ports
  = (Sample.two_ports, Ok (Some 1))
  ∧ (_updateDataType Sample.ws Sample.speed_out Sample.empty).2 = Ok (Some 0)
  ∧ registry_ok Sample.two_ports.
Proof.
  destruct (@registry_import Sample.text_base) as (Hhit & Hnew & Hseq).
  split; [|split].
  - apply (Hhit Sample.two_ports Sample.ws Sample.range_out
             (autosar.mkTypedElement "Range" "/DataType/U8Range")
             (IntegerType "U8Range" 0 10) 1);
      vm_compute; reflexivity.
  - assert (Hsr : interface_elements Sample.ws Sample.speed_out
                  = Some [autosar.mkTypedElement "Speed" "/DataType/Speed"])
      by (vm_compute; reflexivity).
    assert (Hfind : autosar.find Sample.ws "/DataType/Speed"
                    = Some (IntegerType "Speed" 0 65535))
      by (vm_compute; reflexivity).
    assert (Hnone : Node.dataTypeMap (self Sample.empty) !! "Speed" = None)
      by (vm_compute; reflexivity).
    assert (Hd : AutosarDataType Sample.ws (IntegerType "Speed" 0 65535)
                 = Ok (DataType.mk "Speed" None (Some "S") None))
      by (vm_compute; reflexivity).
    destruct (Hnew Sample.empty _ _ _ _ _ Hsr Hfind Hnone Hd) as [_ Hrun].
    rewrite Hrun. reflexivity.
  - apply Hseq.
    exact (imported_port _ _ _
             (imported_port _ _ _ (imported_new [] [] (Some "Example")))).
Defined.

Lemma add_type_witness :
  add_type 0 Sample.two_ports
  = (Sample.two_ports,
     Raise (ValueError "Data type with name Speed already exists"))
  ∧ ∃ s', add_type 0 Sample.loose = (s', Ok 0)
          ∧ DataType.id (types s' !!! 0) = Some 0
          ∧ Node.dataTypes (self s') = [0].
Proof.
  split.
  - apply (add_type_duplicate_or_fresh Sample.two_ports 0).
    + vm_compute. repeat constructor.
    + exists 0. vm_compute. reflexivity.
  - destruct (add_type_duplicate_or_fresh Sample.loose 0) as (_ & Hfresh & _).
    + vm_compute. repeat constructor.
    + destruct (Hfresh eq_refl (Some "C") eq_refl)
        as (s' & Hrun & _ & Hid & _ & Hdt & _).
      exists s'. split; [exact Hrun|]. split; [exact Hid|exact Hdt].
Defined.

Lemma add_autosar_port_dropped_witness :
  add_autosar_port Sample.empty_in (Some Sample.ws) Sample.two_ports
  = (Sample.two_ports, Ok None)
  ∧ add_autosar_port Sample.service_in (Some Sample.ws) Sample.two_ports
    = (Sample.two_ports, Ok None).
Proof.
  split.
  - apply (add_autosar_port_dropped Sample.empty_in (Some Sample.ws) Sample.ws
             Sample.two_ports); [reflexivity|right; reflexivity].
  - apply (add_autosar_port_dropped Sample.service_in (Some Sample.ws)
             Sample.ws Sample.two_ports); [reflexivity|left; reflexivity].
Defined.

Lemma add_autosar_port_many_elements_witness :
  add_autosar_port Sample.pair_in (Some Sample.ws) Sample.two_ports
  = (Sample.two_ports,
     Raise (NotImplementedError
              "SenderReceiverInterface with more than 1 element not supported")).
Proof.
  apply (add_autosar_port_many_elements Sample.pair_in (Some Sample.ws)
           Sample.ws
           [autosar.mkTypedElement "First" "/DataType/U8Range";
            autosar.mkTypedElement "Second" "/DataType/Speed"]);
    [reflexivity | reflexivity | simpl; lia].
Defined.


Lemma mirror_independent_witness :
  valid Sample.two_ports
  ∧ ∃ s' m,
      mirror None Sample.two_ports = (s', Ok m)
      ∧ Forall (fun l => 2 ≤ l) (Node.dataTypes m)
      ∧ DataType.name <$> deref (types s') (Node.dataTypes m)
        = ["Speed"; "U8Range"].
Proof.
  split; [exact two_ports_valid|].
  destruct (mirror_independent None Sample.two_ports two_ports_valid)
    as (s' & m & Hrun & _ & _ & _ & Hsame & Hfresh & _).
  exists s', m. split; [exact Hrun|]. split.
  - eapply Forall_impl; [exact Hfresh|]. intros l [Hl _]. exact Hl.
  - rewrite Hsame. reflexivity.
Defined.


(** The example of the class documentation: a provide port [TestSignal1]
    of signature [C] and a require port [TestSignal2] of signature [S]
    in a node without a name. *)
Example write_docstring :
  write
    (mkState []
       [Port.mk ProvidePort "TestSignal1" (Some "C") None (Some 0);
        Port.mk RequirePort "TestSignal2" (Some "S") None (Some 0)]
       (Node.mk None [] [1] [0] ∅))
    EmptyString
  = fold_left (fun fp line => print line fp)
      [("N" ++ dquote ++ "None" ++ dquote)%string;
       ("P" ++ dquote ++ "TestSignal1" ++ dquote ++ "C")%string;
       ("R" ++ dquote ++ "TestSignal2" ++ dquote ++ "S")%string]
      EmptyString.
Proof. reflexivity. Qed.

End Examples.

(** * Further properties of the code *)

(** ** Integer codes outside the claimed ranges *)

Section MoreIntegerCodes.
Local Open Scope Z_scope.

(** X1. A [maxVal] whose logarithm does not exist makes the function
    raise [ValueError]: a [maxVal] of zero or less in the unsigned
    domain, a [maxVal] of zero in the signed domain. *)
Theorem integer_code_log_domain (name : string) (minVal maxVal : Z) :
  maxVal ≤ 0 → 0 ≤ minVal ∨ maxVal = 0 →
  ∃ msg,
    _getIntegerTypeCode (IntegerType name minVal maxVal)
    = Raise (ValueError msg).
Proof.
  intros Hhi Hdomain. eexists.
  unfold _getIntegerTypeCode, _calcUIntTypeLen, _calcIntTypeLen, ceil_log2.
  cbn [autosar.getattr IntegerType autosar.class Py.bind String.eqb
       Ascii.eqb Bool.eqb].
  destruct (Z.geb_spec minVal 0) as [Hlo|Hlo].
  - cbn [Py.bind]. destruct (Z.leb_spec maxVal 0) as [_|]; [|lia].
    reflexivity.
  - destruct Hdomain as [Hlo0 | ->]; [lia|].
    destruct (Z.ltb_spec minVal 0); [|lia]. reflexivity.
Qed.

Lemma integer_code_log_domain_witness :
  ∃ msg,
    _getIntegerTypeCode (IntegerType "Empty" (-5) 0) = Raise (ValueError msg).
Proof.
  apply (integer_code_log_domain "Empty" (-5) 0); [lia|right; reflexivity].
Defined.

(** X2. In the signed domain, above the 8-bit class, the code is [s]
    up to an absolute [maxVal] of [2^15], [l] from there to below
    [2^31], and [u] from above [2^31] up to [2^63].  The value [2^31]
    itself is left out: there the logarithm computed in floating point
    is not the exact one that the model takes. *)
Theorem signed_wide_code (name : string) (minVal maxVal : Z) :
  minVal < 0 → 2 ^ 7 < Z.abs maxVal ≤ 2 ^ 63 → Z.abs maxVal ≠ 2 ^ 31 →
  _getIntegerTypeCode (IntegerType name minVal maxVal)
  = Ok (Some (if Z.abs maxVal <=? 2 ^ 15 then "s"
              else if Z.abs maxVal <? 2 ^ 31 then "l"
              else "u")).
Proof.
  intros Hlo [Hhi Htop] Hne. rewrite getIntegerTypeCode_signed by lia.
  destruct (Z.leb_spec (Z.abs maxVal) (2 ^ 7)); [lia|].
  destruct (Z.leb_spec (Z.abs maxVal) (2 ^ 15)); [reflexivity|].
  destruct (Z.leb_spec (Z.abs maxVal) (2 ^ 31)),
           (Z.ltb_spec (Z.abs maxVal) (2 ^ 31)); try lia; try reflexivity.
  destruct (Z.leb_spec (Z.abs maxVal) (2 ^ 63)); [reflexivity|lia].
Qed.

Lemma signed_wide_code_witness :
  _getIntegerTypeCode (IntegerType "Int32" (-2147483648) 2147483647)
  = Ok (Some "l").
Proof.
  apply (signed_wide_code "Int32" (-2147483648) 2147483647); lia.
Defined.

(** X3. In the signed domain the result depends on [maxVal] only: two
    types with negative [minVal] and the same [maxVal] get the same code
    or the same exception, whatever their [minVal]. *)
Theorem signed_code_ignores_minVal (name : string) (minVal minVal' maxVal : Z) :
  minVal < 0 → minVal' < 0 →
  _getIntegerTypeCode (IntegerType name minVal maxVal)
  = _getIntegerTypeCode (IntegerType name minVal' maxVal).
Proof.
  intros Hlo Hlo'. destruct (Z.eq_dec maxVal 0) as [->|Hnz].
  - unfold _getIntegerTypeCode.
    cbn [autosar.getattr IntegerType autosar.class Py.bind String.eqb
         Ascii.eqb Bool.eqb].
    destruct (Z.geb_spec minVal 0); [lia|].
    destruct (Z.geb_spec minVal' 0); [lia|].
    destruct (Z.ltb_spec minVal 0); [|lia].
    destruct (Z.ltb_spec minVal' 0); [|lia].
    reflexivity.
  - rewrite !getIntegerTypeCode_signed by assumption. reflexivity.
Qed.

Lemma signed_code_ignores_minVal_witness :
  -100000 < 0 ∧ -1 < 0
  ∧ _getIntegerTypeCode (IntegerType "Wide" (-100000) 200) = Ok (Some "s").
Proof.
  split; [lia|]. split; [lia|].
  rewrite (signed_code_ignores_minVal "Wide" (-100000) (-1) 200) by lia.
  reflexivity.
Defined.

End MoreIntegerCodes.

(** ** Initial values of every kind *)

Section MoreInitialValues.

(** Induction on constant values, with the hypothesis for every element
    of a record or an array. *)
Lemma value_ind_elements (P : autosar.value → Prop) :
  (∀ v, P (autosar.IntegerValue v)) →
  (∀ s, P (autosar.StringValue s)) →
  (∀ elements, Forall P elements → P (autosar.RecordValue elements)) →
  (∀ elements, Forall P elements → P (autosar.ArrayValue elements)) →
  (∀ type_name, P (autosar.OtherValue type_name)) →
  ∀ v, P v.
Proof.
  intros Hint Hstr Hrec Harr Hother. fix IH 1.
  intros [v|s|elements|elements|type_name];
    [apply Hint|apply Hstr| | |apply Hother].
  - apply Hrec. induction elements as [|e elements IHe]; constructor;
      [apply IH|exact IHe].
  - apply Harr. induction elements as [|e elements IHe]; constructor;
      [apply IH|exact IHe].
Qed.

(** The literals of the elements of a record or an array. *)
Lemma derive_elements (elements : list autosar.value) :
  Forall (fun v =>
            match _deriveInitValueFromAutosarConstant v with
            | Ok _ => supported v = true
            | Raise e => supported v = false
                         ∧ ∃ type_name, e = NotImplementedError type_name
            end) elements →
  match
    (fix derive_all (xs : list autosar.value) : result (list string) :=
       match xs with
       | [] => Ok []
       | x :: xs =>
           s <- _deriveInitValueFromAutosarConstant x ;;
           ss <- derive_all xs ;;
           Ok (s :: ss)
       end) elements
  with
  | Ok _ => forallb supported elements = true
  | Raise e => forallb supported elements = false
               ∧ ∃ type_name, e = NotImplementedError type_name
  end.
Proof.
  induction 1 as [|v elements Hv _ IH]; [reflexivity|].
  cbn [forallb Py.bind].
  destruct (_deriveInitValueFromAutosarConstant v) as [s|e]; cbn [Py.bind].
  - rewrite Hv. cbn [andb].
    destruct ((fix derive_all (xs : list autosar.value) := _) elements);
      exact IH.
  - destruct Hv as [-> Hkind]. split; [reflexivity|exact Hkind].
Qed.

(** X4. The deriver returns a literal exactly for the values that hold
    integers, strings, records and arrays only; for any value that
    contains an object of another class it raises
    [NotImplementedError]. *)
Theorem derive_supported (v : autosar.value) :
  match _deriveInitValueFromAutosarConstant v with
  | Ok _ => supported v = true
  | Raise e => supported v = false
               ∧ ∃ type_name, e = NotImplementedError type_name
  end.
Proof.
  induction v as [v|s|elements IH|elements IH|type_name]
    using value_ind_elements.
  - cbn. destruct (v >? 255)%Z; reflexivity.
  - reflexivity.
  - apply derive_elements in IH.
    cbn [_deriveInitValueFromAutosarConstant supported Py.bind].
    destruct ((fix derive_all (xs : list autosar.value) := _) elements);
      exact IH.
  - apply derive_elements in IH.
    cbn [_deriveInitValueFromAutosarConstant supported Py.bind].
    destruct ((fix derive_all (xs : list autosar.value) := _) elements);
      exact IH.
  - cbn. eauto.
Qed.

Lemma derive_all_literals (elements : list autosar.value)
  (literals : list string) :
  Forall2 (fun v text => _deriveInitValueFromAutosarConstant v = Ok text)
    elements literals →
  (fix derive_all (xs : list autosar.value) : result (list string) :=
     match xs with
     | [] => Ok []
     | x :: xs =>
         s <- _deriveInitValueFromAutosarConstant x ;;
         ss <- derive_all xs ;;
         Ok (s :: ss)
     end) elements = Ok literals.
Proof.
  induction 1 as [|v text elements literals Hv _ IH]; [reflexivity|].
  rewrite Hv. cbn [Py.bind]. rewrite IH. reflexivity.
Qed.

(** X5. The literal of a record is the literals of its elements, in
    order, joined by commas and wrapped in braces; an array of the same
    elements has the same literal. *)
Theorem derive_record_and_array (elements : list autosar.value)
  (literals : list string) :
  Forall2 (fun v text => _deriveInitValueFromAutosarConstant v = Ok text)
    elements literals →
  _deriveInitValueFromAutosarConstant (autosar.RecordValue elements)
  = Ok ("{" ++ join "," literals ++ "}")%string
  ∧ _deriveInitValueFromAutosarConstant (autosar.ArrayValue elements)
    = _deriveInitValueFromAutosarConstant (autosar.RecordValue elements).
Proof.
  intros Hall. apply derive_all_literals in Hall.
  cbn [_deriveInitValueFromAutosarConstant]. rewrite Hall. split; reflexivity.
Qed.

Lemma derive_record_and_array_witness :
  _deriveInitValueFromAutosarConstant
    (autosar.RecordValue
       [autosar.IntegerValue 1;
        autosar.ArrayValue [autosar.IntegerValue 300; autosar.StringValue "a"]])
  = Ok ("{1,{0x12C," ++ dquote ++ "a" ++ dquote ++ "}}")%string.
Proof.
  apply (derive_record_and_array
           [autosar.IntegerValue 1;
            autosar.ArrayValue
              [autosar.IntegerValue 300; autosar.StringValue "a"]]
           ["1"; ("{0x12C," ++ dquote ++ "a" ++ dquote ++ "}")%string]).
  repeat constructor.
Defined.

End MoreInitialValues.

(** ** Initial-value attributes of foreign ports *)

Section PortAttributes.

(** X6. A foreign port gets an initial-value attribute only when it has
    exactly one communication specification, a data-element one with an
    init value reference: with none or several the result is [None]; a
    reference the workspace cannot resolve raises [ValueError]; a
    reference to a constant gives the same as a reference to the value
    the constant wraps, namely [=] followed by the literal of that
    value. *)
Theorem calcAttributeFromAutosarPort_cases (ws : autosar.Workspace)
  (port : autosar.Port) :
  (length (autosar.comspec port) ≠ 1 →
   _calcAttributeFromAutosarPort ws port = Ok None)
  ∧ (∀ initValueRef,
       autosar.comspec port = [autosar.DataElementComSpec (Some initValueRef)] →
       autosar.find ws initValueRef = None →
       _calcAttributeFromAutosarPort ws port
       = Raise (ValueError ("invalid init value reference: " ++ initValueRef)%string))
  ∧ (∀ initValueRef name v,
       autosar.comspec port = [autosar.DataElementComSpec (Some initValueRef)] →
       autosar.find ws initValueRef = Some (autosar.mkElement name (autosar.Constant v))
       ∨ autosar.find ws initValueRef = Some (autosar.mkElement name (autosar.Value v)) →
       _calcAttributeFromAutosarPort ws port
       = (text <- _deriveInitValueFromAutosarConstant v ;;
          Ok (Some ("=" ++ text)%string))).
Proof.
  unfold _calcAttributeFromAutosarPort. split; [|split].
  - intros Hlen.
    destruct (autosar.comspec port) as [|[[ref|]|] [|c2 rest]];
      simpl in Hlen; try reflexivity; lia.
  - intros ref -> ->. reflexivity.
  - intros ref name v -> [-> | ->]; reflexivity.
Qed.

Lemma calcAttributeFromAutosarPort_cases_witness :
  _calcAttributeFromAutosarPort Sample.ws Sample.range_in = Ok (Some "=7")
  ∧ _calcAttributeFromAutosarPort Sample.ws
      (autosar.mkPort autosar.RequirePort "NoInit" "/PortInterface/Range_I"
         [] None)
    = Ok None.
Proof.
  split.
  - destruct (calcAttributeFromAutosarPort_cases Sample.ws Sample.range_in)
      as (_ & _ & Hconst).
    rewrite (Hconst "/Constant/Range_IV" "Range_IV" (autosar.IntegerValue 7));
      [reflexivity|reflexivity|left; reflexivity].
  - apply calcAttributeFromAutosarPort_cases. simpl. lia.
Defined.

End PortAttributes.

(** ** Signatures of foreign data types *)

Section DataSignatures.
Context `{Base}.

Lemma append_cons (c : ascii) (s1 s2 : string) :
  (String c s1 ++ s2 = String c (s1 ++ s2))%string.
Proof. reflexivity. Qed.


Lemma substring_append_l (s1 s2 : string) :
  substring 0 (String.length s1) (s1 ++ s2) = s1.
Proof.
  induction s1 as [|c s1 IH].
  - destruct s2; reflexivity.
  - rewrite append_cons. cbn [String.length substring].
    rewrite IH. reflexivity.
Qed.

Lemma substring_append_r (s1 s2 : string) (k : nat) :
  substring (String.length s1) k (s1 ++ s2) = substring 0 k s2.
Proof.
  induction s1 as [|c s1 IH]; [reflexivity|].
  rewrite append_cons. cbn [String.length substring]. exact IH.
Qed.

Lemma substring_whole (s : string) : substring 0 (String.length s) s = s.
Proof. induction s as [|c s IH]; simpl; [reflexivity|now rewrite IH]. Qed.

(** A string is its first [n] characters followed by the rest. *)
Lemma substring_split (s : string) (n : nat) :
  n ≤ String.length s →
  s = (substring 0 n s ++ substring n (String.length s - n) s)%string.
Proof.
  revert n. induction s as [|c s IH]; intros [|n] Hn; simpl in *;
    try reflexivity; try lia.
  - rewrite substring_whole. reflexivity.
  - rewrite append_cons. f_equal. apply IH. lia.
Qed.

(** X7. Of a field name that ends in [_RE] exactly these three
    characters are removed, once; any other name is kept as it is. *)
Theorem strip_RE_suffix (field : string) :
  strip_RE (field ++ "_RE") = field
  ∧ (strip_RE field = field ∨ field = (strip_RE field ++ "_RE")%string).
Proof.
  split.
  - unfold strip_RE, endswith, drop_last.
    rewrite length_append. cbn [String.length].
    replace (String.length field + 3 - 3) with (String.length field) by lia.
    rewrite substring_append_r, substring_append_l.
    destruct (Nat.leb_spec 3 (String.length field + 3)); [|lia].
    reflexivity.
  - unfold strip_RE, endswith, drop_last.
    destruct (Nat.leb_spec (String.length "_RE") (String.length field))
      as [Hlen|]; [|left; reflexivity].
    cbn [andb].
    destruct (String.eqb_spec
                (substring (String.length field - String.length "_RE")
                   (String.length "_RE") field) "_RE") as [Hsuffix|];
      [|left; reflexivity].
    right. cbn [String.length] in *.
    rewrite <- Hsuffix.
    pose proof (substring_split field (String.length field - 3)) as Hsplit.
    replace (String.length field - (String.length field - 3)) with 3
      in Hsplit by lia.
    apply Hsplit. lia.
Qed.



(** X9. A record type whose first element is of the record type itself
    has no signature: the computation ends in [RecursionError], and so
    does the construction of the data type. *)
Theorem calcDataSignature_cyclic (ws : autosar.Workspace)
  (dataType : autosar.element) (elem : autosar.TypedElement)
  (rest : list autosar.TypedElement) :
  autosar.class dataType = autosar.RecordDataType (elem :: rest) →
  autosar.find_role ws (autosar.typeRef elem) "DataType" = Some dataType →
  (∀ depth, _calcDataSignature depth ws dataType = Raise RecursionError)
  ∧ AutosarDataType ws dataType = Raise RecursionError.
Proof.
  intros Hclass Hfind.
  assert (Hall : ∀ depth,
            _calcDataSignature depth ws dataType = Raise RecursionError).
  { induction depth as [|depth IH]; [reflexivity|].
    cbn [_calcDataSignature]. rewrite Hclass. cbn zeta.
    rewrite Hfind, IH. reflexivity. }
  split; [exact Hall|]. unfold AutosarDataType. rewrite Hall. reflexivity.
Qed.

(** X10. The attribute of a data type with a [CompuMethodConst] is
    [VT(...)] around the text values of its elements, in order, each in
    double quotes and separated by commas; an element that is not a
    [CompuConstElement] fails the assertion. *)
Theorem calcAttribute_value_table (dataType : autosar.element)
  (name : string) (texts : list string) :
  _calcAttribute dataType
    (autosar.mkElement name
       (autosar.CompuMethodConst (map autosar.CompuConstElement texts)))
  = Ok (Some ("VT(" ++ join "," (map (fun x => dquote ++ x ++ dquote) texts)
              ++ ")")%string)
  ∧ ∀ after,
      _calcAttribute dataType
        (autosar.mkElement name
           (autosar.CompuMethodConst
              (map autosar.CompuConstElement texts
               ++ autosar.OtherCompuElement :: after)))
      = Raise AssertionError.
Proof.
  unfold _calcAttribute. cbn [autosar.class]. split.
  - assert (Heach :
      (fix each (elems : list autosar.CompuElement) :=
         match elems with
         | [] => Ok []
         | autosar.CompuConstElement textValue :: elems =>
             values <- each elems ;; Ok (textValue :: values)
         | autosar.OtherCompuElement :: _ => Raise AssertionError
         end) (map autosar.CompuConstElement texts) = Ok texts).
    { induction texts as [|t texts IH]; [reflexivity|].
      cbn [map]. rewrite IH. reflexivity. }
    rewrite Heach. reflexivity.
  - intros after.
    assert (Heach :
      (fix each (elems : list autosar.CompuElement) :=
         match elems with
         | [] => Ok []
         | autosar.CompuConstElement textValue :: elems =>
             values <- each elems ;; Ok (textValue :: values)
         | autosar.OtherCompuElement :: _ => Raise AssertionError
         end) (map autosar.CompuConstElement texts
               ++ autosar.OtherCompuElement :: after)
      = Raise AssertionError).
    { induction texts as [|t texts IH]; [reflexivity|].
      cbn [map app]. rewrite IH. reflexivity. }
    rewrite Heach. reflexivity.
Qed.

End DataSignatures.

(** ** Adding ports *)

Section MorePorts.
Context `{Base}.

(** What [add_require_port] does with a port object of the store. *)
Lemma add_require_port_run (s : State) (port : nat) :
  port < length (ports s) →
  let n := length (Node.requirePorts (self s)) in
  let p := Port_with_id (ports s !!! port) n in
  let appended :=
    Node.mk (Node.name (self s)) (Node.dataTypes (self s))
      (Node.requirePorts (self s) ++ [port]) (Node.providePorts (self s))
      (Node.dataTypeMap (self s)) in
  add_require_port port s
  = if isReference (Port.dsg p) then
      match resolve_data_element (Port.dsg p)
              (deref (types s) (Node.dataTypes (self s))) with
      | Ok dsg =>
          (mkState (types s)
             (<[port:=Port.mk (Port.cls p) (Port.name p) dsg (Port.attr p)
                        (Some n)]> (ports s))
             appended,
           Ok port)
      | Raise e => (mkState (types s) (<[port:=p]> (ports s)) (self s), Raise e)
      end
    else (mkState (types s) (<[port:=p]> (ports s)) appended, Ok port).
Proof.
  intros Hlt n p appended. subst n p appended. run.
  rewrite list_lookup_total_insert_eq by exact Hlt.
  destruct (isReference _); [|reflexivity].
  unfold Port_resolve_type, Py.bind. cbn [Port_with_id Port.dsg].
  destruct (resolve_data_element _ _); [|reflexivity].
  cbn [types ports self Port.cls Port.name Port.attr Port.id].
  rewrite list_insert_insert_eq. reflexivity.
Qed.

Lemma add_provide_port_run (s : State) (port : nat) :
  port < length (ports s) →
  let n := length (Node.providePorts (self s)) in
  let p := Port_with_id (ports s !!! port) n in
  let appended :=
    Node.mk (Node.name (self s)) (Node.dataTypes (self s))
      (Node.requirePorts (self s)) (Node.providePorts (self s) ++ [port])
      (Node.dataTypeMap (self s)) in
  add_provide_port port s
  = if isReference (Port.dsg p) then
      match resolve_data_element (Port.dsg p)
              (deref (types s) (Node.dataTypes (self s))) with
      | Ok dsg =>
          (mkState (types s)
             (<[port:=Port.mk (Port.cls p) (Port.name p) dsg (Port.attr p)
                        (Some n)]> (ports s))
             appended,
           Ok port)
      | Raise e => (mkState (types s) (<[port:=p]> (ports s)) (self s), Raise e)
      end
    else (mkState (types s) (<[port:=p]> (ports s)) appended, Ok port).
Proof.
  intros Hlt n p appended. subst n p appended. run.
  rewrite list_lookup_total_insert_eq by exact Hlt.
  destruct (isReference _); [|reflexivity].
  unfold Port_resolve_type, Py.bind. cbn [Port_with_id Port.dsg].
  destruct (resolve_data_element _ _); [|reflexivity].
  cbn [types ports self Port.cls Port.name Port.attr Port.id].
  rewrite list_insert_insert_eq. reflexivity.
Qed.

(** X11. A port whose signature is no type reference is always
    accepted: [add_require_port] gives it the number of require ports
    so far as id, whatever the number of provide ports, and puts it at
    the end of the require ports; [add_provide_port] does the same with
    the provide ports.  Name, class and attribute of the port, every
    other port object, the data types and the other list stay as they
    are. *)
Theorem add_port_numbering (s : State) (port : nat) :
  port < length (ports s) →
  isReference (Port.dsg (ports s !!! port)) = false →
  (∃ s', add_require_port port s = (s', Ok port)
         ∧ Node.requirePorts (self s') = Node.requirePorts (self s) ++ [port]
         ∧ Node.providePorts (self s') = Node.providePorts (self s)
         ∧ ports s' !!! port
           = Port_with_id (ports s !!! port)
               (length (Node.requirePorts (self s)))
         ∧ (∀ l, l ≠ port → ports s' !!! l = ports s !!! l)
         ∧ same_registry s s')
  ∧ (∃ s', add_provide_port port s = (s', Ok port)
           ∧ Node.providePorts (self s') = Node.providePorts (self s) ++ [port]
           ∧ Node.requirePorts (self s') = Node.requirePorts (self s)
           ∧ ports s' !!! port
             = Port_with_id (ports s !!! port)
                 (length (Node.providePorts (self s)))
           ∧ (∀ l, l ≠ port → ports s' !!! l = ports s !!! l)
           ∧ same_registry s s').
Proof.
  intros Hlt Href. split.
  - rewrite add_require_port_run by exact Hlt. cbn zeta.
    cbn [Port_with_id Port.dsg]. rewrite Href. eexists. split; [reflexivity|].
    cbn [types ports self Node.requirePorts Node.providePorts].
    rewrite list_lookup_total_insert_eq by exact Hlt.
    repeat split.
    intros l Hl. apply list_lookup_total_insert_ne. congruence.
  - rewrite add_provide_port_run by exact Hlt. cbn zeta.
    cbn [Port_with_id Port.dsg]. rewrite Href. eexists. split; [reflexivity|].
    cbn [types ports self Node.requirePorts Node.providePorts].
    rewrite list_lookup_total_insert_eq by exact Hlt.
    repeat split.
    intros l Hl. apply list_lookup_total_insert_ne. congruence.
Qed.

(** X12. When the require ports carry their positions as ids, they
    still do after [add_require_port] of a port object that is not among
    them, whether the call returns or raises; the ids of the provide
    ports are kept as well when the port is not among those. *)
Theorem add_require_port_keeps_ids (s : State) (port : nat) :
  port < length (ports s) →
  port ∉ Node.requirePorts (self s) →
  ids_by_position s (Node.requirePorts (self s)) →
  let s' := (add_require_port port s).1 in
  ids_by_position s' (Node.requirePorts (self s'))
  ∧ (port ∉ Node.providePorts (self s) →
     ids_by_position s (Node.providePorts (self s)) →
     ids_by_position s' (Node.providePorts (self s'))).
Proof.
  intros Hlt Hfresh Hids s'. subst s'.
  rewrite add_require_port_run by exact Hlt. cbn zeta.
  assert (Hold : ∀ (ls : list nat) (p : Port),
            port ∉ ls → ids_by_position s ls →
            ids_by_position (mkState (types s) (<[port:=p]> (ports s)) (self s)) ls).
  { intros ls p Hnotin Hls i l Hi. cbn [ports].
    rewrite list_lookup_total_insert_ne; [exact (Hls i l Hi)|].
    intros ->. apply Hnotin. eapply list_elem_of_lookup_2, Hi. }
  assert (Hnew : ∀ (p : Port) n0,
            Port.id p = Some (length (Node.requirePorts (self s))) →
            ids_by_position
              (mkState (types s) (<[port:=p]> (ports s)) n0)
              (Node.requirePorts (self s) ++ [port])).
  { intros p n0 Hid i l Hi. cbn [ports].
    apply lookup_app_Some in Hi as [Hi|[Hlen Hi]].
    - rewrite list_lookup_total_insert_ne; [exact (Hids i l Hi)|].
      intros ->. apply Hfresh. eapply list_elem_of_lookup_2, Hi.
    - apply list_lookup_singleton_Some in Hi as [Hi <-].
      rewrite list_lookup_total_insert_eq by exact Hlt.
      rewrite Hid. f_equal. lia. }
  destruct (isReference _).
  - destruct (resolve_data_element _ _);
      cbn [fst types ports self Node.requirePorts Node.providePorts].
    + split; [apply Hnew; reflexivity|].
      intros Hnotin Hpp. exact (Hold _ _ Hnotin Hpp).
    + split; [exact (Hold _ _ Hfresh Hids)|].
      intros Hnotin Hpp. exact (Hold _ _ Hnotin Hpp).
  - cbn [fst types ports self Node.requirePorts Node.providePorts].
    split; [apply Hnew; reflexivity|].
    intros Hnotin Hpp. exact (Hold _ _ Hnotin Hpp).
Qed.

(** X13. Nothing rejects a port that the node already has: adding the
    same port object twice puts it twice at the end of the require
    ports with the later position as its id, so that the ids of the
    require ports are no longer their positions. *)
Theorem add_require_port_twice (s : State) (port : nat) :
  port < length (ports s) →
  isReference (Port.dsg (ports s !!! port)) = false →
  ∃ s2,
    add_require_port port (add_require_port port s).1 = (s2, Ok port)
    ∧ Node.requirePorts (self s2)
      = Node.requirePorts (self s) ++ [port; port]
    ∧ Port.id (ports s2 !!! port)
      = Some (S (length (Node.requirePorts (self s))))
    ∧ ¬ ids_by_position s2 (Node.requirePorts (self s2)).
Proof.
  intros Hlt Href.
  rewrite (add_require_port_run s) by exact Hlt. cbn zeta.
  cbn [Port_with_id Port.dsg]. rewrite Href. cbn [fst].
  rewrite add_require_port_run
    by (cbn [ports]; rewrite length_insert; exact Hlt).
  cbn zeta. cbn [types ports self Node.requirePorts Node.providePorts
                 Node.name Node.dataTypes Node.dataTypeMap].
  rewrite list_lookup_total_insert_eq by exact Hlt.
  cbn [Port_with_id Port.dsg]. rewrite Href.
  eexists. split; [reflexivity|].
  cbn [types ports self Node.requirePorts].
  rewrite list_insert_insert_eq.
  rewrite list_lookup_total_insert_eq by exact Hlt.
  cbn [Port.id Port.cls Port.name Port.attr].
  rewrite length_app, Nat.add_1_r, <- app_assoc.
  split; [reflexivity|]. split; [reflexivity|].
  intros Hids.
  specialize (Hids (length (Node.requirePorts (self s))) port).
  cbn [ports] in Hids.
  rewrite list_lookup_total_insert_eq in Hids by exact Hlt.
  cbn [Port.id] in Hids.
  change ([port] ++ [port]) with (port :: [port]) in Hids.
  rewrite list_lookup_middle in Hids by reflexivity.
  specialize (Hids eq_refl). cbn [Port_with_id Port.id] in Hids.
  injection Hids as Hids. lia.
Qed.

End MorePorts.

(** ** Importing a foreign port: what is left behind *)

Section MoreImport.
Context `{Base}.

(** When the data type cannot be built, its exception is passed on and
    nothing is registered. *)
Lemma updateDataType_build_fails (s : State) (ws : autosar.Workspace)
  (port : autosar.Port) (dataElement : autosar.TypedElement)
  (dataType : autosar.element) (e : exn) :
  interface_elements ws port = Some [dataElement] →
  autosar.find ws (autosar.typeRef dataElement) = Some dataType →
  Node.dataTypeMap (self s) !! autosar.name dataType = None →
  AutosarDataType ws dataType = Raise e →
  _updateDataType ws port s = (s, Raise e).
Proof.
  unfold interface_elements, _updateDataType. intros Hsr Hfind Hnone Hd.
  destruct (autosar.find ws (autosar.portInterfaceRef port)) as [i|];
    [|discriminate].
  destruct (autosar.class i); try discriminate.
  injection Hsr as ->. rewrite Hfind. run. rewrite Hnone, Hd. reflexivity.
Qed.

Lemma AutosarDataType_array (ws : autosar.Workspace)
  (dataType : autosar.element) (typeRef : string) (length : Z) :
  autosar.class dataType = autosar.ArrayDataType typeRef length →
  AutosarDataType ws dataType = Raise (NameError "typeData").
Proof.
  intros Hclass. unfold AutosarDataType.
  change recursion_limit with (S (Nat.pred recursion_limit)).
  cbn [_calcDataSignature]. rewrite Hclass. reflexivity.
Qed.

(** X14. No array data type can be imported: building its signature
    reads the undefined name [typeData], so that importing a port whose
    data element has an array type the node does not have yet raises
    [NameError] and leaves the node as it was. *)
Theorem add_autosar_port_array (s : State) (port : autosar.Port)
  (ws0 : option autosar.Workspace) (ws : autosar.Workspace)
  (dataElement : autosar.TypedElement) (dataType : autosar.element)
  (typeRef : string) (length : Z) :
  workspace_of port ws0 = Some ws →
  interface_elements ws port = Some [dataElement] →
  autosar.find ws (autosar.typeRef dataElement) = Some dataType →
  autosar.class dataType = autosar.ArrayDataType typeRef length →
  Node.dataTypeMap (self s) !! autosar.name dataType = None →
  add_autosar_port port ws0 s = (s, Raise (NameError "typeData")).
Proof.
  intros Hws Hsr Hfind Hclass Hnone.
  unfold add_autosar_port. rewrite Hws. unfold bindM.
  erewrite updateDataType_build_fails; try eassumption; [reflexivity|].
  eapply AutosarDataType_array, Hclass.
Qed.

(** X15. An import that fails after the data type has been registered
    leaves that data type in the node: this happens for a port of a
    class other than require and provide, and for a port whose init
    value reference the workspace cannot resolve.  No port is added. *)
Theorem add_autosar_port_not_atomic (s : State) (port : autosar.Port)
  (ws0 : option autosar.Workspace) (ws : autosar.Workspace)
  (dataElement : autosar.TypedElement) (dataType : autosar.element)
  (d : DataType) :
  workspace_of port ws0 = Some ws →
  interface_elements ws port = Some [dataElement] →
  autosar.find ws (autosar.typeRef dataElement) = Some dataType →
  Node.dataTypeMap (self s) !! autosar.name dataType = None →
  AutosarDataType ws dataType = Ok d →
  let registered :=
    mkState
      (types s ++ [DataType_with_id d (length (Node.dataTypes (self s)))])
      (ports s)
      (Node.mk (Node.name (self s))
         (Node.dataTypes (self s) ++ [length (types s)])
         (Node.requirePorts (self s)) (Node.providePorts (self s))
         (<[autosar.name dataType:=length (types s)]>
            (Node.dataTypeMap (self s)))) in
  (∀ type_name,
     autosar.port_cls port = autosar.OtherPort type_name →
     add_autosar_port port ws0 s
     = (registered, Raise (ValueError ("invalid type " ++ type_name)%string)))
  ∧ (∀ initValueRef,
       autosar.port_cls port = autosar.RequirePort
       ∨ autosar.port_cls port = autosar.ProvidePort →
       autosar.comspec port = [autosar.DataElementComSpec (Some initValueRef)] →
       autosar.find ws initValueRef = None →
       add_autosar_port port ws0 s
       = (registered,
          Raise (ValueError ("invalid init value reference: "
                             ++ initValueRef)%string))).
Proof.
  intros Hws Hsr Hfind Hnone Hd registered. subst registered.
  pose proof (updateDataType_new s ws port dataElement dataType d
                Hsr Hfind Hnone Hd) as Hnew.
  split.
  - intros type_name Hcls. unfold add_autosar_port. rewrite Hws.
    unfold bindM at 1. rewrite Hnew, Hcls. reflexivity.
  - intros ref Hcls Hcom Href.
    assert (Hattr : _calcAttributeFromAutosarPort ws port
                    = Raise (ValueError ("invalid init value reference: "
                                         ++ ref)%string)).
    { unfold _calcAttributeFromAutosarPort. rewrite Hcom, Href. reflexivity. }
    unfold add_autosar_port. rewrite Hws.
    unfold bindM at 1. rewrite Hnew.
    destruct Hcls as [-> | ->]; unfold bindM, get, lift; rewrite Hattr;
      reflexivity.
Qed.

(** X16. A require port whose data type is registered is imported as
    a new port object of class [RequirePort] with the name of the
    foreign port, the signature made from [T[id]] where [id] is the id
    of the data type, and the derived attribute; its id is the number
    of require ports so far; it is put at the end of the require ports
    and its address is returned.  The provide ports and the data types
    stay as they are. *)
Theorem add_autosar_port_require (s s1 : State) (port : autosar.Port)
  (ws0 : option autosar.Workspace) (ws : autosar.Workspace) (item : nat)
  (attr : option string) (dsg dsg' : DataSignature) :
  workspace_of port ws0 = Some ws →
  _updateDataType ws port s = (s1, Ok (Some item)) →
  autosar.port_cls port = autosar.RequirePort →
  _calcAttributeFromAutosarPort ws port = Ok attr →
  DataSignature_new
    (Some ("T[" ++ fmt_s_int (DataType.id (types s1 !!! item)) ++ "]")%string)
  = Ok dsg →
  (if isReference dsg
   then resolve_data_element dsg (deref (types s1) (Node.dataTypes (self s1)))
        = Ok dsg'
   else dsg' = dsg) →
  add_autosar_port port ws0 s
  = (mkState (types s1)
       (ports s1
        ++ [Port.mk RequirePort (autosar.port_name port) dsg' attr
              (Some (length (Node.requirePorts (self s1))))])
       (Node.mk (Node.name (self s1)) (Node.dataTypes (self s1))
          (Node.requirePorts (self s1) ++ [length (ports s1)])
          (Node.providePorts (self s1)) (Node.dataTypeMap (self s1))),
     Ok (Some (length (ports s1)))).
Proof.
  intros Hws Hupd Hcls Hattr Hdsg Hres.
  unfold add_autosar_port. rewrite Hws. unfold bindM at 1.
  rewrite Hupd, Hcls. unfold bindM at 1. unfold get at 1.
  unfold bindM at 1. unfold lift at 1. rewrite Hattr.
  unfold bindM at 1. unfold lift at 1. unfold Port_new, Py.bind.
  rewrite Hdsg. unfold bindM at 1. unfold new_port at 1.
  unfold bindM at 1.
  rewrite add_require_port_run
    by (cbn [ports]; rewrite length_app; simpl; lia).
  cbn zeta. cbn [types ports self].
  rewrite list_lookup_total_middle by reflexivity.
  cbn [Port_with_id Port.dsg Port.cls Port.name Port.attr].
  destruct (isReference dsg).
  - rewrite Hres. unfold ret.
    rewrite insert_app_r_alt by reflexivity. rewrite Nat.sub_diag.
    reflexivity.
  - subst dsg'. unfold ret.
    rewrite insert_app_r_alt by reflexivity. rewrite Nat.sub_diag.
    reflexivity.
Qed.

End MoreImport.

(** ** Importing a component *)

Section MoreComponents.
Context `{Base}.

Lemma same_name_refl : Reflexive same_name.
Proof. intros s. reflexivity. Qed.

Lemma same_name_trans : Transitive same_name.
Proof. intros s1 s2 s3 H12 H23. unfold same_name in *. congruence. Qed.
#[local] Existing Instance same_name_refl.
#[local] Existing Instance same_name_trans.

(** [_updateDataType] either leaves the state as it is or registers one
    data type. *)
Lemma updateDataType_cases (ws : autosar.Workspace) (port : autosar.Port)
  (s : State) :
  (_updateDataType ws port s).1 = s
  ∨ ∃ dataType (d : DataType),
      (_updateDataType ws port s).1
      = mkState
          (types s ++ [DataType_with_id d (length (Node.dataTypes (self s)))])
          (ports s)
          (Node.mk (Node.name (self s))
             (Node.dataTypes (self s) ++ [length (types s)])
             (Node.requirePorts (self s)) (Node.providePorts (self s))
             (<[autosar.name dataType:=length (types s)]>
                (Node.dataTypeMap (self s)))).
Proof.
  destruct (interface_elements ws port) as [[|dataElement [|]]|] eqn:Hsr.
  - rewrite updateDataType_no_elements by auto. left. reflexivity.
  - destruct (autosar.find ws (autosar.typeRef dataElement)) as [dataType|]
      eqn:Hfind.
    + destruct (Node.dataTypeMap (self s) !! autosar.name dataType) as [item|]
        eqn:Hitem.
      * erewrite updateDataType_registered by eassumption. left. reflexivity.
      * destruct (AutosarDataType ws dataType) as [d|e] eqn:Hd.
        -- erewrite updateDataType_new by eassumption. right. eauto.
        -- erewrite updateDataType_build_fails by eassumption.
           left. reflexivity.
    + left. unfold interface_elements, _updateDataType in *.
      destruct (autosar.find ws (autosar.portInterfaceRef port)) as [i|];
        [|discriminate].
      destruct (autosar.class i); try discriminate.
      injection Hsr as ->. rewrite Hfind. reflexivity.
  - erewrite updateDataType_many_elements; [|eassumption|simpl; lia].
    left. reflexivity.
  - rewrite updateDataType_no_elements by auto. left. reflexivity.
Qed.

Lemma updateDataType_same_name (ws : autosar.Workspace) (port : autosar.Port) :
  preserves same_name (_updateDataType ws port).
Proof.
  intros s. destruct (updateDataType_cases ws port s) as [->|(dt & d & ->)];
    reflexivity.
Qed.

Lemma add_require_port_same_name (port : nat) :
  preserves same_name (add_require_port port).
Proof. intros s. run. repeat case_inner; reflexivity. Qed.

Lemma add_provide_port_same_name (port : nat) :
  preserves same_name (add_provide_port port).
Proof. intros s. run. repeat case_inner; reflexivity. Qed.

Lemma add_autosar_port_same_name (port : autosar.Port)
  (ws : option autosar.Workspace) :
  preserves same_name (add_autosar_port port ws).
Proof.
  unfold add_autosar_port.
  destruct (workspace_of port ws) as [w|]; [|apply preserves_raise; tc_solve].
  apply preserves_bind; [tc_solve|apply updateDataType_same_name|].
  intros [item|]; [|apply preserves_ret; tc_solve].
  destruct (autosar.port_cls port).
  - repeat preserves_step;
      try (intros s; reflexivity); apply add_require_port_same_name.
  - repeat preserves_step;
      try (intros s; reflexivity); apply add_provide_port_same_name.
  - apply preserves_raise; tc_solve.
Qed.

Lemma import_names_node (swc : autosar.AtomicSoftwareComponent)
  (ws : option autosar.Workspace) (name : option string) (s : State) :
  Node.name (self (import_autosar_swc swc ws name s).1)
  = Some (match name with
          | None => autosar.swc_name swc
          | Some name => name
          end).
Proof.
  assert (Hloop : ∀ ports0,
            preserves same_name
              (for_each ports0 (fun port => add_autosar_port port ws ;;; ret tt))).
  { intros ports0. apply for_each_preserves; try tc_solve.
    intros port. apply preserves_bind; [tc_solve| |intros _].
    - apply add_autosar_port_same_name.
    - apply preserves_ret; tc_solve. }
  unfold import_autosar_swc. unfold bindM at 1.
  unfold set_name, bindM at 1, get, set_self.
  match goal with
  | |- Node.name (self (?m ?s1).1) = _ =>
      assert (Hrest : preserves same_name m);
      [|rewrite (Hrest s1); destruct name; reflexivity]
  end.
  apply preserves_bind; [tc_solve|apply Hloop|intros _; apply Hloop].
Qed.

(** X17. After [import_autosar_swc] the node has the given name, or the
    name of the component when none is given, whether the import
    returned or raised. *)
Theorem import_autosar_swc_name (swc : autosar.AtomicSoftwareComponent)
  (ws : option autosar.Workspace) (name : option string) (s : State) :
  Node.name (self (import_autosar_swc swc ws name s).1)
  = Some (match name with
          | None => autosar.swc_name swc
          | Some name => name
          end).
Proof. apply import_names_node. Qed.

Lemma for_each_app {A : Type} (xs ys : list A) (body : A → M unit) (s : State) :
  for_each (xs ++ ys) body s = (for_each xs body ;;; for_each ys body) s.
Proof.
  revert s. induction xs as [|x xs IH]; intros s; [reflexivity|].
  cbn [app for_each]. unfold bindM.
  destruct (body x s) as [s' [[]|e]]; [|reflexivity].
  rewrite IH. reflexivity.
Qed.

Lemma bindM_set_name {A : Type} (name : option string) (k : unit → M A)
  (s : State) :
  bindM (set_name name) k s = k tt (set_name name s).1.
Proof. reflexivity. Qed.

Lemma import_in_one_loop (swc : autosar.AtomicSoftwareComponent)
  (ws : option autosar.Workspace) (name : option string) (s : State) :
  import_autosar_swc swc ws name s
  = (set_name (Some (match name with
                     | None => autosar.swc_name swc
                     | Some name => name
                     end)) ;;;
     for_each (autosar.providePorts swc ++ autosar.requirePorts swc)
       (fun port => add_autosar_port port ws ;;; ret tt)) s.
Proof.
  unfold import_autosar_swc. rewrite !bindM_set_name.
  rewrite for_each_app. destruct name; reflexivity.
Qed.

(** X18. [import_autosar_swc] names the node and then imports every
    provide port before any require port, each list in its order, and
    stops at the first exception: it does what the import of the same
    component with all these ports, in this order, as provide ports
    does. *)
Theorem import_autosar_swc_order (swc : autosar.AtomicSoftwareComponent)
  (ws : option autosar.Workspace) (name : option string) (s : State) :
  import_autosar_swc swc ws name s
  = (set_name (Some (match name with
                     | None => autosar.swc_name swc
                     | Some name => name
                     end)) ;;;
     for_each (autosar.providePorts swc ++ autosar.requirePorts swc)
       (fun port => add_autosar_port port ws ;;; ret tt)) s
  ∧ import_autosar_swc swc ws name s
    = import_autosar_swc
        (autosar.mkSwc (autosar.swc_name swc)
           (autosar.providePorts swc ++ autosar.requirePorts swc) [])
        ws name s.
Proof.
  split; [apply import_in_one_loop|].
  rewrite !import_in_one_loop.
  cbn [autosar.providePorts autosar.requirePorts autosar.swc_name].
  rewrite app_nil_r. reflexivity.
Qed.

Lemma store_kept_refl : Reflexive store_kept.
Proof. intros s. split; reflexivity. Qed.

Lemma store_kept_trans : Transitive store_kept.
Proof.
  intros s1 s2 s3 [Ht12 Hp12] [Ht23 Hp23]. split; etrans; eassumption.
Qed.
#[local] Existing Instance store_kept_refl.
#[local] Existing Instance store_kept_trans.

Lemma updateDataType_store_kept (ws : autosar.Workspace)
  (port : autosar.Port) :
  preserves store_kept (_updateDataType ws port).
Proof.
  intros s.
  destruct (updateDataType_cases ws port s) as [->|(dataType & d & ->)].
  - reflexivity.
  - split; cbn [types ports]; [apply prefix_app_r|]; reflexivity.
Qed.

(** A port object that has just been created is the only one that
    [add_require_port] and [add_provide_port] write to. *)
Lemma new_require_port_store_kept (p : Port) (s : State) :
  store_kept s (add_require_port (length (ports s)) (new_port p s).1).1.
Proof.
  unfold new_port. cbn [fst].
  rewrite add_require_port_run
    by (cbn [ports]; rewrite length_app; simpl; lia).
  cbn zeta. cbn [types ports self].
  repeat case_inner; split; cbn [fst types ports]; try reflexivity;
    rewrite insert_app_r_alt by lia; apply prefix_app_r; reflexivity.
Qed.

Lemma new_provide_port_store_kept (p : Port) (s : State) :
  store_kept s (add_provide_port (length (ports s)) (new_port p s).1).1.
Proof.
  unfold new_port. cbn [fst].
  rewrite add_provide_port_run
    by (cbn [ports]; rewrite length_app; simpl; lia).
  cbn zeta. cbn [types ports self].
  repeat case_inner; split; cbn [fst types ports]; try reflexivity;
    rewrite insert_app_r_alt by lia; apply prefix_app_r; reflexivity.
Qed.

Lemma add_autosar_port_store_kept (port : autosar.Port)
  (ws : option autosar.Workspace) :
  preserves store_kept (add_autosar_port port ws).
Proof.
  intros s. unfold add_autosar_port.
  destruct (workspace_of port ws) as [w|]; [|reflexivity].
  unfold bindM at 1.
  pose proof (updateDataType_store_kept w port s) as Hkept.
  destruct (_updateDataType w port s) as [s1 [[item|]|e]];
    cbn [fst] in Hkept; try exact Hkept.
  etrans; [exact Hkept|]. clear Hkept.
  destruct (autosar.port_cls port); [| |reflexivity].
  - unfold bindM at 1 2 3 4, get, lift. cbn [fst snd].
    destruct (_calcAttributeFromAutosarPort w port); [|reflexivity].
    destruct (Port_new _ _ _ _) as [p|]; [|reflexivity].
    pose proof (new_require_port_store_kept p s1) as Hport.
    unfold bindM, ret.
    destruct (new_port p s1) as [s2 [apx_port|]] eqn:Hnew;
      [|discriminate Hnew].
    injection Hnew as <- <-. cbn [fst ports] in *.
    destruct (add_require_port _ _) as [s3 []]; exact Hport.
  - unfold bindM at 1 2 3 4, get, lift. cbn [fst snd].
    destruct (_calcAttributeFromAutosarPort w port); [|reflexivity].
    destruct (Port_new _ _ _ _) as [p|]; [|reflexivity].
    pose proof (new_provide_port_store_kept p s1) as Hport.
    unfold bindM, ret.
    destruct (new_port p s1) as [s2 [apx_port|]] eqn:Hnew;
      [|discriminate Hnew].
    injection Hnew as <- <-. cbn [fst ports] in *.
    destruct (add_provide_port _ _) as [s3 []]; exact Hport.
Qed.

Lemma import_autosar_swc_store_kept (swc : autosar.AtomicSoftwareComponent)
  (ws : option autosar.Workspace) (name : option string) :
  preserves store_kept (import_autosar_swc swc ws name).
Proof.
  assert (Hport : ∀ port,
            preserves store_kept (add_autosar_port port ws ;;; ret tt)).
  { intros port. apply preserves_bind; [tc_solve| |intros _].
    - apply add_autosar_port_store_kept.
    - apply preserves_ret; tc_solve. }
  unfold import_autosar_swc.
  apply preserves_bind; [tc_solve| |intros _].
  { intros s. run. split; reflexivity. }
  apply preserves_bind; [tc_solve| |intros _];
    apply for_each_preserves; try tc_solve; exact Hport.
Qed.

(** X19. A node made by [from_autosar_swc] satisfies the registry
    invariant and has the given name or that of the component, whether
    the import returned the node or raised; the objects that were in
    the store are still there, unchanged, and the argument [reverse] has
    no effect. *)
Theorem from_autosar_swc_node (store_types : list DataType)
  (store_ports : list Port) (swc : autosar.AtomicSoftwareComponent)
  (name : option string) (reverse : bool) :
  let run := from_autosar_swc store_types store_ports swc name reverse in
  registry_ok run.1
  ∧ Node.name (self run.1)
    = Some (match name with
            | None => autosar.swc_name swc
            | Some name => name
            end)
  ∧ (run.2 = Ok (self run.1) ∨ ∃ e, run.2 = Raise e)
  ∧ store_types `prefix_of` types run.1
  ∧ store_ports `prefix_of` ports run.1
  ∧ run = from_autosar_swc store_types store_ports swc name (negb reverse).
Proof.
  cbn zeta. unfold from_autosar_swc.
  pose proof (imported_swc _ swc None name
                (imported_new store_types store_ports None)) as Himp.
  apply imported_registry_ok in Himp.
  pose proof (import_names_node swc None name
                (mkState store_types store_ports (Node.new None))) as Hname.
  pose proof (import_autosar_swc_store_kept swc None name
                (mkState store_types store_ports (Node.new None)))
    as [Htypes Hports].
  cbn [types ports] in Htypes, Hports.
  destruct (import_autosar_swc swc None name _) as [s1 [[]|e]];
    cbn [fst snd] in *; eauto 8.
Qed.

(** X30. An import creates objects and changes none: every data type
    object and every port object that was in the store before
    [add_autosar_port] or [import_autosar_swc] is afterwards at the
    same address with the same content, whether the call returned or
    raised. *)
Theorem import_keeps_store (port : autosar.Port)
  (swc : autosar.AtomicSoftwareComponent) (ws : option autosar.Workspace)
  (name : option string) (s : State) :
  store_kept s (add_autosar_port port ws s).1
  ∧ store_kept s (import_autosar_swc swc ws name s).1.
Proof.
  split.
  - apply add_autosar_port_store_kept.
  - apply import_autosar_swc_store_kept.
Qed.

End MoreComponents.

(** ** Finding objects by name *)

Section Find.
Context `{Base}.

Lemma first_named_spec (s : State) (name : string) (elems : list object_ref) :
  match first_named s name elems with
  | Some elem =>
      ∃ before after,
        elems = before ++ elem :: after
        ∧ object_name s elem = name
        ∧ Forall (fun x => object_name s x ≠ name) before
  | None => Forall (fun x => object_name s x ≠ name) elems
  end.
Proof.
  induction elems as [|elem elems IH]; cbn [first_named]; [constructor|].
  destruct (String.eqb_spec (object_name s elem) name) as [Heq|Hne].
  - exists [], elems. repeat split; [exact Heq|constructor].
  - destruct (first_named s name elems) as [found|].
    + destruct IH as (before & after & -> & Hname & Hbefore).
      exists (elem :: before), after. repeat split; [exact Hname|].
      constructor; assumption.
    + constructor; assumption.
Qed.

Lemma first_named_app_r (s : State) (name : string)
  (xs ys : list object_ref) :
  Forall (fun x => object_name s x ≠ name) xs →
  first_named s name (xs ++ ys) = first_named s name ys.
Proof.
  induction 1 as [|x xs Hx _ IH]; [reflexivity|].
  cbn [app first_named].
  destruct (String.eqb_spec (object_name s x) name); [contradiction|exact IH].
Qed.

Lemma first_named_app_l (s : State) (name : string)
  (xs ys : list object_ref) (x : object_ref) :
  x ∈ xs → object_name s x = name →
  ∃ x', first_named s name (xs ++ ys) = Some x'
        ∧ x' ∈ xs ∧ object_name s x' = name.
Proof.
  intros Hin Hname. induction xs as [|y xs IH]; [inversion Hin|].
  cbn [app first_named].
  destruct (String.eqb_spec (object_name s y) name) as [Heq|Hne].
  - exists y. repeat split; [apply list_elem_of_here|exact Heq].
  - apply elem_of_cons in Hin as [->|Hin]; [contradiction|].
    destruct (IH Hin) as (x' & Hfound & Hx' & Hname').
    exists x'. repeat split; [exact Hfound| |exact Hname'].
    apply list_elem_of_further, Hx'.
Qed.

Lemma elem_of_map_TypeRef (ls : list nat) (x : object_ref) :
  x ∈ map TypeRef ls → ∃ l', x = TypeRef l' ∧ l' ∈ ls.
Proof.
  intros Hx. apply list_elem_of_In, in_map_iff in Hx as (l' & <- & Hl').
  exists l'. split; [reflexivity|]. apply list_elem_of_In, Hl'.
Qed.

Lemma elem_of_map_PortRef (ls : list nat) (x : object_ref) :
  x ∈ map PortRef ls → ∃ l', x = PortRef l' ∧ l' ∈ ls.
Proof.
  intros Hx. apply list_elem_of_In, in_map_iff in Hx as (l' & <- & Hl').
  exists l'. split; [reflexivity|]. apply list_elem_of_In, Hl'.
Qed.

(** X20. [_inner_find] returns the first object of the given name in
    the order data types, require ports, provide ports, and [None]
    exactly when no object of the node has that name; [find] with a list
    of names returns the results for the names, in order. *)
Theorem inner_find_first (s : State) (name : string) :
  match _inner_find s name with
  | Some elem =>
      ∃ before after,
        objects (self s) = before ++ elem :: after
        ∧ object_name s elem = name
        ∧ Forall (fun x => object_name s x ≠ name) before
  | None => Forall (fun x => object_name s x ≠ name) (objects (self s))
  end
  ∧ find s (inl name) = inl (_inner_find s name)
  ∧ ∀ names, find s (inr names) = inr (map (_inner_find s) names).
Proof.
  split; [apply first_named_spec|]. split; [reflexivity|].
  intros names. cbn [find]. f_equal.
  apply (fold_left_snoc (_inner_find s) names []).
Qed.

(** X21. A data type hides every port of the same name, and a require
    port every provide port of the same name: when some data type of
    the node has the name, [_inner_find] returns a data type; when none
    has but some require port has the name, it returns a require
    port. *)
Theorem inner_find_precedence (s : State) (name : string) (l : nat) :
  (l ∈ Node.dataTypes (self s) →
   DataType.name (types s !!! l) = name →
   ∃ l', _inner_find s name = Some (TypeRef l')
         ∧ l' ∈ Node.dataTypes (self s)
         ∧ DataType.name (types s !!! l') = name)
  ∧ (Forall (fun l' => DataType.name (types s !!! l') ≠ name)
       (Node.dataTypes (self s)) →
     l ∈ Node.requirePorts (self s) →
     Port.name (ports s !!! l) = name →
     ∃ l', _inner_find s name = Some (PortRef l')
           ∧ l' ∈ Node.requirePorts (self s)
           ∧ Port.name (ports s !!! l') = name).
Proof.
  unfold _inner_find, objects. split.
  - intros Hl Hname.
    destruct (first_named_app_l s name (map TypeRef (Node.dataTypes (self s)))
                (map PortRef (Node.requirePorts (self s))
                 ++ map PortRef (Node.providePorts (self s)))
                (TypeRef l)) as (x & Hfound & Hx & Hxname).
    + apply list_elem_of_In, in_map, list_elem_of_In, Hl.
    + exact Hname.
    + apply elem_of_map_TypeRef in Hx as (l' & -> & Hl').
      exists l'. auto.
  - intros Hnone Hl Hname.
    rewrite first_named_app_r.
    + destruct (first_named_app_l s name
                  (map PortRef (Node.requirePorts (self s)))
                  (map PortRef (Node.providePorts (self s)))
                  (PortRef l)) as (x & Hfound & Hx & Hxname).
      * apply list_elem_of_In, in_map, list_elem_of_In, Hl.
      * exact Hname.
      * apply elem_of_map_PortRef in Hx as (l' & -> & Hl').
        exists l'. auto.
    + apply Forall_forall. intros x Hx.
      apply elem_of_map_TypeRef in Hx as (l' & -> & Hl').
      eapply Forall_forall in Hnone; [exact Hnone|exact Hl'].
Qed.

(** X22. In a node that satisfies the registry invariant, [_inner_find]
    and the lookup table agree on data types: the table maps a name to
    a data type exactly when [_inner_find] returns that data type for
    the name. *)
Theorem inner_find_registry (s : State) (name : string) (l : nat) :
  registry_ok s →
  (Node.dataTypeMap (self s) !! name = Some l
   ↔ _inner_find s name = Some (TypeRef l)).
Proof.
  intros [Hid Hmap]. split.
  - intros Hl. apply Hmap in Hl as [Hl Hname].
    unfold _inner_find, objects.
    destruct (first_named_app_l s name (map TypeRef (Node.dataTypes (self s)))
                (map PortRef (Node.requirePorts (self s))
                 ++ map PortRef (Node.providePorts (self s)))
                (TypeRef l)) as (x & Hfound & Hx & Hxname).
    + apply list_elem_of_In, in_map, list_elem_of_In, Hl.
    + exact Hname.
    + apply elem_of_map_TypeRef in Hx as (l' & -> & Hl').
      rewrite Hfound. do 2 f_equal.
      assert (Hl1 : Node.dataTypeMap (self s) !! name = Some l')
        by (apply Hmap; auto).
      assert (Hl2 : Node.dataTypeMap (self s) !! name = Some l)
        by (apply Hmap; auto).
      congruence.
  - intros Hfound. pose proof (first_named_spec s name (objects (self s))) as Hspec.
    unfold _inner_find in Hfound. rewrite Hfound in Hspec.
    destruct Hspec as (before & after & Hobjects & Hname & _).
    apply Hmap. split; [|exact Hname].
    assert (Hin : TypeRef l ∈ objects (self s)).
    { rewrite Hobjects. apply elem_of_app. right. apply list_elem_of_here. }
    unfold objects in Hin. rewrite !elem_of_app in Hin.
    destruct Hin as [Hin|[Hin|Hin]].
    + apply elem_of_map_TypeRef in Hin as (l' & [= <-] & Hl'). exact Hl'.
    + apply elem_of_map_PortRef in Hin as (l' & [=] & _).
    + apply elem_of_map_PortRef in Hin as (l' & [=] & _).
Qed.

End Find.

(** ** Resolving the ports of a node *)

Section ResolveTypes.
Context `{Base}.

Lemma only_ports_changed_refl : Reflexive only_ports_changed.
Proof. intros s. repeat split. Qed.

Lemma only_ports_changed_trans : Transitive only_ports_changed.
Proof.
  intros s1 s2 s3 (Hs & Ht & Hp) (Hs' & Ht' & Hp').
  repeat split; congruence.
Qed.
#[local] Existing Instance only_ports_changed_refl.
#[local] Existing Instance only_ports_changed_trans.

Lemma set_port_only_ports (port : nat) (p : Port) :
  preserves only_ports_changed (set_port port p).
Proof.
  intros s. repeat split. cbn [fst set_port ports]. apply length_insert.
Qed.

(** X23. [resolve_types] touches port objects only: the node, the data
    type objects and the number of port objects are afterwards what
    they were, whether it returned or raised; and when no port of the
    node has a type reference as signature it changes nothing at
    all. *)
Theorem resolve_types_frame (s : State) :
  only_ports_changed s (resolve_types s).1
  ∧ (Forall (fun port => isReference (Port.dsg (ports s !!! port)) = false)
       (Node.requirePorts (self s) ++ Node.providePorts (self s)) →
     resolve_types s = (s, Ok tt)).
Proof.
  split.
  - revert s. change (preserves only_ports_changed resolve_types).
    unfold resolve_types.
    apply preserves_bind; [tc_solve|apply preserves_get; tc_solve|].
    intros s0. apply for_each_preserves; try tc_solve.
    intros port. repeat preserves_step; apply set_port_only_ports.
  - unfold resolve_types, bindM at 1, get at 1.
    generalize (Node.requirePorts (self s) ++ Node.providePorts (self s)).
    intros ls Hls. induction Hls as [|port ls Hport _ IH]; [reflexivity|].
    cbn [for_each]. unfold bindM at 1. unfold bindM at 1, get at 1.
    rewrite Hport. unfold ret at 1. exact IH.
Qed.

End ResolveTypes.

(** ** The port classes of [node.py] *)

Section LegacyPorts.

(** X24. For a port object of [node.py] whose attribute has been set,
    [mirror] returns a port of the other class with the same name, type
    id and attribute; mirroring that port gives the port back; and the
    two print alike but for the leading [R] or [P]. *)
Theorem AutosarPort_mirror_involutive (p : AutosarPort.t)
  (a : option string) :
  AutosarPort.attr p = Some a →
  ∃ p',
    AutosarPort.mirror p = Ok p'
    ∧ AutosarPort.mirror p' = Ok p
    ∧ AutosarPort.cls p' ≠ AutosarPort.cls p
    ∧ AutosarPort.name p' = AutosarPort.name p
    ∧ AutosarPort.typeId p' = AutosarPort.typeId p
    ∧ AutosarPort.attr p' = AutosarPort.attr p
    ∧ ∃ rest,
        AutosarPort.str p
        = Ok (AutosarPort.marker (AutosarPort.cls p) ++ rest)%string
        ∧ AutosarPort.str p'
          = Ok (AutosarPort.marker (AutosarPort.cls p') ++ rest)%string.
Proof.
  destruct p as [cls name typeId attr]. cbn [AutosarPort.attr].
  intros ->. unfold AutosarPort.mirror, AutosarPort.new, Py.bind.
  cbn [AutosarPort.cls AutosarPort.name AutosarPort.typeId AutosarPort.attr].
  eexists. split; [reflexivity|].
  cbn [AutosarPort.cls AutosarPort.name AutosarPort.typeId AutosarPort.attr].
  split; [destruct cls; reflexivity|].
  split; [destruct cls; discriminate|].
  repeat (split; [reflexivity|]).
  unfold AutosarPort.str.
  cbn [AutosarPort.cls AutosarPort.name AutosarPort.typeId AutosarPort.attr].
  destruct a as [a|]; eexists; split; reflexivity.
Qed.

(** X25. A port object of [node.py] made by its constructor alone has
    no attribute [attr]: printing it and mirroring it raise
    [AttributeError]; a constructor call with both a workspace and a
    port raises [AttributeError] as well, for the method it calls does
    not exist. *)
Theorem AutosarPort_constructor (cls : AutosarPort.port_class)
  (name : string) (typeId : Z) (ws : option autosar.Workspace)
  (port : option autosar.Port) :
  match AutosarPort.new cls name typeId ws port with
  | Ok p =>
      (ws = None ∨ port = None)
      ∧ AutosarPort.str p = Raise (AttributeError "attr")
      ∧ AutosarPort.mirror p = Raise (AttributeError "attr")
  | Raise e =>
      is_Some ws ∧ is_Some port ∧ e = AttributeError "_calcAttribute"
  end.
Proof.
  destruct ws as [ws|], port as [port|]; cbn; eauto 6.
Qed.

End LegacyPorts.

(** ** The text of a mirror *)

Section MirrorLines.
Context `{Base}.

(** X26. The lines of the mirror of a node are a header with the name
    of the mirror, the data type lines of the source, then the mirrored
    require ports of the source as provide ports and the mirrored
    provide ports as require ports: as many lines as the source has.
    The lines of the source are what they were before. *)
Theorem mirror_lines (name : option string) (s : State) :
  valid s →
  ∃ s' m,
    mirror name s = (s', Ok m)
    ∧ lines (with_self s' m)
      = [header m]
        ++ map DataType_str (deref (types s) (Node.dataTypes (self s)))
        ++ map Port_str
             (map Port_mirror (deref (ports s) (Node.requirePorts (self s))))
        ++ map Port_str
             (map Port_mirror (deref (ports s) (Node.providePorts (self s))))
    ∧ length (lines (with_self s' m)) = length (lines s)
    ∧ lines s' = lines s.
Proof.
  intros Hvalid.
  destruct (mirror_spec name s Hvalid)
    as (extra & dataTypes & Hspec & Hlen & Hfresh & Hsame).
  cbn zeta in Hspec. eexists _, _. split; [exact Hspec|].
  destruct Hvalid as (Hdt & Hrp & Hpp & _).
  assert (Hmirror :
    lines (with_self
             (mkState (types s ++ extra)
                (ports s
                 ++ map Port_mirror (deref (ports s) (Node.providePorts (self s)))
                 ++ map Port_mirror (deref (ports s) (Node.requirePorts (self s))))
                (self s))
             (Node.mk
                (match name with
                 | Some name => Some name
                 | None => Node.name (self s)
                 end)
                dataTypes
                (seq (length (ports s))
                   (length (map Port_mirror
                              (deref (ports s) (Node.providePorts (self s))))))
                (seq (length (ports s)
                      + length (map Port_mirror
                                  (deref (ports s) (Node.providePorts (self s)))))
                   (length (map Port_mirror
                              (deref (ports s) (Node.requirePorts (self s))))))
                (fold_left
                   (fun m l =>
                      <[DataType.name ((types s ++ extra) !!! l):=l]> m)
                   dataTypes ∅)))
    = [header (Node.mk
                 (match name with
                  | Some name => Some name
                  | None => Node.name (self s)
                  end) [] [] [] ∅)]
      ++ map DataType_str (deref (types s) (Node.dataTypes (self s)))
      ++ map Port_str
           (map Port_mirror (deref (ports s) (Node.requirePorts (self s))))
      ++ map Port_str
           (map Port_mirror (deref (ports s) (Node.providePorts (self s))))).
  { rewrite lines_eq. unfold with_self.
    cbn [types ports self Node.dataTypes Node.requirePorts Node.providePorts].
    rewrite Hsame, deref_seq_middle, deref_seq_end. reflexivity. }
  split; [exact Hmirror|]. split.
  - rewrite Hmirror, lines_eq. unfold deref.
    rewrite !length_app, !length_map. simpl. lia.
  - rewrite !lines_eq. cbn [types ports self].
    rewrite (deref_app_l (types s)) by exact Hdt.
    rewrite !(deref_app_l (ports s)) by assumption.
    reflexivity.
Qed.

End MirrorLines.

(** ** Manual construction and the registry *)

Section MoreAddType.
Context `{Base}.

(** What [add_type] does with a data type object of the store. *)
Lemma add_type_run (s : State) (dataType : nat) :
  dataType < length (types s) →
  let d := types s !!! dataType in
  let n := length (Node.dataTypes (self s)) in
  add_type dataType s
  = match Node.dataTypeMap (self s) !! DataType.name d with
    | Some _ =>
        (s, Raise (ValueError ("Data type with name " ++ DataType.name d
                               ++ " already exists")%string))
    | None =>
        match resolve_data_element (DataType.dsg d)
                (deref (<[dataType:=DataType_with_id d n]> (types s))
                   (Node.dataTypes (self s))) with
        | Ok dsg =>
            (mkState
               (<[dataType:=DataType.mk (DataType.name d) (Some n) dsg
                              (DataType.attr d)]> (types s))
               (ports s)
               (Node.mk (Node.name (self s))
                  (Node.dataTypes (self s) ++ [dataType])
                  (Node.requirePorts (self s)) (Node.providePorts (self s))
                  (<[DataType.name d:=dataType]> (Node.dataTypeMap (self s)))),
             Ok dataType)
        | Raise e =>
            (mkState (<[dataType:=DataType_with_id d n]> (types s)) (ports s)
               (self s),
             Raise e)
        end
    end.
Proof.
  intros Hlt d n. subst d n. run.
  destruct (Node.dataTypeMap (self s) !! _); [reflexivity|].
  cbn [types ports self].
  rewrite list_lookup_total_insert_eq by exact Hlt.
  cbn [DataType_with_id DataType.dsg].
  destruct (resolve_data_element _ _); [|reflexivity].
  cbn [types ports self DataType_with_dsg DataType.name DataType.id
       DataType.attr].
  rewrite list_insert_insert_eq. reflexivity.
Qed.

(** A data type whose name the lookup table does not have is not in the
    type sequence. *)
Lemma registry_unnamed_absent (s : State) (l : nat) :
  registry_ok s →
  Node.dataTypeMap (self s) !! DataType.name (types s !!! l) = None →
  l ∉ Node.dataTypes (self s).
Proof.
  intros [_ Hmap] Hnone Hl.
  assert (Hsome : Node.dataTypeMap (self s) !! DataType.name (types s !!! l)
                  = Some l) by (apply Hmap; auto).
  congruence.
Qed.

Lemma registry_ok_write_outside (s : State) (l : nat) (d : DataType) :
  registry_ok s → l ∉ Node.dataTypes (self s) →
  registry_ok (mkState (<[l:=d]> (types s)) (ports s) (self s)).
Proof.
  intros [Hid Hmap] Hl. split; cbn [types self].
  - intros i l0 Hi. destruct (Hid i l0 Hi) as [Hlt Hidl].
    rewrite length_insert. split; [exact Hlt|].
    rewrite list_lookup_total_insert_ne; [exact Hidl|].
    intros ->. apply Hl. eapply list_elem_of_lookup_2, Hi.
  - intros name l0. rewrite Hmap. split; intros [Hl0 Hname]; split;
      try exact Hl0.
    + rewrite list_lookup_total_insert_ne; [exact Hname|]. congruence.
    + rewrite list_lookup_total_insert_ne in Hname; [exact Hname|]. congruence.
Qed.

(** Objects that are created in the store and not given to the node
    leave the registry invariant as it is. *)
Lemma registry_ok_new_objects (s : State) (new_types : list DataType)
  (new_ports : list Port) :
  registry_ok s →
  registry_ok (mkState (types s ++ new_types) (ports s ++ new_ports) (self s)).
Proof.
  intros [Hid Hmap].
  assert (Hsame : ∀ l, l ∈ Node.dataTypes (self s) →
            (types s ++ new_types) !!! l = types s !!! l).
  { intros l Hl. apply list_elem_of_lookup in Hl as [i Hi].
    apply lookup_total_app_l. exact (proj1 (Hid i l Hi)). }
  split; cbn [types self].
  - intros i l Hi. destruct (Hid i l Hi) as [Hlt Hidl].
    rewrite length_app. split; [lia|].
    rewrite Hsame by (eapply list_elem_of_lookup_2, Hi). exact Hidl.
  - intros name l. rewrite Hmap. split; intros [Hl Hname]; split;
      try exact Hl.
    + rewrite Hsame by exact Hl. exact Hname.
    + rewrite Hsame in Hname by exact Hl. exact Hname.
Qed.

(** X27. [add_type] keeps the registry invariant, whether it returns or
    raises: with data types added by hand and data types registered by
    imports in any order, the type at position [i] still has id [i] and
    the lookup table still names exactly the types of the sequence. *)
Theorem add_type_registry_ok (s : State) (dataType : nat) :
  dataType < length (types s) →
  registry_ok s →
  registry_ok (add_type dataType s).1.
Proof.
  intros Hlt Hok. rewrite add_type_run by exact Hlt. cbn zeta.
  destruct (Node.dataTypeMap (self s) !! _) eqn:Hnone; [exact Hok|].
  pose proof (registry_unnamed_absent s dataType Hok Hnone) as Habsent.
  destruct (resolve_data_element _ _) as [dsg|e]; cbn [fst];
    [|apply registry_ok_write_outside; assumption].
  destruct Hok as [Hid Hmap].
  assert (Hold : ∀ l, l ∈ Node.dataTypes (self s) → l ≠ dataType)
    by (intros l Hl ->; exact (Habsent Hl)).
  split; cbn [types self Node.dataTypes Node.dataTypeMap].
  - intros i l Hi. rewrite length_insert.
    apply lookup_app_Some in Hi as [Hi|[Hlen Hi]].
    + destruct (Hid i l Hi) as [Hl Hidl]. split; [exact Hl|].
      rewrite list_lookup_total_insert_ne; [exact Hidl|].
      intros <-. eapply Hold; [|reflexivity]. eapply list_elem_of_lookup_2, Hi.
    + apply list_lookup_singleton_Some in Hi as [Hi <-].
      split; [exact Hlt|].
      rewrite list_lookup_total_insert_eq by exact Hlt.
      cbn [DataType.id]. f_equal. lia.
  - intros name l. rewrite lookup_insert. case_decide as Hname.
    + subst name. split.
      * intros [= <-].
        split; [apply elem_of_app; right; apply list_elem_of_here|].
        rewrite list_lookup_total_insert_eq by exact Hlt. reflexivity.
      * intros [Hl Hn]. apply elem_of_app in Hl as [Hl|Hl].
        -- exfalso.
           rewrite list_lookup_total_insert_ne in Hn
             by (intros <-; exact (Habsent Hl)).
           assert (Hsome : Node.dataTypeMap (self s)
                           !! DataType.name (types s !!! dataType) = Some l)
             by (apply Hmap; auto).
           congruence.
        -- apply list_elem_of_singleton in Hl. congruence.
    + rewrite Hmap. split.
      * intros [Hl Hn]. split; [apply elem_of_app; left; exact Hl|].
        rewrite list_lookup_total_insert_ne
          by (intros <-; exact (Habsent Hl)).
        exact Hn.
      * intros [Hl Hn]. apply elem_of_app in Hl as [Hl|Hl].
        -- split; [exact Hl|].
           rewrite list_lookup_total_insert_ne in Hn
             by (intros <-; exact (Habsent Hl)).
           exact Hn.
        -- apply list_elem_of_singleton in Hl. subst l.
           rewrite list_lookup_total_insert_eq in Hn by exact Hlt.
           cbn [DataType.name] in Hn. congruence.
Qed.

(** X28. Once a data type has been added by hand, its name is taken:
    an import of a foreign type of that name returns the object added
    by hand and changes nothing, and adding by hand any data type of
    that name, the same object included, raises [ValueError] and
    changes nothing. *)
Theorem add_type_then_same_name (s s' : State) (dataType : nat) :
  dataType < length (types s) →
  add_type dataType s = (s', Ok dataType) →
  let name := DataType.name (types s !!! dataType) in
  DataType.name (types s' !!! dataType) = name
  ∧ (∀ ws port dataElement foreign,
       interface_elements ws port = Some [dataElement] →
       autosar.find ws (autosar.typeRef dataElement) = Some foreign →
       autosar.name foreign = name →
       _updateDataType ws port s' = (s', Ok (Some dataType)))
  ∧ (∀ other,
       other < length (types s') →
       DataType.name (types s' !!! other) = name →
       add_type other s'
       = (s', Raise (ValueError ("Data type with name " ++ name
                                 ++ " already exists")%string))).
Proof.
  intros Hlt Hrun name. subst name.
  rewrite add_type_run in Hrun by exact Hlt. cbn zeta in Hrun.
  destruct (Node.dataTypeMap (self s) !! _) eqn:Hnone; [discriminate|].
  destruct (resolve_data_element _ _) as [dsg|e]; [|discriminate].
  injection Hrun as <-.
  assert (Htaken : ∀ n,
            n = DataType.name (types s !!! dataType) →
            <[DataType.name (types s !!! dataType):=dataType]>
              (Node.dataTypeMap (self s)) !! n = Some dataType)
    by (intros n ->; apply lookup_insert_eq).
  split; [|split].
  - cbn [types]. rewrite list_lookup_total_insert_eq by exact Hlt. reflexivity.
  - intros ws port dataElement foreign Hsr Hfind Hname.
    eapply updateDataType_registered; try eassumption.
    cbn [self Node.dataTypeMap]. apply Htaken, Hname.
  - intros other Hother Hname. rewrite add_type_run by exact Hother.
    cbn zeta. rewrite Hname. cbn [self Node.dataTypeMap].
    rewrite Htaken by reflexivity. reflexivity.
Qed.

End MoreAddType.

(** ** Appending *)

Section Append.
Context `{Base}.
Variable apx_split_line : string → result (list string).

(** X29. [append] rejects without changing the node: an object that is
    no data type, port, foreign port or text raises [NameError] (the
    [raise] statement reads an undefined name); a line that does not
    split into four fields raises [ValueError], and so does a line whose
    first field is neither [R] nor [P], a data type line or a node
    header for example. *)
Theorem append_rejects (s : State) :
  (∀ type_name,
     append apx_split_line (OtherItem type_name) s
     = (s, Raise (NameError "port")))
  ∧ (∀ text parts,
       apx_split_line text = Ok parts → length parts ≠ 4 →
       append apx_split_line (TextItem text) s
       = (s, Raise (ValueError ("invalid APX string: '" ++ text ++ "'")%string)))
  ∧ (∀ text marker name dsg attr,
       apx_split_line text = Ok [marker; name; dsg; attr] →
       marker ≠ "R" → marker ≠ "P" →
       append apx_split_line (TextItem text) s
       = (s, Raise (ValueError marker))).
Proof.
  split; [reflexivity|]. split.
  - intros text parts Hsplit Hlen. unfold append, bindM, lift.
    rewrite Hsplit.
    destruct parts as [|p0 [|p1 [|p2 [|p3 [|p4 rest]]]]];
      simpl in Hlen; try reflexivity; lia.
  - intros text marker name dsg attr Hsplit HR HP.
    unfold append, bindM, lift. rewrite Hsplit.
    destruct (String.eqb_spec marker "R"); [contradiction|].
    destruct (String.eqb_spec marker "P"); [contradiction|].
    reflexivity.
Qed.

End Append.

(** ** The further properties at the examples *)

Section MoreExamples.
#[local] Existing Instance Sample.text_base.


Lemma calcDataSignature_cyclic_witness :
  AutosarDataType Cases.ws Cases.loop = Raise RecursionError.
Proof.
  apply (calcDataSignature_cyclic Cases.ws Cases.loop
           (autosar.mkTypedElement "Next" "/DataType/Loop") []);
    reflexivity.
Defined.

Lemma add_port_numbering_witness :
  ∃ s', add_require_port 2 Cases.crowded = (s', Ok 2)
        ∧ Node.requirePorts (self s') = [1; 2]
        ∧ Node.providePorts (self s') = [0]
        ∧ Port.id (ports s' !!! 2) = Some 1.
Proof.
  assert (Hlt : 2 < length (ports Cases.crowded))
    by (vm_compute; lia).
  assert (Hdsg : isReference (Port.dsg (ports Cases.crowded !!! 2)) = false)
    by (vm_compute; reflexivity).
  destruct (add_port_numbering Cases.crowded 2 Hlt Hdsg)
    as [(s' & Hrun & Hreq & Hpro & Hport & _) _].
  exists s'. split; [exact Hrun|]. split; [rewrite Hreq; reflexivity|].
  split; [rewrite Hpro; reflexivity|].
  rewrite Hport. reflexivity.
Defined.

Lemma add_require_port_keeps_ids_witness :
  Node.requirePorts (self (add_require_port 2 Cases.crowded).1) = [1; 2]
  ∧ ids_by_position (add_require_port 2 Cases.crowded).1
      (Node.requirePorts (self (add_require_port 2 Cases.crowded).1)).
Proof.
  assert (Hlt : 2 < length (ports Cases.crowded))
    by (vm_compute; lia).
  assert (Hreq : Node.requirePorts (self Cases.crowded) = [1])
    by (vm_compute; reflexivity).
  assert (Hnew : 2 ∉ Node.requirePorts (self Cases.crowded)).
  { rewrite Hreq. intros Hin. apply list_elem_of_singleton in Hin.
    discriminate Hin. }
  assert (Hids : ids_by_position Cases.crowded
                   (Node.requirePorts (self Cases.crowded))).
  { rewrite Hreq. intros [|i] l Hi; [|discriminate Hi].
    injection Hi as <-. vm_compute. reflexivity. }
  split; [vm_compute; reflexivity|].
  exact (proj1 (add_require_port_keeps_ids Cases.crowded 2 Hlt Hnew Hids)).
Defined.

Lemma add_require_port_twice_witness :
  ∃ s2,
    add_require_port 0 (add_require_port 0 Cases.manual).1 = (s2, Ok 0)
    ∧ Node.requirePorts (self s2) = [0; 0]
    ∧ Port.id (ports s2 !!! 0) = Some 1.
Proof.
  assert (Hlt : 0 < length (ports Cases.manual)) by (simpl; lia).
  destruct (add_require_port_twice Cases.manual 0 Hlt eq_refl)
    as (s2 & Hrun & Hreq & Hid & _).
  exists s2. split; [exact Hrun|]. split; [exact Hreq|exact Hid].
Defined.

Lemma add_autosar_port_array_witness :
  add_autosar_port Cases.block_in (Some Cases.ws) Sample.empty
  = (Sample.empty, Raise (NameError "typeData")).
Proof.
  apply (add_autosar_port_array Sample.empty Cases.block_in (Some Cases.ws)
           Cases.ws (autosar.mkTypedElement "Block" "/DataType/Block")
           Cases.block "/DataType/U8Range" 4);
    reflexivity.
Defined.

Lemma add_autosar_port_not_atomic_witness :
  (add_autosar_port Cases.odd (Some Cases.ws) Sample.empty).2
  = Raise (ValueError "invalid type <class 'autosar.component.ServicePort'>")
  ∧ Node.dataTypes
      (self (add_autosar_port Cases.odd (Some Cases.ws) Sample.empty).1)
    = [0]
  ∧ (add_autosar_port Cases.dangling (Some Cases.ws) Sample.empty).2
    = Raise (ValueError "invalid init value reference: /Constant/Missing")
  ∧ Node.dataTypes
      (self (add_autosar_port Cases.dangling (Some Cases.ws) Sample.empty).1)
    = [0].
Proof.
  assert (Hd : AutosarDataType Cases.ws (IntegerType "U8Range" 0 10)
               = Ok (DataType.mk "U8Range" None (Some "C(0,10)") None))
    by (vm_compute; reflexivity).
  destruct (add_autosar_port_not_atomic Sample.empty Cases.odd
              (Some Cases.ws) Cases.ws
              (autosar.mkTypedElement "Range" "/DataType/U8Range")
              (IntegerType "U8Range" 0 10)
              (DataType.mk "U8Range" None (Some "C(0,10)") None)
              eq_refl eq_refl eq_refl eq_refl Hd) as [Hodd _].
  destruct (add_autosar_port_not_atomic Sample.empty Cases.dangling
              (Some Cases.ws) Cases.ws
              (autosar.mkTypedElement "Range" "/DataType/U8Range")
              (IntegerType "U8Range" 0 10)
              (DataType.mk "U8Range" None (Some "C(0,10)") None)
              eq_refl eq_refl eq_refl eq_refl Hd) as [_ Hdangling].
  rewrite (Hodd _ eq_refl).
  rewrite (Hdangling "/Constant/Missing" (or_introl eq_refl) eq_refl eq_refl).
  repeat split.
Defined.

Lemma add_autosar_port_require_witness :
  ∃ s',
    add_autosar_port Sample.range_in (Some Sample.ws) Sample.empty
    = (s', Ok (Some 0))
    ∧ deref (ports s') (Node.requirePorts (self s'))
      = [Port.mk RequirePort "RangeIn" (Some "T[0]") (Some "=7") (Some 0)].
Proof.
  assert (Hupdate : _updateDataType Sample.ws Sample.range_in Sample.empty
                    = ((_updateDataType Sample.ws Sample.range_in
                          Sample.empty).1,
                       Ok (Some 0)))
    by (vm_compute; reflexivity).
  assert (Hattr : _calcAttributeFromAutosarPort Sample.ws Sample.range_in
                  = Ok (Some "=7"))
    by (vm_compute; reflexivity).
  eexists. split.
  - apply (add_autosar_port_require Sample.empty _ Sample.range_in
             (Some Sample.ws) Sample.ws 0 (Some "=7") (Some "T[0]")
             (Some "T[0]") eq_refl Hupdate eq_refl Hattr);
      vm_compute; reflexivity.
  - vm_compute. reflexivity.
Defined.

Lemma inner_find_registry_witness :
  _inner_find Sample.two_ports "Speed" = Some (TypeRef 0).
Proof.
  apply (inner_find_registry Sample.two_ports "Speed" 0).
  - apply imported_registry_ok, two_ports_imported.
  - vm_compute. reflexivity.
Defined.

Lemma AutosarPort_mirror_involutive_witness :
  ∃ p',
    AutosarPort.mirror Cases.legacy = Ok p'
    ∧ AutosarPort.mirror p' = Ok Cases.legacy
    ∧ AutosarPort.cls p' = AutosarPort.AutosarProvidePort.
Proof.
  destruct (AutosarPort_mirror_involutive Cases.legacy (Some "=0") eq_refl)
    as (p' & Hmirror & Hback & Hcls & _).
  exists p'. split; [exact Hmirror|]. split; [exact Hback|].
  destruct (AutosarPort.cls p') eqn:Hp'; [|reflexivity].
  exfalso. apply Hcls. reflexivity.
Defined.

Lemma mirror_lines_witness :
  ∃ s' m,
    mirror None Sample.two_ports = (s', Ok m)
    ∧ length (lines (with_self s' m)) = 5
    ∧ lines s' = lines Sample.two_ports.
Proof.
  destruct (mirror_lines None Sample.two_ports two_ports_valid)
    as (s' & m & Hrun & _ & Hlen & Hsame).
  exists s', m. split; [exact Hrun|]. split; [|exact Hsame].
  rewrite Hlen. vm_compute. reflexivity.
Defined.

Lemma add_type_registry_ok_witness :
  Node.dataTypes (self (add_type 2 Cases.crowded).1) = [0; 1; 2]
  ∧ registry_ok (add_type 2 Cases.crowded).1.
Proof.
  split; [vm_compute; reflexivity|].
  apply (add_type_registry_ok Cases.crowded 2).
  - vm_compute. lia.
  - apply (registry_ok_new_objects Sample.two_ports).
    apply imported_registry_ok, two_ports_imported.
Defined.

Lemma add_type_then_same_name_witness :
  add_type 0 (add_type 0 Sample.loose).1
  = ((add_type 0 Sample.loose).1,
     Raise (ValueError "Data type with name U8 already exists")).
Proof.
  assert (Hlt : 0 < length (types Sample.loose)) by (simpl; lia).
  assert (Hrun : add_type 0 Sample.loose
                 = ((add_type 0 Sample.loose).1, Ok 0))
    by (vm_compute; reflexivity).
  destruct (add_type_then_same_name Sample.loose _ 0 Hlt Hrun)
    as (_ & _ & Hagain).
  apply (Hagain 0); vm_compute; [lia|reflexivity].
Defined.

Lemma append_rejects_witness :
  append Cases.one_field (TextItem "R") Sample.empty
  = (Sample.empty, Raise (ValueError "invalid APX string: 'R'"))
  ∧ append Cases.one_field (OtherItem "int") Sample.empty
    = (Sample.empty, Raise (NameError "port")).
Proof.
  destruct (append_rejects Cases.one_field Sample.empty)
    as (Hother & Hfields & _).
  split; [|apply Hother].
  apply (Hfields "R" ["R"]); [reflexivity|simpl; lia].
Defined.

Lemma import_keeps_store_witness :
  types Sample.two_ports
  `prefix_of` types (add_autosar_port Sample.pair_in (Some Sample.ws)
                       Sample.two_ports).1.
Proof.
  exact (proj1 (proj1 (import_keeps_store Sample.pair_in
                         (autosar.mkSwc "Empty" [] []) (Some Sample.ws) None
                         Sample.two_ports))).
Defined.

End MoreExamples.
